(** * zhdate: Chinese lunar dates over a packed year table

    A shallow embedding of [zhdate/main.py] (class [ZhDate]) together with
    the parts of Python's [list], [str] and [datetime] semantics the class
    relies on, followed by the properties of the codec, the validator, the
    two converters and the traditional formatter.

    Python integers are [Z]; Python exceptions are the constructors of
    [exn]; a computation that may raise has type [result A]. *)

From Stdlib Require Import String Ascii DecimalString.
From Stdlib Require Import ZArith List Bool Lia.
Import ListNotations.

Local Open Scope Z_scope.

(* ================================================================== *)
(** * Part I. Definitions                                               *)
(* ================================================================== *)

(** ** Exceptions and the error monad *)

Inductive exn : Type :=
| IndexError
| ValueError
| OverflowError
| UnboundLocalError
| TypeError (msg : string).

Inductive result (A : Type) : Type :=
| Ok (a : A)
| Raise (e : exn).

Arguments Ok {A} a.
Arguments Raise {A} e.

Definition bind {A B : Type} (c : result A) (k : A -> result B) : result B :=
  match c with
  | Ok a => k a
  | Raise e => Raise e
  end.

Notation "x <- c ;; k" := (bind c (fun x => k))
  (at level 61, c at next level, right associativity).

Notation "' pat <- c ;; k" :=
  (bind c (fun x => match x with pat => k end))
  (at level 61, pat pattern, c at next level, right associativity).

(** ** Python built-ins used by the class *)

Module Py.

(** Truth value of an integer ([if n:]). *)
Definition truthy (n : Z) : bool := negb (n =? 0).

(** [bool] used as an integer ([n -= flag]). *)
Definition int_of_bool (b : bool) : Z := if b then 1 else 0.

Definition len {A : Type} (l : list A) : Z := Z.of_nat (List.length l).

(** [range(lo, hi)]. *)
Definition range (lo hi : Z) : list Z :=
  map (fun k => lo + Z.of_nat k) (seq 0 (Z.to_nat (hi - lo))).

(** [l[i]]: a negative index counts from the end; anything still out of
    range raises [IndexError]. *)
Definition index {A : Type} (l : list A) (i : Z) : result A :=
  let j := if i <? 0 then i + len l else i in
  if j <? 0 then Raise IndexError
  else match nth_error l (Z.to_nat j) with
       | Some a => Ok a
       | None => Raise IndexError
       end.

(** [l.insert(i, x)]: the index is normalised like a slice bound, so an
    index past the end appends and one before the start prepends. *)
Definition insert {A : Type} (l : list A) (i : Z) (x : A) : list A :=
  let j := if i <? 0 then Z.max 0 (i + len l) else Z.min i (len l) in
  firstn (Z.to_nat j) l ++ x :: skipn (Z.to_nat j) l.

(** [l[:k]]. *)
Definition slice_to {A : Type} (l : list A) (k : Z) : list A :=
  let j := if k <? 0 then Z.max 0 (k + len l) else Z.min k (len l) in
  firstn (Z.to_nat j) l.

(** [sum(l)]. *)
Definition sum (l : list Z) : Z := fold_left Z.add l 0.

(** [itertools.accumulate(l)]: the running totals. *)
Fixpoint accumulate_from (acc : Z) (l : list Z) : list Z :=
  match l with
  | [] => []
  | x :: l' => (acc + x) :: accumulate_from (acc + x) l'
  end.

Definition accumulate (l : list Z) : list Z :=
  match l with
  | [] => []
  | x :: l' => x :: accumulate_from x l'
  end.

(** [enumerate(l)]. *)
Fixpoint enumerate_from {A : Type} (i : Z) (l : list A) : list (Z * A) :=
  match l with
  | [] => []
  | x :: l' => (i, x) :: enumerate_from (i + 1) l'
  end.

Definition enumerate {A : Type} (l : list A) : list (Z * A) :=
  enumerate_from 0 l.

(** [str(n)] for an integer. *)
Definition str (n : Z) : string := NilZero.string_of_int (Z.to_int n).

(** [s[i]] on a string of one-byte characters. *)
Definition str_index (s : string) (i : Z) : result ascii :=
  index (list_ascii_of_string s) i.

Definition digit_value (c : ascii) : option Z :=
  let n := Z.of_N (N_of_ascii c) in
  if (48 <=? n) && (n <=? 57) then Some (n - 48) else None.

(** [int(c)] for a one-character string: a decimal digit or
    [ValueError]. *)
Definition int_of_char (c : ascii) : result Z :=
  match digit_value c with
  | Some d => Ok d
  | None => Raise ValueError
  end.

End Py.

(** ** The part of the [datetime] module the class uses

    Naive [datetime] values in the proleptic Gregorian calendar, with the
    ordinal arithmetic of the reference implementation. *)

Module Datetime.

Record datetime : Type := mkdatetime {
  year : Z; month : Z; day : Z;
  hour : Z; minute : Z; second : Z; microsecond : Z
}.

Record timedelta : Type := mktimedelta {
  days : Z; seconds : Z; microseconds : Z
}.

Definition MAXORDINAL : Z := 3652059.

Definition is_leap (y : Z) : bool :=
  (y mod 4 =? 0) && (negb (y mod 100 =? 0) || (y mod 400 =? 0)).

Definition days_before_year (y : Z) : Z :=
  let p := y - 1 in p * 365 + p / 4 - p / 100 + p / 400.

Definition DAYS_IN_MONTH : list Z :=
  [-1; 31; 28; 31; 30; 31; 30; 31; 31; 30; 31; 30; 31].

Definition DAYS_BEFORE_MONTH : list Z :=
  [-1; 0; 31; 59; 90; 120; 151; 181; 212; 243; 273; 304; 334].

Definition days_in_month (y m : Z) : Z :=
  if (m =? 2) && is_leap y then 29
  else nth (Z.to_nat m) DAYS_IN_MONTH 0.

Definition days_before_month (y m : Z) : Z :=
  nth (Z.to_nat m) DAYS_BEFORE_MONTH 0
  + Py.int_of_bool ((2 <? m) && is_leap y).

Definition ymd2ord (y m d : Z) : Z :=
  days_before_year y + days_before_month y m + d.

(** Ordinal to (year, month, day); ordinal 1 is 0001-01-01. *)
Definition ord2ymd (ordinal : Z) : Z * Z * Z :=
  let n := ordinal - 1 in
  let n400 := n / 146097 in
  let n := n mod 146097 in
  let y := n400 * 400 + 1 in
  let n100 := n / 36524 in
  let n := n mod 36524 in
  let n4 := n / 1461 in
  let n := n mod 1461 in
  let n1 := n / 365 in
  let n := n mod 365 in
  let y := y + n100 * 100 + n4 * 4 + n1 in
  if (n1 =? 4) || (n100 =? 4) then (y - 1, 12, 31)
  else
    let leapyear := (n1 =? 3) && (negb (n4 =? 24) || (n100 =? 3)) in
    let m := Z.shiftr (n + 50) 5 in
    let preceding :=
      nth (Z.to_nat m) DAYS_BEFORE_MONTH 0
      + Py.int_of_bool ((2 <? m) && leapyear) in
    if n <? preceding then
      let m := m - 1 in
      let preceding :=
        preceding - (nth (Z.to_nat m) DAYS_IN_MONTH 0
                     + Py.int_of_bool ((m =? 2) && leapyear)) in
      (y, m, n - preceding + 1)
    else (y, m, n - preceding + 1).

(** The field checks of the [datetime] constructor, date part. *)
Definition valid_date (y m d : Z) : bool :=
  (1 <=? y) && (y <=? 9999) && (1 <=? m) && (m <=? 12)
  && (1 <=? d) && (d <=? days_in_month y m).

Definition valid_time (dt : datetime) : bool :=
  (0 <=? hour dt) && (hour dt <=? 23)
  && (0 <=? minute dt) && (minute dt <=? 59)
  && (0 <=? second dt) && (second dt <=? 59)
  && (0 <=? microsecond dt) && (microsecond dt <=? 999999).

(** Values the constructor accepts. *)
Definition valid (dt : datetime) : bool :=
  valid_date (year dt) (month dt) (day dt) && valid_time dt.

Definition toordinal (dt : datetime) : Z :=
  ymd2ord (year dt) (month dt) (day dt).

(** [timedelta(days, seconds, microseconds)] on integers: carries are
    normalised, and the day count is limited to nine digits. *)
Definition timedelta_new (d s us : Z) : result timedelta :=
  let s := s + us / 1000000 in
  let us := us mod 1000000 in
  let d := d + s / 86400 in
  let s := s mod 86400 in
  if Z.abs d >? 999999999 then Raise OverflowError
  else Ok (mktimedelta d s us).

Definition secs_of_day (dt : datetime) : Z :=
  second dt + minute dt * 60 + hour dt * 3600.

(** [a - b] for two naive datetimes. *)
Definition sub (a b : datetime) : result timedelta :=
  timedelta_new (toordinal a - toordinal b)
                (secs_of_day a - secs_of_day b)
                (microsecond a - microsecond b).

(** [td.total_seconds()] is the quotient of this integer by [10**6]
    (a float, positive exactly when this integer is). *)
Definition total_microseconds (td : timedelta) : Z :=
  (days td * 86400 + seconds td) * 1000000 + microseconds td.

(** [td.total_seconds() > 0]. *)
Definition total_seconds_pos (td : timedelta) : bool :=
  0 <? total_microseconds td.

(** [dt + td]: the sum is formed on (ordinal, seconds, microseconds) and
    converted back; an ordinal outside [1, MAXORDINAL] overflows. *)
Definition add (dt : datetime) (td : timedelta) : result datetime :=
  self <- timedelta_new (toordinal dt) (secs_of_day dt) (microsecond dt) ;;
  delta <- timedelta_new (days self + days td)
                         (seconds self + seconds td)
                         (microseconds self + microseconds td) ;;
  let h := seconds delta / 3600 in
  let rem := seconds delta mod 3600 in
  if (0 <? days delta) && (days delta <=? MAXORDINAL) then
    let '(y, m, d) := ord2ymd (days delta) in
    Ok (mkdatetime y m d h (rem / 60) (rem mod 60) (microseconds delta))
  else Raise OverflowError.

(** [-td]. *)
Definition timedelta_neg (td : timedelta) : result timedelta :=
  timedelta_new (- days td) (- seconds td) (- microseconds td).

(** [dt - td], computed as [dt + -td]. *)
Definition sub_timedelta (dt : datetime) (td : timedelta) : result datetime :=
  ntd <- timedelta_neg td ;;
  add dt ntd.

(** *** [datetime.strptime(s, "%Y%m%d")]

    The format compiles to the pattern
    [(\d\d\d\d)(1[0-2]|0[1-9]|[1-9])(3[01]|[12]\d|0[1-9]|[1-9]| [1-9])],
    matched at the start of the string with ordered alternatives; input
    left over after the match, or a day the month does not have, is a
    [ValueError].  Characters are bytes, digits are ASCII digits. *)

Definition digits_value (cs : list ascii) : option Z :=
  fold_left (fun acc c =>
               match acc, Py.digit_value c with
               | Some a, Some d => Some (10 * a + d)
               | _, _ => None
               end) cs (Some 0).

(** The day group: first alternative that matches, with what follows. *)
Definition match_day (cs : list ascii) : option (Z * list ascii) :=
  match cs with
  | c1 :: c2 :: rest =>
      match Py.digit_value c1, Py.digit_value c2 with
      | Some 3, Some d2 =>
          if d2 <=? 1 then Some (30 + d2, rest) else Some (3, c2 :: rest)
      | Some 1, Some d2 => Some (10 + d2, rest)
      | Some 2, Some d2 => Some (20 + d2, rest)
      | Some 0, Some d2 => if 1 <=? d2 then Some (d2, rest) else None
      | Some d1, _ => if 1 <=? d1 then Some (d1, c2 :: rest) else None
      | None, Some d2 =>
          if (Ascii.eqb c1 " ") && (1 <=? d2) then Some (d2, rest) else None
      | None, None => None
      end
  | [c1] =>
      match Py.digit_value c1 with
      | Some d1 => if 1 <=? d1 then Some (d1, []) else None
      | None => None
      end
  | [] => None
  end.

(** The month group followed by the day group, backtracking from the
    two-character month alternatives to the one-character one. *)
Definition match_month_day (cs : list ascii) : option (Z * Z * list ascii) :=
  let one :=
    match cs with
    | c1 :: rest =>
        match Py.digit_value c1 with
        | Some d1 =>
            if 1 <=? d1 then
              match match_day rest with
              | Some (d, rest') => Some (d1, d, rest')
              | None => None
              end
            else None
        | None => None
        end
    | [] => None
    end in
  let two :=
    match cs with
    | c1 :: c2 :: rest =>
        match Py.digit_value c1, Py.digit_value c2 with
        | Some d1, Some d2 =>
            if ((d1 =? 1) && (d2 <=? 2)) || ((d1 =? 0) && (1 <=? d2)) then
              match match_day rest with
              | Some (d, rest') => Some (10 * d1 + d2, d, rest')
              | None => None
              end
            else None
        | _, _ => None
        end
    | _ => None
    end in
  match two with
  | Some r => Some r
  | None => one
  end.

Definition strptime_Ymd (s : string) : result datetime :=
  match list_ascii_of_string s with
  | y1 :: y2 :: y3 :: y4 :: cs =>
      match digits_value [y1; y2; y3; y4], match_month_day cs with
      | Some y, Some (m, d, []) =>
          if valid_date y m d then Ok (mkdatetime y m d 0 0 0 0)
          else Raise ValueError
      | _, _ => Raise ValueError
      end
  | _ => Raise ValueError
  end.

End Datetime.

(** ** The constant tables *)

(** Modelled from the spec: the module [zhdate/constants.py], from which
    [main.py] imports six tables, is not among the sources.  The tables
    are parameters of the embedding, and each property states what it
    needs of them.  A table that is a Python string indexed by character
    is a list of one-character strings here. *)

Class Constants : Type := {
  (** one ["YYYYMMDD"] string per year from 1900: the lunar New Year *)
  LUNARNEWYEAR : list string;
  (** one packed code per year from 1900 *)
  LUNARYEARCODE : list Z;
  (** numerals for 0..10 *)
  ZHNUMS : list string;
  (** the twelve zodiac animals *)
  SHENGXIAO : list string;
  (** the ten heavenly stems *)
  TIANGAN : list string;
  (** the twelve earthly branches *)
  DIZHI : list string
}.

(** ** class [ZhDate] *)

Section ZhDateClass.

Context {K : Constants}.

Import Datetime.

Record ZhDate : Type := mkZhDate {
  lunar_year : Z;
  lunar_month : Z;
  lunar_day : Z;
  leap_month : bool;
  year_code : Z;
  newyear : datetime
}.

(** [ZhDate.decode] *)
Definition decode (year_code : Z) : list Z :=
  let month_days :=
    fold_left
      (fun month_days i =>
         Py.insert month_days 0
           (if Py.truthy (Z.land (Z.shiftr year_code i) 1) then 30 else 29))
      (Py.range 4 16) [] in
  if Py.truthy (Z.land year_code 0xF) then
    Py.insert month_days (Z.land year_code 0xF)
      (if Py.truthy (Z.shiftr year_code 16) then 30 else 29)
  else month_days.

(** [ZhDate.month_days] *)
Definition month_days (year : Z) : result (list Z) :=
  code <- Py.index LUNARYEARCODE (year - 1900) ;;
  Ok (decode code).

(** [ZhDate.validate] *)
Definition validate (year month day : Z) (leap : bool) : result bool :=
  if negb ((1900 <=? year) && (year <=? 2100)
           && (1 <=? month) && (month <=? 12)
           && (1 <=? day) && (day <=? 30))
  then Ok false
  else
    year_code <- Py.index LUNARYEARCODE (year - 1900) ;;
    if leap then
      if negb (Z.land year_code 0xF =? month) then Ok false
      else if day =? 30 then Ok (Z.shiftr year_code 16 =? 1)
      else Ok true
    else if day <=? 29 then Ok true
    else Ok (Z.land (Z.shiftr year_code ((12 - month) + 4)) 1 =? 1).

(** [ZhDate.__str__], on the four fields. *)
Definition str_fields (y m d : Z) (leap : bool) : string :=
  ("农历" ++ Py.str y ++ "年" ++ (if leap then "闰" else "")
     ++ Py.str m ++ "月" ++ Py.str d ++ "日")%string.

Definition __str__ (self : ZhDate) : string :=
  str_fields (lunar_year self) (lunar_month self) (lunar_day self)
             (leap_month self).

(** The message of the [TypeError] the constructor raises. *)
Definition invalid_message (y m d : Z) (leap : bool) : string :=
  ("农历日期不支持所谓“" ++ str_fields y m d leap
     ++ "”，超出农历1900年1月1日至2100年12月29日，或日期不存在")%string.

(** [ZhDate.__init__]: the constructor, returning the object. *)
Definition __init__ (lunar_year lunar_month lunar_day : Z) (leap_month : bool)
  : result ZhDate :=
  year_code <- Py.index LUNARYEARCODE (lunar_year - 1900) ;;
  s <- Py.index LUNARNEWYEAR (lunar_year - 1900) ;;
  newyear <- strptime_Ymd s ;;
  ok <- validate lunar_year lunar_month lunar_day leap_month ;;
  if negb ok then
    Raise (TypeError
             (invalid_message lunar_year lunar_month lunar_day leap_month))
  else
    Ok (mkZhDate lunar_year lunar_month lunar_day leap_month
                 year_code newyear).

(** [ZhDate.__days_passed] *)
Definition __days_passed (self : ZhDate) : Z :=
  let month_days := decode (year_code self) in
  let month_leap := Z.land (year_code self) 0xF in
  let days_passed_month :=
    if (month_leap =? 0) || (lunar_month self <? month_leap) then
      Py.sum (Py.slice_to month_days (lunar_month self - 1))
    else if negb (leap_month self) && (lunar_month self =? month_leap) then
      Py.sum (Py.slice_to month_days (lunar_month self - 1))
    else
      Py.sum (Py.slice_to month_days (lunar_month self)) in
  days_passed_month + lunar_day self - 1.

(** [ZhDate.to_datetime] *)
Definition to_datetime (self : ZhDate) : result datetime :=
  td <- timedelta_new (__days_passed self) 0 0 ;;
  add (newyear self) td.

(** The [for ... break] loop of [from_datetime]: the first running
    total that reaches [days_passed + 1] fixes [month] and [lunar_day];
    when none does, the names stay unbound and their first use raises. *)
Definition find_month (month_days : list Z) (days_passed : Z)
  : result (Z * Z) :=
  match find (fun '(pos, days) => days_passed + 1 <=? days)
             (Py.enumerate (Py.accumulate month_days)) with
  | Some (pos, days) =>
      len_pos <- Py.index month_days pos ;;
      Ok (pos + 1, len_pos - (days - days_passed) + 1)
  | None => Raise UnboundLocalError
  end.

(** [ZhDate.from_datetime] *)
Definition from_datetime (dt : datetime) : result ZhDate :=
  let lunar_year := year dt in
  s <- Py.index LUNARNEWYEAR (lunar_year - 1900) ;;
  ny <- strptime_Ymd s ;;
  gap <- sub ny dt ;;
  let lunar_year := lunar_year - Py.int_of_bool (total_seconds_pos gap) in
  s <- Py.index LUNARNEWYEAR (lunar_year - 1900) ;;
  newyear_dt <- strptime_Ymd s ;;
  since <- sub dt newyear_dt ;;
  let days_passed := days since in
  year_code <- Py.index LUNARYEARCODE (lunar_year - 1900) ;;
  let month_days := decode year_code in
  '(month, lunar_day) <- find_month month_days days_passed ;;
  let lunar_month :=
    if (Z.land year_code 0xF =? 0) || (month <=? Z.land year_code 0xF)
    then month else month - 1 in
  let leap_month :=
    negb (Z.land year_code 0xF =? 0)
    && (month =? Z.land year_code 0xF + 1) in
  __init__ lunar_year lunar_month lunar_day leap_month.

(** [ZhDate.__eq__] *)
Definition __eq__ (self another : ZhDate) : bool :=
  (lunar_year self =? lunar_year another)
  && (lunar_month self =? lunar_month another)
  && (lunar_day self =? lunar_day another)
  && Bool.eqb (leap_month self) (leap_month another).

(** [ZhDate.__tiandi] *)
Definition __tiandi (anum : Z) : result string :=
  t <- Py.index TIANGAN (anum mod 10) ;;
  d <- Py.index DIZHI (anum mod 12) ;;
  Ok (t ++ d)%string.

(** The first loop of [chinese]: one numeral per character of
    [str(lunar_year)], four of them. *)
Definition zh_year_loop (y : Z) : result string :=
  fold_left
    (fun acc i =>
       zh_year <- acc ;;
       c <- Py.str_index (Py.str y) i ;;
       n <- Py.int_of_char c ;;
       g <- Py.index ZHNUMS n ;;
       Ok (zh_year ++ g)%string)
    (Py.range 0 4) (Ok ""%string).

(** [ZhDate.chinese] *)
Definition chinese (self : ZhDate) : result string :=
  zh_year <- zh_year_loop (lunar_year self) ;;
  let zh_month := if leap_month self then "闰"%string else ""%string in
  zh_month <-
    (if lunar_month self =? 1 then Ok (zh_month ++ "正")%string
     else if lunar_month self =? 12 then Ok (zh_month ++ "腊")%string
     else if lunar_month self <=? 10 then
       g <- Py.index ZHNUMS (lunar_month self) ;;
       Ok (zh_month ++ g)%string
     else
       g <- Py.index ZHNUMS (lunar_month self - 10) ;;
       Ok (zh_month ++ "十" ++ g)%string) ;;
  zh_day <-
    (if lunar_day self <=? 10 then
       g <- Py.index ZHNUMS (lunar_day self) ;; Ok ("初" ++ g)%string
     else if lunar_day self <? 20 then
       g <- Py.index ZHNUMS (lunar_day self - 10) ;; Ok ("十" ++ g)%string
     else if lunar_day self =? 20 then Ok "二十"%string
     else if lunar_day self <? 30 then
       g <- Py.index ZHNUMS (lunar_day self - 20) ;; Ok ("廿" ++ g)%string
     else Ok "三十"%string) ;;
  year_tiandi <- __tiandi (lunar_year self - 1900 + 36) ;;
  sx <- Py.index SHENGXIAO ((lunar_year self - 1900) mod 12) ;;
  Ok (zh_year ++ "年" ++ zh_month ++ "月" ++ zh_day ++ " "
        ++ year_tiandi ++ sx ++ "年")%string.

(** [ZhDate.__repr__] *)
Definition __repr__ (self : ZhDate) : string := __str__ self.

(** The operands the operators test with [isinstance]: an [int], a
    [ZhDate], a [datetime], or anything else. *)
Inductive value : Type :=
| VInt (n : Z)
| VZhDate (z : ZhDate)
| VDatetime (dt : datetime)
| VOther.

(** [ZhDate.__eq__] with its operand check. *)
Definition eq_operand (self : ZhDate) (another : value) : result bool :=
  match another with
  | VZhDate z => Ok (__eq__ self z)
  | _ => Raise (TypeError "比较必须都是ZhDate类型")
  end.

(** [ZhDate.__add__] *)
Definition __add__ (self : ZhDate) (another : value) : result ZhDate :=
  match another with
  | VInt n =>
      dt <- to_datetime self ;;
      td <- timedelta_new n 0 0 ;;
      moved <- add dt td ;;
      from_datetime moved
  | _ => Raise (TypeError "加法只支持整数天数相加")
  end.

(** [ZhDate.__sub__]: a date for an [int] operand, a number of days for a
    [ZhDate] or a [datetime]. *)
Definition __sub__ (self : ZhDate) (another : value) : result value :=
  match another with
  | VInt n =>
      dt <- to_datetime self ;;
      td <- timedelta_new n 0 0 ;;
      moved <- sub_timedelta dt td ;;
      z <- from_datetime moved ;;
      Ok (VZhDate z)
  | VZhDate z =>
      a <- to_datetime self ;;
      b <- to_datetime z ;;
      td <- sub a b ;;
      Ok (VInt (days td))
  | VDatetime dt =>
      a <- to_datetime self ;;
      td <- sub a dt ;;
      Ok (VInt (days td))
  | VOther => Raise (TypeError "减法只支持整数，ZhDate, Datetime类型")
  end.

End ZhDateClass.

(** ** A concrete set of tables

    An instance of the tables in the documented format, 201 years from
    1900 with the New Year of 1900 on 31 January, on which the
    assumptions of the properties are checked by computation and the
    class is evaluated on concrete dates. *)

Definition sample_LUNARYEARCODE : list Z :=
  [
     19416; 19168; 42352; 21717; 53856; 55632; 91476; 22176; 39632; 21970;
     19168; 42422; 42192; 53840; 119381; 46400; 54944; 44450; 38320; 84343;
     18800; 42160; 46261; 27216; 27968; 109396; 11104; 38256; 21234; 18800;
     25958; 54432; 59984; 92821; 23248; 11104; 100067; 37600; 116951; 51536;
     54432; 120998; 46416; 22176; 107956; 9680; 37584; 53938; 43344; 46423;
     27808; 46416; 86869; 19872; 42416; 83315; 21168; 43432; 59728; 27296;
     44710; 43856; 19296; 43748; 42352; 21088; 62051; 55632; 23383; 22176;
     38608; 19925; 19152; 42192; 54484; 53840; 54616; 46400; 46752; 103846;
     38320; 18864; 43380; 42160; 45690; 27216; 27968; 44870; 43872; 38256;
     19189; 18800; 25776; 29859; 59984; 27480; 23232; 43872; 38613; 37600;
     51552; 55636; 54432; 55888; 30034; 22176; 43959; 9680; 37584; 51893;
     43344; 46240; 47780; 44368; 21977; 19360; 42416; 86390; 21168; 43312;
     31060; 27296; 44368; 23378; 19296; 42726; 42208; 53856; 60005; 54576;
     23200; 30371; 38608; 19195; 19152; 42192; 118966; 53840; 54560; 56645;
     46496; 22224; 21938; 18864; 42359; 42160; 43600; 111189; 27936; 44448;
     84835; 37744; 18936; 18800; 25776; 92326; 59984; 27296; 108228; 43744;
     37600; 53987; 51552; 54615; 54432; 55888; 23893; 22176; 42704; 21972;
     21200; 43448; 43344; 46240; 46758; 44368; 21920; 43940; 42416; 21168;
     45683; 26928; 29495; 27296; 44368; 84821; 19296; 42352; 21732; 53600;
     59752; 54560; 55968; 92838; 22224; 19168; 43476; 41680; 53584; 62034;
     54560
  ].

Definition sample_LUNARNEWYEAR : list string :=
  [
     "19000131"; "19010219"; "19020208"; "19030129"; "19040216"; "19050204";
     "19060125"; "19070213"; "19080202"; "19090122"; "19100210"; "19110130";
     "19120218"; "19130206"; "19140126"; "19150214"; "19160203"; "19170123";
     "19180211"; "19190201"; "19200220"; "19210208"; "19220128"; "19230216";
     "19240205"; "19250124"; "19260213"; "19270202"; "19280123"; "19290210";
     "19300130"; "19310217"; "19320206"; "19330126"; "19340214"; "19350204";
     "19360124"; "19370211"; "19380131"; "19390219"; "19400208"; "19410127";
     "19420215"; "19430205"; "19440125"; "19450213"; "19460202"; "19470122";
     "19480210"; "19490129"; "19500217"; "19510206"; "19520127"; "19530214";
     "19540203"; "19550124"; "19560212"; "19570131"; "19580218"; "19590208";
     "19600128"; "19610215"; "19620205"; "19630125"; "19640213"; "19650202";
     "19660121"; "19670209"; "19680130"; "19690217"; "19700206"; "19710127";
     "19720215"; "19730203"; "19740123"; "19750211"; "19760131"; "19770218";
     "19780207"; "19790128"; "19800216"; "19810205"; "19820125"; "19830213";
     "19840202"; "19850220"; "19860209"; "19870129"; "19880217"; "19890206";
     "19900127"; "19910215"; "19920204"; "19930123"; "19940210"; "19950131";
     "19960219"; "19970207"; "19980128"; "19990216"; "20000205"; "20010124";
     "20020212"; "20030201"; "20040122"; "20050209"; "20060129"; "20070218";
     "20080207"; "20090126"; "20100214"; "20110203"; "20120123"; "20130210";
     "20140131"; "20150219"; "20160208"; "20170128"; "20180216"; "20190205";
     "20200125"; "20210212"; "20220201"; "20230122"; "20240210"; "20250129";
     "20260217"; "20270206"; "20280126"; "20290213"; "20300203"; "20310123";
     "20320211"; "20330131"; "20340219"; "20350208"; "20360128"; "20370215";
     "20380204"; "20390124"; "20400212"; "20410201"; "20420122"; "20430210";
     "20440130"; "20450217"; "20460206"; "20470126"; "20480214"; "20490202";
     "20500123"; "20510211"; "20520201"; "20530219"; "20540208"; "20550128";
     "20560215"; "20570204"; "20580124"; "20590212"; "20600202"; "20610121";
     "20620209"; "20630129"; "20640217"; "20650205"; "20660126"; "20670214";
     "20680203"; "20690123"; "20700211"; "20710131"; "20720219"; "20730207";
     "20740127"; "20750215"; "20760205"; "20770124"; "20780212"; "20790202";
     "20800122"; "20810209"; "20820129"; "20830217"; "20840206"; "20850126";
     "20860214"; "20870203"; "20880124"; "20890210"; "20900130"; "20910218";
     "20920207"; "20930127"; "20940215"; "20950205"; "20960125"; "20970212";
     "20980201"; "20990121"; "21000209"
  ]%string.

Definition sample_constants : Constants := {|
  LUNARNEWYEAR := sample_LUNARNEWYEAR;
  LUNARYEARCODE := sample_LUNARYEARCODE;
  ZHNUMS := ["〇"; "一"; "二"; "三"; "四"; "五"; "六"; "七"; "八"; "九"; "十"]%string;
  SHENGXIAO := ["鼠"; "牛"; "虎"; "兔"; "龙"; "蛇"; "马"; "羊"; "猴"; "鸡"; "狗"; "猪"]%string;
  TIANGAN := ["甲"; "乙"; "丙"; "丁"; "戊"; "己"; "庚"; "辛"; "壬"; "癸"]%string;
  DIZHI := ["子"; "丑"; "寅"; "卯"; "辰"; "巳"; "午"; "未"; "申"; "酉"; "戌"; "亥"]%string
|}.

(** ** Specification-side definitions

    What the specification says of the codec, stated independently of
    [decode]. *)

Definition month_len (long : bool) : Z := if long then 30 else 29.

(** The leap field, bits 0..3. *)
Definition leap_field (code : Z) : Z := Z.land code 0xF.

(** A packed year code as the data model describes it: a regular-month
    bit for each of bits 4..15, a leap-month index of at most 12 in bits
    0..3, the leap-month length in bit 16 and nothing above. *)
Definition packed (code : Z) : Prop :=
  0 <= code < 2 ^ 17 /\ leap_field code <= 12.

(** Regular months 1..12 in order, month [m] read from bit [16 - m]. *)
Definition spec_regular (code : Z) : list Z :=
  map (fun m => month_len (Z.testbit code (16 - m))) (Py.range 1 13).

(** The regular months with the leap month, if any, put at 0-based
    position [L]. *)
Definition spec_decode (code : Z) : list Z :=
  let L := leap_field code in
  if L =? 0 then spec_regular code
  else firstn (Z.to_nat L) (spec_regular code)
         ++ month_len (Z.testbit code 16)
         :: skipn (Z.to_nat L) (spec_regular code).

(** The position in [decode]'s result of regular month [m]. *)
Definition regular_index (code m : Z) : Z :=
  if (leap_field code =? 0) || (m <=? leap_field code) then m - 1 else m.

(** The slot of [decode]'s result a lunar month occupies: regular month
    [m] sits at 0-based position [m - 1] up to the leap month and at [m]
    after it; the leap month itself sits at position [L]. *)
Definition slot_index (code m : Z) (leap : bool) : Z :=
  if (leap_field code =? 0) || (m <? leap_field code)
     || (negb leap && (m =? leap_field code))
  then m - 1 else m.

(** The lunar month and leap flag [from_datetime] assigns to the 1-based
    slot the loop stopped at. *)
Definition month_of_slot (code slot : Z) : Z :=
  if (leap_field code =? 0) || (slot <=? leap_field code)
  then slot else slot - 1.

Definition leap_of_slot (code slot : Z) : bool :=
  negb (leap_field code =? 0) && (slot =? leap_field code + 1).

(** The ranges the validator checks first. *)
Definition in_range (y m d : Z) : Prop :=
  1900 <= y <= 2100 /\ 1 <= m <= 12 /\ 1 <= d <= 30.

(** ** Dates *)

(** A calendar date: a year from 1 on, a month, a day of that month. *)
Definition date_ok (y m d : Z) : Prop :=
  1 <= y /\ 1 <= m <= 12 /\ 1 <= d <= Datetime.days_in_month y m.

(** The same date at 00:00:00. *)
Definition midnight (dt : Datetime.datetime) : Datetime.datetime :=
  Datetime.mkdatetime (Datetime.year dt) (Datetime.month dt)
                      (Datetime.day dt) 0 0 0 0.

(** The date of an ordinal, at 00:00:00. *)
Definition fromordinal (o : Z) : Datetime.datetime :=
  let '(y, m, d) := Datetime.ord2ymd o in
  Datetime.mkdatetime y m d 0 0 0 0.

Definition at_midnight (dt : Datetime.datetime) : Prop :=
  Datetime.hour dt = 0 /\ Datetime.minute dt = 0
  /\ Datetime.second dt = 0 /\ Datetime.microsecond dt = 0.

(** ** What the properties assume of the tables *)

Section TableAssumptions.

Context {K : Constants}.

(** [datetime.strptime(LUNARNEWYEAR[y - 1900], "%Y%m%d")] *)
Definition newyear_of (y : Z) : result Datetime.datetime :=
  s <- Py.index LUNARNEWYEAR (y - 1900) ;;
  Datetime.strptime_Ymd s.

(** [LUNARYEARCODE[y - 1900]] *)
Definition code_of (y : Z) : result Z :=
  Py.index LUNARYEARCODE (y - 1900).

(** Both year tables cover 1900..2100. *)
Definition table_size : Prop :=
  length LUNARYEARCODE = 201%nat /\ length LUNARNEWYEAR = 201%nat.

(** Every New Year entry is a date of its own Gregorian year. *)
Definition newyears_dated : Prop :=
  forall y, 1900 <= y <= 2100 ->
    exists ny, newyear_of y = Ok ny /\ Datetime.year ny = y.

(** Every code has the packed layout. *)
Definition codes_packed : Prop := Forall packed LUNARYEARCODE.

(** The months of a year fill the days up to the next New Year. *)
Definition newyears_chained : Prop :=
  forall y c a b, 1900 <= y < 2100 ->
    code_of y = Ok c -> newyear_of y = Ok a -> newyear_of (y + 1) = Ok b ->
    Datetime.toordinal b = Datetime.toordinal a + Py.sum (decode c).

(** The months of the last year reach the end of Gregorian 2100. *)
Definition last_year_complete : Prop :=
  forall c a, code_of 2100 = Ok c -> newyear_of 2100 = Ok a ->
    Datetime.ymd2ord 2101 1 1
    <= Datetime.toordinal a + Py.sum (decode c).

Record tables_ok : Prop := {
  ok_size : table_size;
  ok_dated : newyears_dated;
  ok_packed : codes_packed;
  ok_chained : newyears_chained;
  ok_last : last_year_complete
}.

(** The glyph tables have the sizes the formatter indexes into. *)
Definition glyphs_ok : Prop :=
  (11 <= length ZHNUMS)%nat /\ length TIANGAN = 10%nat
  /\ length DIZHI = 12%nat /\ length SHENGXIAO = 12%nat.

(** *** The traditional rendering, as specified *)

Definition glyph (table : list string) (i : Z) : string :=
  nth (Z.to_nat i) table ""%string.

(** Four numerals, one per decimal digit of the year. *)
Definition spec_year_glyphs (y : Z) : string :=
  (glyph ZHNUMS (y / 1000 mod 10) ++ glyph ZHNUMS (y / 100 mod 10)
     ++ glyph ZHNUMS (y / 10 mod 10) ++ glyph ZHNUMS (y mod 10))%string.

Definition spec_month_name (m : Z) : string :=
  if m =? 1 then "正"%string
  else if m =? 12 then "腊"%string
  else if m =? 11 then ("十" ++ glyph ZHNUMS 1)%string
  else glyph ZHNUMS m.

Definition spec_day_name (d : Z) : string :=
  if d <=? 10 then ("初" ++ glyph ZHNUMS d)%string
  else if d <=? 19 then ("十" ++ glyph ZHNUMS (d - 10))%string
  else if d =? 20 then "二十"%string
  else if d <=? 29 then ("廿" ++ glyph ZHNUMS (d - 20))%string
  else "三十"%string.

Definition spec_stem_branch (y : Z) : string :=
  (glyph TIANGAN ((y - 1900 + 36) mod 10)
     ++ glyph DIZHI ((y - 1900 + 36) mod 12))%string.

Definition spec_zodiac (y : Z) : string :=
  glyph SHENGXIAO ((y - 1900) mod 12).

Definition spec_chinese (y m d : Z) (leap : bool) : string :=
  (spec_year_glyphs y ++ "年" ++ (if leap then "闰" else "")
     ++ spec_month_name m ++ "月" ++ spec_day_name d ++ " "
     ++ spec_stem_branch y ++ spec_zodiac y ++ "年")%string.

(** A date an evaluation of the constructor returned. *)
Definition constructed (z : ZhDate) : Prop :=
  exists y m d leap, __init__ y m d leap = Ok z.

(** The ordinal of the Gregorian day of a lunar date: its New Year plus
    the days passed. *)
Definition ordinal_of (z : ZhDate) : Z :=
  Datetime.toordinal (newyear z) + __days_passed z.

(** The slot of its year a date lies in. *)
Definition slot_of (z : ZhDate) : Z :=
  slot_index (year_code z) (lunar_month z) (leap_month z).

(** The order of lunar dates by year, slot and day. *)
Definition lunar_before (z1 z2 : ZhDate) : Prop :=
  lunar_year z1 < lunar_year z2
  \/ (lunar_year z1 = lunar_year z2
      /\ (slot_of z1 < slot_of z2
          \/ (slot_of z1 = slot_of z2 /\ lunar_day z1 < lunar_day z2))).

End TableAssumptions.

(** The ordinals [datetime] can represent. *)
Definition ordinal_in_range (o : Z) : bool :=
  (1 <=? o) && (o <=? Datetime.MAXORDINAL).

(** Decidable forms of the table assumptions, for concrete tables. *)

Definition result_eqb {A : Type} (eqb : A -> A -> bool) (a b : result A)
  : bool :=
  match a, b with
  | Ok x, Ok y => eqb x y
  | _, _ => false
  end.

(** The digit [int(str(y)[i])] the formatter reads, and its check against
    the decimal digits of a four-digit year. *)
Definition year_digit (y i : Z) : result Z :=
  c <- Py.str_index (Py.str y) i ;; Py.int_of_char c.

Definition year_digits_checkb (y : Z) : bool :=
  forallb (fun i =>
             result_eqb Z.eqb (year_digit y i) (Ok (y / 10 ^ (3 - i) mod 10)))
          (Py.range 0 4).

Definition packedb (code : Z) : bool :=
  (0 <=? code) && (code <? 2 ^ 17) && (leap_field code <=? 12).

Definition years : list Z := Py.range 1900 2101.

Definition newyears_datedb (K : Constants) : bool :=
  forallb (fun y =>
             match newyear_of y with
             | Ok ny => Datetime.year ny =? y
             | Raise _ => false
             end) years.

Definition newyears_chainedb (K : Constants) : bool :=
  forallb (fun y =>
             match code_of y, newyear_of y, newyear_of (y + 1) with
             | Ok c, Ok a, Ok b =>
                 Datetime.toordinal b
                 =? Datetime.toordinal a + Py.sum (decode c)
             | _, _, _ => false
             end) (Py.range 1900 2100).

Definition last_year_completeb (K : Constants) : bool :=
  match code_of 2100, newyear_of 2100 with
  | Ok c, Ok a =>
      Datetime.ymd2ord 2101 1 1
      <=? Datetime.toordinal a + Py.sum (decode c)
  | _, _ => false
  end.

Definition tables_okb (K : Constants) : bool :=
  (length LUNARYEARCODE =? 201)%nat && (length LUNARNEWYEAR =? 201)%nat
  && newyears_datedb K && forallb packedb LUNARYEARCODE
  && newyears_chainedb K && last_year_completeb K.

(* ================================================================== *)
(** * Part II. Properties                                               *)
(* ================================================================== *)

(** ** Bit tests *)

Lemma truthy_bit (c i : Z) :
  Py.truthy (Z.land (Z.shiftr c i) 1) = Z.testbit c i.
Proof.
  rewrite Z.testbit_odd, Zodd_mod.
  change 1 with (Z.ones 1) at 1. rewrite Z.land_ones by lia.
  change (2 ^ 1) with 2. unfold Py.truthy.
  pose proof (Z.mod_pos_bound (Z.shiftr c i) 2 ltac:(lia)).
  destruct (Z.eqb_spec (Z.shiftr c i mod 2) 0),
           (Z.eqb_spec (Z.shiftr c i mod 2) 1); simpl; lia || reflexivity.
Qed.

Lemma bit_is_one (c i : Z) :
  (Z.land (Z.shiftr c i) 1 =? 1) = Z.testbit c i.
Proof.
  rewrite Z.testbit_odd, Zodd_mod.
  change 1 with (Z.ones 1) at 1. rewrite Z.land_ones by lia.
  reflexivity.
Qed.

Lemma leap_field_range (c : Z) : 0 <= leap_field c < 16.
Proof.
  unfold leap_field. change 0xF with (Z.ones 4).
  rewrite Z.land_ones by lia. apply Z.mod_pos_bound. reflexivity.
Qed.

(** Under the 17-bit bound the codec's test of [code >> 16], the
    validator's comparison with 1 and bit 16 all agree. *)
Lemma leap_long_truthy (c : Z) :
  0 <= c < 2 ^ 17 -> Py.truthy (Z.shiftr c 16) = Z.testbit c 16.
Proof.
  intros H. rewrite Z.testbit_odd, Zodd_mod, Z.shiftr_div_pow2 by lia.
  unfold Py.truthy.
  assert (0 <= c / 2 ^ 16 < 2) by
    (split; [apply Z.div_pos; lia | apply Z.div_lt_upper_bound; lia]).
  assert (E : c / 2 ^ 16 = 0 \/ c / 2 ^ 16 = 1) by lia.
  destruct E as [-> | ->]; reflexivity.
Qed.

Lemma leap_long_is_one (c : Z) :
  0 <= c < 2 ^ 17 -> (Z.shiftr c 16 =? 1) = Z.testbit c 16.
Proof.
  intros H. rewrite Z.testbit_odd, Zodd_mod, Z.shiftr_div_pow2 by lia.
  assert (0 <= c / 2 ^ 16 < 2) by
    (split; [apply Z.div_pos; lia | apply Z.div_lt_upper_bound; lia]).
  assert (E : c / 2 ^ 16 = 0 \/ c / 2 ^ 16 = 1) by lia.
  destruct E as [-> | ->]; reflexivity.
Qed.

(** ** Python list operations *)

Lemma len_nonneg {A : Type} (l : list A) : 0 <= Py.len l.
Proof. unfold Py.len. lia. Qed.

Lemma insert_0 {A : Type} (l : list A) (x : A) : Py.insert l 0 x = x :: l.
Proof.
  unfold Py.insert. simpl.
  pose proof (len_nonneg l). rewrite Z.min_l by lia. reflexivity.
Qed.

Lemma insert_inside {A : Type} (l : list A) (i : Z) (x : A) :
  0 <= i <= Py.len l ->
  Py.insert l i x = firstn (Z.to_nat i) l ++ x :: skipn (Z.to_nat i) l.
Proof.
  intros H. unfold Py.insert.
  destruct (Z.ltb_spec i 0); [lia|]. rewrite Z.min_l by lia. reflexivity.
Qed.

Lemma Forall_insert {A : Type} (P : A -> Prop) (l : list A) (i : Z) (x : A) :
  Forall P l -> P x -> Forall P (Py.insert l i x).
Proof.
  intros Hl Hx. unfold Py.insert.
  set (j := Z.to_nat _). rewrite <- (firstn_skipn j l) in Hl.
  apply Forall_app in Hl. destruct Hl as [H1 H2].
  apply Forall_app. split; [assumption | constructor; assumption].
Qed.

Lemma Ok_inj {A : Type} (a b : A) : Ok a = Ok b -> a = b.
Proof. congruence. Qed.

Lemma sum_from (l : list Z) (a : Z) : fold_left Z.add l a = a + Py.sum l.
Proof.
  unfold Py.sum. revert a. induction l as [|x l IH]; intros a; cbn.
  - lia.
  - rewrite IH, (IH x). lia.
Qed.

Lemma sum_cons (x : Z) (l : list Z) : Py.sum (x :: l) = x + Py.sum l.
Proof. unfold Py.sum at 1. cbn. apply sum_from. Qed.

Lemma sum_nil : Py.sum [] = 0.
Proof. reflexivity. Qed.

Lemma sum_app (l l' : list Z) : Py.sum (l ++ l') = Py.sum l + Py.sum l'.
Proof.
  induction l as [|x l IH]; cbn [app].
  - rewrite sum_nil. lia.
  - rewrite !sum_cons, IH. lia.
Qed.

Lemma sum_nonneg (l : list Z) : Forall (fun x => 0 <= x) l -> 0 <= Py.sum l.
Proof.
  induction 1 as [|x l Hx _ IH]; [rewrite sum_nil; lia|].
  rewrite sum_cons. lia.
Qed.

Lemma accumulate_from_0 (l : list Z) : Py.accumulate l = Py.accumulate_from 0 l.
Proof. destruct l; reflexivity. Qed.

(** An index that succeeds splits the list around its entry. *)
Lemma index_split {A : Type} (l : list A) (p : Z) (x : A) :
  0 <= p -> Py.index l p = Ok x ->
  p < Py.len l
  /\ l = Py.slice_to l p ++ x :: skipn (S (Z.to_nat p)) l
  /\ length (Py.slice_to l p) = Z.to_nat p.
Proof.
  intros Hp H. unfold Py.index in H.
  destruct (Z.ltb_spec p 0); [lia|]. destruct (Z.ltb_spec p 0); [lia|].
  destruct (nth_error l (Z.to_nat p)) eqn:E; [|discriminate].
  injection H as ->.
  assert (L : (Z.to_nat p < length l)%nat)
    by (apply nth_error_Some; congruence).
  assert (S : Py.slice_to l p = firstn (Z.to_nat p) l).
  { unfold Py.slice_to, Py.len. destruct (Z.ltb_spec p 0); [lia|].
    rewrite Z.min_l by lia. reflexivity. }
  split; [unfold Py.len; lia|]. rewrite S. split.
  - symmetry. apply firstn_skipn_middle. assumption.
  - rewrite length_firstn. lia.
Qed.

Lemma index_of_split {A : Type} (pre post : list A) (x : A) :
  Py.index (pre ++ x :: post) (Py.len pre) = Ok x
  /\ Py.slice_to (pre ++ x :: post) (Py.len pre) = pre.
Proof.
  unfold Py.index, Py.slice_to, Py.len.
  destruct (Z.ltb_spec (Z.of_nat (length pre)) 0); [lia|].
  destruct (Z.ltb_spec (Z.of_nat (length pre)) 0); [lia|].
  rewrite Nat2Z.id, nth_error_app2, Nat.sub_diag by lia. split; [reflexivity|].
  rewrite length_app. cbn [length]. rewrite Z.min_l by lia.
  rewrite Nat2Z.id. rewrite firstn_app, Nat.sub_diag, firstn_all. cbn.
  apply app_nil_r.
Qed.

Lemma find_running_total (pre post : list Z) (x acc i n : Z) :
  Forall (fun k => 0 <= k) pre ->
  acc + Py.sum pre <= n < acc + Py.sum pre + x ->
  find (fun '(pos, days) => n + 1 <=? days)
       (Py.enumerate_from i (Py.accumulate_from acc (pre ++ x :: post)))
  = Some (i + Py.len pre, acc + Py.sum pre + x).
Proof.
  intros Hpre. revert acc i.
  induction Hpre as [|k pre Hk Hpre IH]; intros acc i Hn.
  - rewrite sum_nil in *. cbn.
    destruct (Z.leb_spec (n + 1) (acc + x)); [|lia].
    f_equal. f_equal; lia.
  - rewrite sum_cons in Hn. cbn [app Py.accumulate_from Py.enumerate_from find].
    pose proof (sum_nonneg pre Hpre).
    destruct (Z.leb_spec (n + 1) (acc + k)); [lia|].
    rewrite IH by lia. rewrite sum_cons. unfold Py.len. cbn [length].
    f_equal. f_equal; lia.
Qed.

(** The loop finds the month a day offset falls in. *)
Lemma find_month_at (md : list Z) (p x d : Z) :
  Forall (fun k => 0 <= k) md ->
  0 <= p -> Py.index md p = Ok x -> 1 <= d <= x ->
  find_month md (Py.sum (Py.slice_to md p) + d - 1) = Ok (p + 1, d).
Proof.
  intros Hmd Hp Hx Hd.
  destruct (index_split md p x Hp Hx) as (Hlen & Hsplit & Hpre).
  set (pre := Py.slice_to md p) in *.
  unfold find_month. rewrite accumulate_from_0. unfold Py.enumerate.
  rewrite Hsplit at 1.
  rewrite (find_running_total pre _ x 0 0 (Py.sum pre + d - 1)).
  - assert (E : 0 + Py.len pre = p) by (unfold Py.len; lia).
    rewrite E, Hx. cbn. f_equal. f_equal. lia.
  - rewrite Hsplit in Hmd. apply Forall_app in Hmd. apply Hmd.
  - lia.
Qed.

Lemma split_at_offset (l : list Z) (acc n : Z) :
  Forall (fun k => 0 <= k) l ->
  acc <= n < acc + Py.sum l ->
  exists pre x post,
    l = pre ++ x :: post /\ acc + Py.sum pre <= n < acc + Py.sum pre + x.
Proof.
  intros Hl. revert acc. induction Hl as [|k l Hk _ IH]; intros acc Hn.
  - rewrite sum_nil in Hn. lia.
  - rewrite sum_cons in Hn.
    destruct (Z.lt_ge_cases n (acc + k)) as [L | G].
    + exists [], k, l. rewrite sum_nil. split; [reflexivity | lia].
    + destruct (IH (acc + k) ltac:(lia)) as (pre & x & post & -> & B).
      exists (k :: pre), x, post. rewrite sum_cons. split; [reflexivity | lia].
Qed.

(** Every offset inside the year is found, at the slot it lies in. *)
Lemma find_month_total (md : list Z) (n : Z) :
  Forall (fun k => 0 <= k) md ->
  0 <= n < Py.sum md ->
  exists p x d,
    find_month md n = Ok (p + 1, d)
    /\ 0 <= p /\ Py.index md p = Ok x /\ 1 <= d <= x
    /\ n = Py.sum (Py.slice_to md p) + d - 1.
Proof.
  intros Hmd Hn.
  destruct (split_at_offset md 0 n Hmd ltac:(lia)) as (pre & x & post & E & B).
  destruct (index_of_split pre post x) as (Hi & Hs).
  exists (Py.len pre), x, (n - Py.sum pre + 1).
  assert (P : 0 <= Py.len pre) by (unfold Py.len; lia).
  rewrite E in *. rewrite Hs.
  split; [|split; [assumption|split; [assumption|split; lia]]].
  replace n with (Py.sum (Py.slice_to (pre ++ x :: post) (Py.len pre)) + (n - Py.sum pre + 1) - 1) at 1
    by (rewrite Hs; lia).
  apply (find_month_at _ _ x); try assumption. lia.
Qed.

Lemma sum_le_len (l : list Z) (b : Z) :
  Forall (fun k => k <= b) l -> Py.sum l <= b * Py.len l.
Proof.
  unfold Py.len. induction 1 as [|k l Hk _ IH]; [rewrite sum_nil; cbn; lia|].
  rewrite sum_cons. cbn [length]. lia.
Qed.

Lemma prefix_sum_bound (md : list Z) (p x : Z) :
  Forall (fun k => 0 <= k) md -> 0 <= p -> Py.index md p = Ok x ->
  0 <= Py.sum (Py.slice_to md p) /\ Py.sum (Py.slice_to md p) + x <= Py.sum md.
Proof.
  intros Hmd Hp Hx. destruct (index_split _ _ _ Hp Hx) as (_ & E & _).
  set (pre := Py.slice_to md p) in *. rewrite E in Hmd.
  apply Forall_app in Hmd. destruct Hmd as [H1 H2].
  apply Forall_inv_tail in H2.
  pose proof (sum_nonneg _ H1). pose proof (sum_nonneg _ H2).
  split; [assumption|]. rewrite E at 1. rewrite sum_app, sum_cons. lia.
Qed.

(** *** Indexing a table of 201 years by [year - 1900] *)

Lemma index_in_table {A : Type} (l : list A) (y : Z) :
  length l = 201%nat -> 1900 <= y <= 2100 ->
  exists x, Py.index l (y - 1900) = Ok x /\ In x l.
Proof.
  intros Hl Hy. unfold Py.index.
  destruct (Z.ltb_spec (y - 1900) 0); [lia|].
  destruct (Z.ltb_spec (y - 1900) 0); [lia|].
  destruct (nth_error l (Z.to_nat (y - 1900))) eqn:E.
  - exists a. split; [reflexivity|]. eapply nth_error_In; eassumption.
  - apply nth_error_None in E. lia.
Qed.

Lemma index_past_end {A : Type} (l : list A) (y : Z) :
  length l = 201%nat -> 2101 <= y -> Py.index l (y - 1900) = Raise IndexError.
Proof.
  intros Hl Hy. unfold Py.index.
  destruct (Z.ltb_spec (y - 1900) 0); [lia|].
  destruct (Z.ltb_spec (y - 1900) 0); [lia|].
  destruct (nth_error l (Z.to_nat (y - 1900))) eqn:E; [|reflexivity].
  assert (N : nth_error l (Z.to_nat (y - 1900)) <> None) by congruence.
  apply nth_error_Some in N. lia.
Qed.

Lemma index_wraps {A : Type} (l : list A) (y : Z) :
  length l = 201%nat -> 1699 <= y <= 1899 ->
  Py.index l (y - 1900) = Py.index l (y + 201 - 1900).
Proof.
  intros Hl Hy. unfold Py.index, Py.len. rewrite Hl.
  destruct (Z.ltb_spec (y - 1900) 0); [|lia].
  destruct (Z.ltb_spec (y + 201 - 1900) 0); [lia|].
  replace (y - 1900 + Z.of_nat 201) with (y + 201 - 1900) by lia.
  reflexivity.
Qed.

Lemma index_before_start {A : Type} (l : list A) (y : Z) :
  length l = 201%nat -> y < 1699 -> Py.index l (y - 1900) = Raise IndexError.
Proof.
  intros Hl Hy. unfold Py.index, Py.len. rewrite Hl.
  destruct (Z.ltb_spec (y - 1900) 0); [|lia].
  destruct (Z.ltb_spec (y - 1900 + Z.of_nat 201) 0); [reflexivity|lia].
Qed.

(** ** The codec *)

Lemma decode_unfold (code : Z) :
  decode code =
    if leap_field code =? 0 then spec_regular code
    else Py.insert (spec_regular code) (leap_field code)
           (month_len (Py.truthy (Z.shiftr code 16))).
Proof.
  unfold decode, leap_field.
  change (Py.range 4 16) with [4; 5; 6; 7; 8; 9; 10; 11; 12; 13; 14; 15].
  cbn [fold_left]. rewrite !insert_0, !truthy_bit.
  unfold Py.truthy at 1.
  destruct (Z.land code 0xF =? 0); reflexivity.
Qed.

Lemma spec_regular_length (code : Z) : length (spec_regular code) = 12%nat.
Proof. reflexivity. Qed.

Lemma month_len_cases (b : bool) : month_len b = 29 \/ month_len b = 30.
Proof. destruct b; simpl; auto. Qed.

Lemma spec_regular_entries (code : Z) :
  Forall (fun n => n = 29 \/ n = 30) (spec_regular code).
Proof.
  unfold spec_regular. apply Forall_map, Forall_forall.
  intros m _. apply month_len_cases.
Qed.

Lemma decode_spec_decode (code : Z) :
  packed code -> decode code = spec_decode code.
Proof.
  intros [Hc HL]. pose proof (leap_field_range code) as HR.
  rewrite decode_unfold. unfold spec_decode.
  destruct (Z.eqb_spec (leap_field code) 0) as [E | E]; [reflexivity|].
  rewrite insert_inside, leap_long_truthy by
    (try assumption; unfold Py.len; rewrite spec_regular_length; lia).
  reflexivity.
Qed.

(** Case analysis on an integer known to lie in a short interval: one
    goal per value [lo], [lo + 1], ... ([n] of them). *)
Ltac enum_range x lo n :=
  lazymatch n with
  | O => exfalso; lia
  | S ?k =>
      let lo' := eval compute in (lo + 1) in
      destruct (Z.eq_dec x lo) as [-> | ?]; [ | enum_range x lo' k ]
  end.

(** Position of a regular month, over any twelve entries [f 1 .. f 12]
    and any leap entry [x] inserted at [L]. *)
Lemma index_regular_generic (f : Z -> Z) (L m x : Z) :
  0 <= L < 16 -> 1 <= m <= 12 ->
  Py.index (if L =? 0 then map f (Py.range 1 13)
            else Py.insert (map f (Py.range 1 13)) L x)
           (if (L =? 0) || (m <=? L) then m - 1 else m)
  = Ok (f m).
Proof.
  intros HL Hm.
  enum_range L 0 16%nat; enum_range m 1 12%nat; reflexivity.
Qed.

Lemma index_leap_generic (f : Z -> Z) (L x : Z) :
  1 <= L <= 12 ->
  Py.index (Py.insert (map f (Py.range 1 13)) L x) L = Ok x.
Proof.
  intros HL. enum_range L 1 12%nat; reflexivity.
Qed.

Lemma index_regular (code m : Z) :
  1 <= m <= 12 ->
  Py.index (decode code) (regular_index code m)
  = Ok (month_len (Z.testbit code (16 - m))).
Proof.
  intros Hm. rewrite decode_unfold. unfold regular_index, spec_regular.
  apply (index_regular_generic
           (fun m => month_len (Z.testbit code (16 - m)))); [|assumption].
  apply leap_field_range.
Qed.

Lemma index_leap (code : Z) :
  1 <= leap_field code <= 12 ->
  Py.index (decode code) (leap_field code)
  = Ok (month_len (Py.truthy (Z.shiftr code 16))).
Proof.
  intros HL. rewrite decode_unfold.
  destruct (Z.eqb_spec (leap_field code) 0); [lia|].
  unfold spec_regular. apply index_leap_generic. assumption.
Qed.

Lemma decode_length (code : Z) :
  length (decode code) = if leap_field code =? 0 then 12%nat else 13%nat.
Proof.
  rewrite decode_unfold.
  destruct (Z.eqb_spec (leap_field code) 0); [reflexivity|].
  unfold Py.insert. rewrite length_app. cbn [length].
  rewrite length_skipn, length_firstn, !spec_regular_length. lia.
Qed.

Lemma decode_entries (code : Z) :
  Forall (fun n => n = 29 \/ n = 30) (decode code).
Proof.
  rewrite decode_unfold.
  destruct (leap_field code =? 0); [apply spec_regular_entries|].
  apply Forall_insert; [apply spec_regular_entries | apply month_len_cases].
Qed.

Lemma month_len_range (b : bool) : 29 <= month_len b <= 30.
Proof. destruct b; cbn; lia. Qed.

Lemma regular_index_slot (c m : Z) :
  slot_index c m false = regular_index c m.
Proof.
  unfold slot_index, regular_index. cbn [negb andb].
  destruct (leap_field c =? 0), (Z.ltb_spec m (leap_field c)),
    (Z.eqb_spec m (leap_field c)), (Z.leb_spec m (leap_field c));
    cbn; lia || reflexivity.
Qed.

Lemma decode_nonneg (c : Z) : Forall (fun k => 0 <= k) (decode c).
Proof.
  eapply Forall_impl; [|apply decode_entries]. cbn. lia.
Qed.

Lemma decode_sum_bound (c : Z) : 0 <= Py.sum (decode c) <= 390.
Proof.
  split; [apply sum_nonneg, decode_nonneg|].
  assert (H : Forall (fun k => k <= 30) (decode c))
    by (eapply Forall_impl; [|apply decode_entries]; cbn; lia).
  apply sum_le_len in H. unfold Py.len in H. rewrite decode_length in H.
  destruct (leap_field c =? 0); lia.
Qed.

(** C3. [decode] lays a packed year code out as the specification says:
    the twelve regular months in order, month [m] long (30 days) exactly
    when bit [16 - m] is set (month 1 is bit 15, month 12 is bit 4); when
    the leap field [L] is nonzero one more entry at 0-based position [L],
    long exactly when bit 16 is set, for 13 entries in all, and 12 entries
    when [L] is 0; every entry is 29 or 30. *)
Theorem decode_layout (code : Z) :
  packed code ->
  decode code = spec_decode code
  /\ length (decode code) = (if leap_field code =? 0 then 12%nat else 13%nat)
  /\ Forall (fun n => n = 29 \/ n = 30) (decode code).
Proof.
  intros H. split; [|split].
  - apply decode_spec_decode, H.
  - apply decode_length.
  - apply decode_entries.
Qed.

Lemma decode_layout_witness :
  packed 19416
  /\ decode 19416 = [29; 30; 29; 29; 30; 29; 30; 30; 29; 30; 30; 29; 30]
  /\ spec_decode 19416 = decode 19416.
Proof.
  assert (P : packed 19416) by (unfold packed; split; [lia | vm_compute; discriminate]).
  split; [exact P|]. split; [reflexivity|].
  symmetry. exact (proj1 (decode_layout 19416 P)).
Defined.

(** The bit a regular month is stored in and the entry of [decode] for
    it: for every code and every month [m] in 1..12 the bit
    [(12 - m) + 4] is set exactly when the entry of [decode code] for
    regular month [m] is 30. *)
Lemma regular_bit_matches_decode (code m : Z) :
  1 <= m <= 12 ->
  Z.land (Z.shiftr code ((12 - m) + 4)) 1 = 1
  <-> Py.index (decode code) (regular_index code m) = Ok 30.
Proof.
  intros Hm. rewrite index_regular by assumption.
  replace (12 - m + 4) with (16 - m) by lia.
  rewrite <- Z.eqb_eq, bit_is_one.
  destruct (Z.testbit code (16 - m)); simpl; split; congruence.
Qed.


(** ** The calendar: ordinals and dates *)

Section Calendar.

Import Datetime.

(** Closed table lookups and flags are replaced by their values. *)
Ltac eval_tables :=
  repeat match goal with
    | |- context [nth (Z.to_nat ?k) ?L 0] =>
        let v := eval vm_compute in (nth (Z.to_nat k) L 0) in
        change (nth (Z.to_nat k) L 0) with v
    | |- context [Py.int_of_bool ?b] =>
        let v := eval vm_compute in (Py.int_of_bool b) in
        change (Py.int_of_bool b) with v
    | |- context [(?a =? ?b) && ?c] =>
        let v := eval vm_compute in ((a =? b) && c) in
        change ((a =? b) && c) with v
    end.

(** The 400/100/4/1-year split of a day count. *)
Lemma year_split (n : Z) :
  0 <= n ->
  let n400 := n / 146097 in
  let r1 := n mod 146097 in
  let n100 := r1 / 36524 in
  let r2 := r1 mod 36524 in
  let n4 := r2 / 1461 in
  let r3 := r2 mod 1461 in
  let n1 := r3 / 365 in
  let r := r3 mod 365 in
  let p := n400 * 400 + n100 * 100 + n4 * 4 + n1 in
  0 <= n400 /\ 0 <= n100 <= 4 /\ 0 <= n4 <= 24 /\ 0 <= n1 <= 4
  /\ 0 <= r < 365
  /\ (n1 = 4 \/ n100 = 4 ->
      r = 0 /\ is_leap p = true /\ days_before_year p + 365 = n)
  /\ (n1 <> 4 -> n100 <> 4 ->
      days_before_year (p + 1) + r = n
      /\ is_leap (p + 1) = (n1 =? 3) && (negb (n4 =? 24) || (n100 =? 3))).
Proof.
  intros Hn. cbv zeta. unfold days_before_year, is_leap.
  repeat split; Z.div_mod_to_equations; lia.
Qed.

(** The month estimate [(r + 50) >> 5] and its correction. *)
Lemma month_split (y r : Z) (leap : bool) :
  0 <= r < 365 ->
  is_leap y = leap ->
  let m0 := Z.shiftr (r + 50) 5 in
  let preceding :=
    nth (Z.to_nat m0) DAYS_BEFORE_MONTH 0
    + Py.int_of_bool ((2 <? m0) && leap) in
  let '(m, d) :=
    if r <? preceding then
      (m0 - 1,
       r - (preceding - (nth (Z.to_nat (m0 - 1)) DAYS_IN_MONTH 0
                         + Py.int_of_bool ((m0 - 1 =? 2) && leap))) + 1)
    else (m0, r - preceding + 1) in
  1 <= m <= 12 /\ 1 <= d <= days_in_month y m
  /\ days_before_month y m + d = r + 1.
Proof.
  intros Hr Hl. cbv zeta.
  rewrite Z.shiftr_div_pow2 by lia. change (2 ^ 5) with 32.
  assert (Hm : 1 <= (r + 50) / 32 <= 12)
    by (Z.div_mod_to_equations; lia).
  assert (Hb : 32 * ((r + 50) / 32) <= r + 50 < 32 * ((r + 50) / 32) + 32)
    by (Z.div_mod_to_equations; lia).
  set (m0 := (r + 50) / 32) in *.
  unfold days_in_month, days_before_month. rewrite Hl.
  enum_range m0 1 12%nat; destruct leap; eval_tables;
    match goal with
    | |- context [ ?a <? ?b ] => destruct (Z.ltb_spec a b)
    end; eval_tables; cbv iota; lia.
Qed.

(** [ord2ymd] returns a date, and the date of that ordinal. *)
Lemma ord2ymd_correct (o : Z) :
  1 <= o ->
  let '(y, m, d) := ord2ymd o in date_ok y m d /\ ymd2ord y m d = o.
Proof.
  intros Ho. unfold ord2ymd.
  pose proof (year_split (o - 1) ltac:(lia)) as H. cbv zeta in H.
  assert (Hn : exists n, n = o - 1) by (eexists; reflexivity).
  destruct Hn as [n Hn]. rewrite <- Hn in *.
  set (n400 := n / 146097) in *.
  set (r1 := n mod 146097) in *.
  set (n100 := r1 / 36524) in *.
  set (r2 := r1 mod 36524) in *.
  set (n4 := r2 / 1461) in *.
  set (r3 := r2 mod 1461) in *.
  set (n1 := r3 / 365) in *.
  set (r := r3 mod 365) in *.
  destruct H as (H400 & H100 & H4 & H1 & Hr & Hlast & Hmid).
  destruct ((n1 =? 4) || (n100 =? 4)) eqn:E.
  - assert (E' : n1 = 4 \/ n100 = 4) by lia.
    destruct (Hlast E') as (_ & Hleap & Hd).
    replace (n400 * 400 + 1 + n100 * 100 + n4 * 4 + n1 - 1)
      with (n400 * 400 + n100 * 100 + n4 * 4 + n1) by lia.
    set (p := n400 * 400 + n100 * 100 + n4 * 4 + n1) in *.
    assert (1 <= p) by lia.
    unfold date_ok, ymd2ord, days_in_month, days_before_month.
    rewrite Hleap. eval_tables. cbv iota. lia.
  - assert (E1 : n1 <> 4) by lia. assert (E2 : n100 <> 4) by lia.
    destruct (Hmid E1 E2) as (Hd & Hleap).
    replace (n400 * 400 + 1 + n100 * 100 + n4 * 4 + n1)
      with (n400 * 400 + n100 * 100 + n4 * 4 + n1 + 1) by lia.
    set (y := n400 * 400 + n100 * 100 + n4 * 4 + n1 + 1) in *.
    pose proof (month_split y r _ Hr Hleap) as Hm. cbv zeta in Hm.
    set (leapyear := (n1 =? 3) && (negb (n4 =? 24) || (n100 =? 3))) in *.
    destruct (r <? _); unfold date_ok, ymd2ord; lia.
Qed.

Lemma days_before_year_succ (y : Z) :
  days_before_year (y + 1)
  = days_before_year y + (if is_leap y then 366 else 365).
Proof.
  unfold days_before_year, is_leap.
  destruct (_ && _) eqn:E; Z.div_mod_to_equations; lia.
Qed.

Lemma days_before_year_mono (a b : Z) :
  a <= b -> days_before_year a <= days_before_year b.
Proof.
  intros H. unfold days_before_year. Z.div_mod_to_equations. lia.
Qed.

(** The ordinals of year [y] lie after [days_before_year y] and up to
    [days_before_year (y + 1)]. *)
Lemma ymd2ord_in_year (y m d : Z) :
  date_ok y m d ->
  days_before_year y < ymd2ord y m d <= days_before_year (y + 1).
Proof.
  intros (Hy & Hm & Hd). rewrite days_before_year_succ.
  unfold ymd2ord, days_before_month, days_in_month in *.
  enum_range m 1 12%nat; destruct (is_leap y); eval_tables;
    revert Hd; eval_tables; cbv iota; lia.
Qed.

Lemma ymd2ord_inj (y m d y' m' d' : Z) :
  date_ok y m d -> date_ok y' m' d' ->
  ymd2ord y m d = ymd2ord y' m' d' -> y = y' /\ m = m' /\ d = d'.
Proof.
  intros H H' E.
  pose proof (ymd2ord_in_year _ _ _ H) as B.
  pose proof (ymd2ord_in_year _ _ _ H') as B'.
  assert (y = y').
  { destruct (Z.lt_trichotomy y y') as [L | [L | L]];
      [exfalso | assumption | exfalso].
    - pose proof (days_before_year_mono (y + 1) y' ltac:(lia)). lia.
    - pose proof (days_before_year_mono (y' + 1) y ltac:(lia)). lia. }
  subst y'. split; [reflexivity|].
  destruct H as (_ & Hm & Hd), H' as (_ & Hm' & Hd').
  unfold ymd2ord, days_before_month, days_in_month in *.
  assert (m = m').
  { enum_range m 1 12%nat; enum_range m' 1 12%nat;
      try reflexivity; exfalso;
      destruct (is_leap y); revert Hd Hd' E; eval_tables; cbv iota; lia. }
  subst m'. split; [reflexivity|]. lia.
Qed.

Lemma days_before_year_nonneg (y : Z) : 1 <= y -> 0 <= days_before_year y.
Proof.
  intros H. change 0 with (days_before_year 1).
  apply days_before_year_mono. assumption.
Qed.

Lemma ord2ymd_ymd2ord (y m d : Z) :
  date_ok y m d -> ord2ymd (ymd2ord y m d) = (y, m, d).
Proof.
  intros H. pose proof (ymd2ord_in_year _ _ _ H) as B.
  pose proof (days_before_year_nonneg y (proj1 H)).
  pose proof (ord2ymd_correct (ymd2ord y m d) ltac:(lia)) as C.
  destruct (ord2ymd (ymd2ord y m d)) as [[y' m'] d'].
  destruct C as (C1 & C2).
  destruct (ymd2ord_inj _ _ _ _ _ _ C1 H C2) as (-> & -> & ->).
  reflexivity.
Qed.

(** The year of an ordinal is fixed by the year boundaries around it. *)
Lemma ord2ymd_year (o y : Z) :
  1 <= y -> days_before_year y < o <= days_before_year (y + 1) ->
  fst (fst (ord2ymd o)) = y.
Proof.
  intros Hy Ho. pose proof (days_before_year_nonneg y Hy).
  pose proof (ord2ymd_correct o ltac:(lia)) as C.
  destruct (ord2ymd o) as [[y' m'] d']. destruct C as (C1 & C2).
  pose proof (ymd2ord_in_year _ _ _ C1) as B. cbn.
  destruct (Z.lt_trichotomy y y') as [L | [L | L]];
    [exfalso | symmetry; assumption | exfalso].
  - pose proof (days_before_year_mono (y + 1) y' ltac:(lia)). lia.
  - pose proof (days_before_year_mono (y' + 1) y ltac:(lia)). lia.
Qed.

End Calendar.

(** ** Datetime arithmetic *)

Section DatetimeArithmetic.

Import Datetime.

Lemma valid_date_ok (y m d : Z) :
  valid_date y m d = true -> date_ok y m d /\ y <= 9999.
Proof. unfold valid_date, date_ok. lia. Qed.

Lemma valid_unfold (dt : datetime) :
  valid dt = true ->
  date_ok (year dt) (month dt) (day dt) /\ year dt <= 9999
  /\ 0 <= secs_of_day dt < 86400 /\ 0 <= microsecond dt < 1000000.
Proof.
  unfold valid, valid_time, secs_of_day. intros H.
  apply andb_true_iff in H. destruct H as [H1 H2].
  apply valid_date_ok in H1. split; [apply H1|]. split; [apply H1|]. lia.
Qed.

Lemma toordinal_range (dt : datetime) :
  valid dt = true -> 1 <= toordinal dt <= MAXORDINAL.
Proof.
  intros H. apply valid_unfold in H. destruct H as (Hd & Hy & _).
  pose proof (ymd2ord_in_year _ _ _ Hd) as B.
  pose proof (days_before_year_nonneg _ (proj1 Hd)).
  pose proof (days_before_year_mono (year dt + 1) 10000 ltac:(lia)) as M.
  change (days_before_year 10000) with MAXORDINAL in M.
  unfold toordinal. lia.
Qed.

Lemma sub_days (a b : datetime) :
  valid a = true -> valid b = true -> at_midnight b ->
  exists td, sub a b = Ok td /\ days td = toordinal a - toordinal b.
Proof.
  intros Ha Hb (Bh & Bm & Bs & Bu).
  pose proof (toordinal_range a Ha). pose proof (toordinal_range b Hb).
  apply valid_unfold in Ha. destruct Ha as (_ & _ & As & Au).
  unfold MAXORDINAL in *.
  unfold sub, timedelta_new, secs_of_day in *. rewrite Bh, Bm, Bs, Bu.
  set (s := second a + minute a * 60 + hour a * 3600) in *.
  assert (E1 : (microsecond a - 0) / 1000000 = 0) by (Z.div_mod_to_equations; lia).
  rewrite E1.
  assert (E2 : (s - (0 + 0 * 60 + 0 * 3600) + 0) / 86400 = 0) by (Z.div_mod_to_equations; lia).
  rewrite E2.
  destruct (Z.gtb_spec (Z.abs (toordinal a - toordinal b + 0)) 999999999); [lia|].
  eexists. split; [reflexivity|]. cbn. lia.
Qed.

Lemma sub_before (a b : datetime) :
  valid a = true -> valid b = true -> at_midnight a ->
  exists td, sub a b = Ok td
             /\ total_seconds_pos td = (toordinal b <? toordinal a).
Proof.
  intros Ha Hb (Ah & Am & As & Au).
  pose proof (toordinal_range a Ha). pose proof (toordinal_range b Hb).
  apply valid_unfold in Hb. destruct Hb as (_ & _ & Bs & Bu).
  unfold MAXORDINAL in *.
  unfold sub, timedelta_new, secs_of_day in *. rewrite Ah, Am, As, Au.
  set (s := second b + minute b * 60 + hour b * 3600) in *.
  set (u := microsecond b) in *.
  set (d := toordinal a - toordinal b) in *.
  match goal with |- context [Z.abs ?x >? ?y] => destruct (Z.gtb_spec (Z.abs x) y) as [G|G] end.
  - exfalso. revert G. Z.div_mod_to_equations. lia.
  - eexists. split; [reflexivity|].
    unfold total_seconds_pos, total_microseconds. cbn [days seconds microseconds].
    assert (D : toordinal a = d + toordinal b) by (unfold d; lia). rewrite D.
    clearbody d.
    destruct (Z.ltb_spec (toordinal b) (d + toordinal b));
    match goal with |- (0 <? ?x) = _ => destruct (Z.ltb_spec 0 x) as [P|P] end;
      try reflexivity; exfalso; revert P; Z.div_mod_to_equations; lia.
Qed.

Lemma add_days (dt : datetime) (n : Z) (td : timedelta) :
  valid dt = true -> at_midnight dt ->
  timedelta_new n 0 0 = Ok td ->
  0 < toordinal dt + n <= MAXORDINAL ->
  add dt td = Ok (fromordinal (toordinal dt + n)).
Proof.
  intros Hv (Ah & Am & As & Au) Htd Hr.
  pose proof (toordinal_range dt Hv).
  unfold timedelta_new in Htd. cbn in Htd.
  rewrite Z.add_0_r in Htd.
  destruct (Z.abs n >? 999999999); [discriminate|].
  injection Htd as <-.
  unfold add, timedelta_new, secs_of_day. rewrite Ah, Am, As, Au.
  cbn -[Z.add Z.abs Z.gtb ord2ymd Z.ltb Z.leb MAXORDINAL].
  rewrite !Z.add_0_r.
  destruct (Z.gtb_spec (Z.abs (toordinal dt)) 999999999);
    [unfold MAXORDINAL in *; lia|].
  cbn -[Z.add Z.abs Z.gtb ord2ymd Z.ltb Z.leb MAXORDINAL].
  rewrite !Z.add_0_r.
  destruct (Z.gtb_spec (Z.abs (toordinal dt + n)) 999999999);
    [unfold MAXORDINAL in *; lia|].
  cbn -[Z.add Z.abs Z.gtb ord2ymd Z.ltb Z.leb MAXORDINAL].
  destruct (Z.ltb_spec 0 (toordinal dt + n)); [|lia].
  destruct (Z.leb_spec (toordinal dt + n) MAXORDINAL); [|lia].
  unfold fromordinal. destruct (ord2ymd _) as [[? ?] ?]. reflexivity.
Qed.

Lemma strptime_Ymd_valid (s : string) (dt : datetime) :
  strptime_Ymd s = Ok dt -> valid dt = true /\ at_midnight dt.
Proof.
  unfold strptime_Ymd. intros H.
  repeat match type of H with
         | match ?x with _ => _ end = _ => destruct x eqn:?; try discriminate
         end.
  injection H as <-. unfold valid, at_midnight. cbn.
  rewrite andb_true_r. auto.
Qed.

Lemma fromordinal_spec (o : Z) :
  1 <= o <= MAXORDINAL ->
  valid (fromordinal o) = true /\ at_midnight (fromordinal o)
  /\ toordinal (fromordinal o) = o.
Proof.
  intros Ho. unfold fromordinal, toordinal.
  pose proof (ord2ymd_correct o ltac:(lia)) as C.
  destruct (ord2ymd o) as [[y m] d]. destruct C as (C1 & C2).
  cbn [year month day]. split; [|split; [|assumption]].
  - pose proof (ymd2ord_in_year _ _ _ C1) as B.
    assert (y <= 9999).
    { destruct (Z.le_gt_cases y 9999); [assumption|exfalso].
      pose proof (days_before_year_mono 10000 y ltac:(lia)) as M.
      change (days_before_year 10000) with MAXORDINAL in M. lia. }
    unfold valid, valid_date, valid_time. cbn.
    unfold date_ok in C1. lia.
  - unfold at_midnight. cbn. auto.
Qed.

Lemma fromordinal_toordinal (dt : datetime) :
  valid dt = true -> fromordinal (toordinal dt) = midnight dt.
Proof.
  intros H. apply valid_unfold in H. destruct H as (Hd & _).
  unfold fromordinal, toordinal. rewrite ord2ymd_ymd2ord by assumption.
  reflexivity.
Qed.

Lemma year_fromordinal (o y : Z) :
  1 <= y -> days_before_year y < o <= days_before_year (y + 1) ->
  year (fromordinal o) = y.
Proof.
  intros Hy Ho. pose proof (ord2ymd_year o y Hy Ho) as E.
  unfold fromordinal. destruct (ord2ymd o) as [[y' m'] d']. exact E.
Qed.

Lemma toordinal_in_year (dt : datetime) :
  valid dt = true ->
  days_before_year (year dt) < toordinal dt <= days_before_year (year dt + 1).
Proof.
  intros H. apply valid_unfold in H. apply ymd2ord_in_year, H.
Qed.

End DatetimeArithmetic.

(** ** Checking the table assumptions on concrete tables *)

Lemma in_range_list (lo hi y : Z) :
  lo <= y < hi -> In y (Py.range lo hi).
Proof.
  intros H. unfold Py.range. apply in_map_iff.
  exists (Z.to_nat (y - lo)). split; [lia|].
  apply in_seq. lia.
Qed.

Lemma packedb_sound (c : Z) : packedb c = true -> packed c.
Proof. unfold packedb, packed. lia. Qed.

Lemma tables_okb_sound (K : Constants) : tables_okb K = true -> tables_ok.
Proof.
  unfold tables_okb. intros H.
  repeat (apply andb_true_iff in H; let H' := fresh "H" in destruct H as [H H']).
  apply Nat.eqb_eq in H. apply Nat.eqb_eq in H4.
  constructor.
  - split; assumption.
  - intros y Hy. unfold newyears_datedb in H3.
    rewrite forallb_forall in H3.
    specialize (H3 y (in_range_list 1900 2101 y ltac:(lia))).
    destruct (newyear_of y) as [ny|]; [|discriminate].
    exists ny. split; [reflexivity | lia].
  - unfold codes_packed. apply Forall_forall. intros c Hc.
    rewrite forallb_forall in H2. apply packedb_sound, H2, Hc.
  - intros y c a b Hy Hc Ha Hb. unfold newyears_chainedb in H1.
    rewrite forallb_forall in H1.
    specialize (H1 y (in_range_list 1900 2100 y ltac:(lia))).
    rewrite Hc, Ha, Hb in H1. lia.
  - intros c a Hc Ha. unfold last_year_completeb in H0.
    rewrite Hc, Ha in H0. lia.
Qed.

Lemma sample_tables_ok : @tables_ok sample_constants.
Proof. apply tables_okb_sound. vm_compute. reflexivity. Qed.

Lemma sample_glyphs_ok : @glyphs_ok sample_constants.
Proof. unfold glyphs_ok. cbn. repeat split; lia. Qed.

(** ** The validator *)

Section Validator.

Context {K : Constants}.

Lemma in_range_test (y m d : Z) :
  ((1900 <=? y) && (y <=? 2100) && (1 <=? m) && (m <=? 12)
   && (1 <=? d) && (d <=? 30)) = true <-> in_range y m d.
Proof. unfold in_range. lia. Qed.

Lemma validate_outside (y m d : Z) (leap : bool) :
  ~ in_range y m d -> validate y m d leap = Ok false.
Proof.
  intros H. unfold validate.
  destruct (_ && _) eqn:E; [|reflexivity].
  apply in_range_test in E. contradiction.
Qed.

(** Inside the ranges the result is one bit test on the year's code. *)
Lemma validate_inside (y m d c : Z) (leap : bool) :
  in_range y m d -> code_of y = Ok c ->
  validate y m d leap =
    Ok (if leap then
          (leap_field c =? m) && (negb (d =? 30) || (Z.shiftr c 16 =? 1))
        else (d <=? 29) || Z.testbit c ((12 - m) + 4)).
Proof.
  intros H Hc. unfold validate.
  destruct (_ && _) eqn:E.
  2:{ exfalso. apply in_range_test in H. congruence. }
  unfold code_of in Hc. rewrite Hc. cbn [negb bind].
  fold (leap_field c). rewrite bit_is_one.
  destruct leap.
  - destruct (leap_field c =? m); [|reflexivity].
    destruct (d =? 30); reflexivity.
  - destruct (d <=? 29); reflexivity.
Qed.

Lemma code_in_table (y : Z) :
  length LUNARYEARCODE = 201%nat -> 1900 <= y <= 2100 ->
  exists c, code_of y = Ok c /\ In c LUNARYEARCODE.
Proof. intros. apply index_in_table; assumption. Qed.

(** C4. Without the leap flag, and with year, month and day inside
    1900..2100, 1..12 and 1..30: [validate] returns true when the day is
    at most 29, and for day 30 it returns whether bit [(12 - month) + 4]
    of the year's code is set.  Outside those ranges it returns false,
    whatever the flag. *)
Theorem validate_regular_month :
  length LUNARYEARCODE = 201%nat ->
  (forall y m d, in_range y m d ->
     exists c, code_of y = Ok c
               /\ (d <= 29 -> validate y m d false = Ok true)
               /\ (d = 30 ->
                   validate y m d false
                   = Ok (Z.testbit c ((12 - m) + 4))))
  /\ (forall y m d leap, ~ in_range y m d -> validate y m d leap = Ok false).
Proof.
  intros Hlen. split.
  - intros y m d R.
    destruct (code_in_table y Hlen (proj1 R)) as (c & Hc & _).
    exists c. split; [assumption|].
    rewrite (validate_inside y m d c false R Hc). split.
    + intros Hd. destruct (Z.leb_spec d 29); [reflexivity | lia].
    + intros ->. reflexivity.
  - intros y m d leap. apply validate_outside.
Qed.

(** C5. With the leap flag, inside the same ranges: [validate] returns
    false when the leap field of the year's code is not the month; when
    it is, true for a day up to 29, and for day 30 whether bit 16 of the
    code is set. *)
Theorem validate_leap_month :
  length LUNARYEARCODE = 201%nat -> codes_packed ->
  forall y m d, in_range y m d ->
    exists c, code_of y = Ok c
              /\ (leap_field c <> m -> validate y m d true = Ok false)
              /\ (leap_field c = m ->
                  (d <= 29 -> validate y m d true = Ok true)
                  /\ (d = 30 ->
                      validate y m d true = Ok (Z.testbit c 16))).
Proof.
  intros Hlen Hp y m d R.
  destruct (code_in_table y Hlen (proj1 R)) as (c & Hc & Hin).
  pose proof (proj1 (Forall_forall _ _) Hp c Hin) as [Hb _].
  exists c. split; [assumption|].
  rewrite (validate_inside y m d c true R Hc).
  rewrite leap_long_is_one by assumption. split.
  - intros N. destruct (Z.eqb_spec (leap_field c) m); [contradiction|].
    reflexivity.
  - intros ->. rewrite Z.eqb_refl. cbn [andb]. split.
    + intros Hd. destruct (Z.eqb_spec d 30); [lia | reflexivity].
    + intros ->. reflexivity.
Qed.

(** C7. The validator's day-30 test for a regular month agrees with the
    codec.  For every code and every month [m] in 1..12,
    [(code >> ((12 - m) + 4)) & 1 == 1] holds exactly when the entry of
    [decode code] for regular month [m] (index [m - 1] when the leap field
    is 0 or [m] does not exceed it, index [m] after it) is 30; and for
    every year of the table that has this code, [validate] called with
    day 30 and no leap flag returns that very test, so it accepts day 30
    exactly when the decoded month has 30 days and rejects it exactly
    when the decoded month has 29. *)
Theorem validator_bit_agrees_with_codec (code m : Z) :
  1 <= m <= 12 ->
  (Z.land (Z.shiftr code ((12 - m) + 4)) 1 = 1
   <-> Py.index (decode code) (regular_index code m) = Ok 30)
  /\ (forall y, 1900 <= y <= 2100 -> code_of y = Ok code ->
        validate y m 30 false
        = Ok (Z.land (Z.shiftr code ((12 - m) + 4)) 1 =? 1)
        /\ (validate y m 30 false = Ok true
            <-> Py.index (decode code) (regular_index code m) = Ok 30)
        /\ (validate y m 30 false = Ok false
            <-> Py.index (decode code) (regular_index code m) = Ok 29)).
Proof.
  intros Hm. split; [apply regular_bit_matches_decode; assumption|].
  intros y Hy Hc.
  assert (V : validate y m 30 false
              = Ok (Z.land (Z.shiftr code ((12 - m) + 4)) 1 =? 1)).
  { unfold validate.
    destruct (_ && _) eqn:E.
    2:{ exfalso. assert (R : in_range y m 30) by (unfold in_range; lia).
        apply in_range_test in R. congruence. }
    unfold code_of in Hc. rewrite Hc. reflexivity. }
  split; [exact V|]. rewrite V.
  rewrite index_regular by assumption.
  rewrite bit_is_one. replace (12 - m + 4) with (16 - m) by lia.
  destruct (Z.testbit code (16 - m)); cbn [month_len];
    split; split; intros H; try reflexivity;
    apply Ok_inj in H; discriminate H.
Qed.

End Validator.

Lemma validate_regular_month_witness :
  (forall y m d, in_range y m d ->
     exists c, @code_of sample_constants y = Ok c
               /\ (d <= 29 -> @validate sample_constants y m d false = Ok true)
               /\ (d = 30 ->
                   @validate sample_constants y m d false
                   = Ok (Z.testbit c ((12 - m) + 4))))
  /\ (forall y m d leap,
        ~ in_range y m d -> @validate sample_constants y m d leap = Ok false).
Proof.
  apply (@validate_regular_month sample_constants). reflexivity.
Defined.

Lemma validate_leap_month_witness :
  exists c, @code_of sample_constants 2023 = Ok c
            /\ (leap_field c <> 2
                -> @validate sample_constants 2023 2 30 true = Ok false)
            /\ (leap_field c = 2 ->
                (30 <= 29 -> @validate sample_constants 2023 2 30 true = Ok true)
                /\ (30 = 30 ->
                    @validate sample_constants 2023 2 30 true
                    = Ok (Z.testbit c 16))).
Proof.
  apply (@validate_leap_month sample_constants).
  - reflexivity.
  - exact (ok_packed sample_tables_ok).
  - unfold in_range. lia.
Defined.

Lemma validator_bit_agrees_with_codec_witness :
  (Z.land (Z.shiftr 23378 ((12 - 3) + 4)) 1 = 1
   <-> Py.index (decode 23378) (regular_index 23378 3) = Ok 30)
  /\ @validate sample_constants 2023 3 30 false
     = Ok (Z.land (Z.shiftr 23378 ((12 - 3) + 4)) 1 =? 1)
  /\ (@validate sample_constants 2023 3 30 false = Ok true
      <-> Py.index (decode 23378) (regular_index 23378 3) = Ok 30)
  /\ (@validate sample_constants 2023 3 30 false = Ok false
      <-> Py.index (decode 23378) (regular_index 23378 3) = Ok 29).
Proof.
  destruct (@validator_bit_agrees_with_codec sample_constants 23378 3)
    as [B V]; [lia|].
  split; [exact B|]. apply (V 2023); [lia | reflexivity].
Defined.

(** ** The constructor *)

Section Constructor.

Context {K : Constants}.

Import Datetime.

Lemma init_inv (y m d : Z) (leap : bool) (z : ZhDate) :
  __init__ y m d leap = Ok z ->
  exists c ny, code_of y = Ok c /\ newyear_of y = Ok ny
               /\ validate y m d leap = Ok true
               /\ z = mkZhDate y m d leap c ny.
Proof.
  unfold __init__, code_of, newyear_of. intros H.
  destruct (Py.index LUNARYEARCODE (y - 1900)) as [c|]; [|discriminate].
  destruct (Py.index LUNARNEWYEAR (y - 1900)) as [s|]; [|discriminate].
  cbn [bind] in *.
  destruct (strptime_Ymd s) as [ny|]; [|discriminate].
  cbn [bind] in *.
  destruct (validate y m d leap) as [[|]|]; try discriminate.
  cbn in H. injection H as <-. exists c, ny. auto.
Qed.

Lemma init_valid (y m d c : Z) (leap : bool) (ny : datetime) :
  code_of y = Ok c -> newyear_of y = Ok ny ->
  validate y m d leap = Ok true ->
  __init__ y m d leap = Ok (mkZhDate y m d leap c ny).
Proof.
  unfold __init__, code_of, newyear_of. intros Hc Hn Hv.
  rewrite Hc. cbn [bind].
  destruct (Py.index LUNARNEWYEAR (y - 1900)) as [s|]; [|discriminate].
  cbn [bind] in *. rewrite Hn. cbn [bind]. rewrite Hv. reflexivity.
Qed.

Lemma init_invalid (y m d c : Z) (leap : bool) (ny : datetime) :
  code_of y = Ok c -> newyear_of y = Ok ny ->
  validate y m d leap = Ok false ->
  __init__ y m d leap = Raise (TypeError (invalid_message y m d leap)).
Proof.
  unfold __init__, code_of, newyear_of. intros Hc Hn Hv.
  rewrite Hc. cbn [bind].
  destruct (Py.index LUNARNEWYEAR (y - 1900)) as [s|]; [|discriminate].
  cbn [bind] in *. rewrite Hn. cbn [bind]. rewrite Hv. reflexivity.
Qed.

Lemma init_past_table (y m d : Z) (leap : bool) :
  length LUNARYEARCODE = 201%nat -> 2101 <= y ->
  __init__ y m d leap = Raise IndexError.
Proof.
  intros Hlen Hy. unfold __init__.
  rewrite (index_past_end _ y Hlen Hy). reflexivity.
Qed.

(** For the years whose index lands in the table, wrapped or not, both
    lookups succeed. *)
Lemma lookups_in_table (y : Z) :
  table_size -> newyears_dated -> 1699 <= y <= 2100 ->
  exists c ny, code_of y = Ok c /\ newyear_of y = Ok ny.
Proof.
  intros [Hc Hn] Hd Hy. unfold code_of, newyear_of.
  destruct (Z.le_gt_cases 1900 y) as [G | L].
  - destruct (code_in_table y Hc ltac:(lia)) as (c & Ec & _).
    destruct (Hd y ltac:(lia)) as (ny & En & _).
    exists c, ny. split; assumption.
  - rewrite (index_wraps LUNARYEARCODE), (index_wraps LUNARNEWYEAR)
      by (assumption || lia).
    destruct (code_in_table (y + 201) Hc ltac:(lia)) as (c & Ec & _).
    destruct (Hd (y + 201) ltac:(lia)) as (ny & En & _).
    exists c, ny. split; assumption.
Qed.

(** Where the lookups succeed, construction follows the validator. *)
Lemma init_follows_validate (y m d : Z) (leap : bool) :
  table_size -> newyears_dated -> 1699 <= y <= 2100 ->
  (validate y m d leap = Ok true /\ exists z, __init__ y m d leap = Ok z
     /\ lunar_year z = y /\ lunar_month z = m /\ lunar_day z = d
     /\ leap_month z = leap)
  \/ (validate y m d leap = Ok false
      /\ __init__ y m d leap = Raise (TypeError (invalid_message y m d leap))).
Proof.
  intros Hs Hd Hy.
  destruct (lookups_in_table y Hs Hd Hy) as (c & ny & Hc & Hn).
  assert (Hv : exists b, validate y m d leap = Ok b).
  { destruct (Z.le_gt_cases 1900 y) as [G | L].
    - unfold validate. destruct (negb _); [eexists; reflexivity|].
      unfold code_of in Hc. rewrite Hc. cbn [bind].
      repeat match goal with
             | |- context [if ?b then _ else _] => destruct b
             end; eexists; reflexivity.
    - exists false. apply validate_outside. unfold in_range. lia. }
  destruct Hv as ([|] & Hv).
  - left. split; [assumption|]. eexists. split.
    + apply init_valid; eassumption.
    + cbn. auto.
  - right. split; [assumption|]. eapply init_invalid; eassumption.
Qed.

(** C6, at the input where it fails.  With year tables of 201 entries
    the validator rejects the year 2101, yet constructing such a date
    raises [IndexError], not the validation error. *)
Theorem init_2101_raises_index_error :
  length LUNARYEARCODE = 201%nat ->
  validate 2101 1 1 false = Ok false
  /\ __init__ 2101 1 1 false = Raise IndexError.
Proof.
  intros Hlen. split.
  - apply validate_outside. unfold in_range. lia.
  - apply init_past_table; [assumption | lia].
Qed.

(** C10. The constructor indexes both year tables before it validates.
    From 2101 on the index is past the end and construction raises
    [IndexError]; for 1699..1899 the negative index wraps to the entry
    201 places later, both lookups succeed, and the validation error is
    raised. *)
Theorem init_indexes_before_validating :
  table_size -> newyears_dated ->
  (forall y m d leap, 2101 <= y -> __init__ y m d leap = Raise IndexError)
  /\ (forall y m d leap, 1699 <= y <= 1899 ->
        code_of y = code_of (y + 201)
        /\ newyear_of y = newyear_of (y + 201)
        /\ (exists c ny, code_of y = Ok c /\ newyear_of y = Ok ny)
        /\ __init__ y m d leap
           = Raise (TypeError (invalid_message y m d leap))).
Proof.
  intros Hs Hd. split.
  - intros y m d leap Hy. apply init_past_table; [apply Hs | assumption].
  - intros y m d leap Hy.
    split; [|split; [|split]].
    + apply index_wraps; [apply Hs | assumption].
    + unfold newyear_of. rewrite index_wraps; [reflexivity | apply Hs | assumption].
    + apply lookups_in_table; try assumption. lia.
    + destruct (init_follows_validate y m d leap Hs Hd ltac:(lia))
        as [(Hv & _) | (_ & Hi)]; [|assumption].
      rewrite validate_outside in Hv by (unfold in_range; lia).
      discriminate.
Qed.

End Constructor.

Lemma init_2101_raises_index_error_witness :
  @validate sample_constants 2101 1 1 false = Ok false
  /\ @__init__ sample_constants 2101 1 1 false = Raise IndexError.
Proof.
  apply (@init_2101_raises_index_error sample_constants). reflexivity.
Defined.

Lemma init_indexes_before_validating_witness :
  @__init__ sample_constants 2150 3 4 false = Raise IndexError
  /\ @__init__ sample_constants 1899 12 1 false
     = Raise (TypeError (@invalid_message 1899 12 1 false)).
Proof.
  destruct (@init_indexes_before_validating sample_constants
              (ok_size sample_tables_ok) (ok_dated sample_tables_ok))
    as [Hhigh Hlow].
  split.
  - apply Hhigh. lia.
  - apply (Hlow 1899 12 1 false). lia.
Defined.

(** ** Slots of the decoded year *)

Section Slots.

Context {K : Constants}.

Import Datetime.

(** A date the validator accepts lies in a slot of the decoded year. *)
Lemma validate_slot (y m d c : Z) (leap : bool) :
  code_of y = Ok c -> validate y m d leap = Ok true ->
  in_range y m d
  /\ 0 <= slot_index c m leap
  /\ (exists x, Py.index (decode c) (slot_index c m leap) = Ok x /\ d <= x)
  /\ month_of_slot c (slot_index c m leap + 1) = m
  /\ leap_of_slot c (slot_index c m leap + 1) = leap.
Proof.
  intros Hc Hv.
  assert (R : in_range y m d).
  { destruct (in_range_test y m d) as [T _].
    destruct (_ && _) eqn:E in T; [auto|].
    unfold validate in Hv. rewrite E in Hv. discriminate. }
  split; [assumption|].
  rewrite (validate_inside _ _ _ _ _ R Hc) in Hv. apply Ok_inj in Hv.
  destruct R as (_ & Hm & Hd).
  pose proof (leap_field_range c) as HL.
  destruct leap.
  - apply andb_true_iff in Hv. destruct Hv as [E Hb].
    apply Z.eqb_eq in E.
    assert (P : slot_index c m true = leap_field c).
    { unfold slot_index. rewrite E.
      destruct (Z.eqb_spec m 0); [lia|]. rewrite Z.ltb_irrefl. reflexivity. }
    rewrite P. split; [lia|]. split; [|split].
    + rewrite index_leap by lia. eexists. split; [reflexivity|].
      destruct (Z.eqb_spec d 30) as [-> | N].
      * cbn -[Z.shiftr] in Hb. apply Z.eqb_eq in Hb. rewrite Hb. cbn. lia.
      * pose proof (month_len_range (Py.truthy (Z.shiftr c 16))). lia.
    + unfold month_of_slot. rewrite E.
      destruct (Z.eqb_spec m 0); [lia|].
      destruct (Z.leb_spec (m + 1) m); [lia|]. cbn. lia.
    + unfold leap_of_slot. rewrite E.
      destruct (Z.eqb_spec m 0); [lia|]. rewrite Z.eqb_refl. reflexivity.
  - rewrite regular_index_slot. split; [|split; [|split]].
    + unfold regular_index.
      destruct ((leap_field c =? 0) || (m <=? leap_field c)); lia.
    + rewrite index_regular by lia. eexists. split; [reflexivity|].
      replace (12 - m + 4) with (16 - m) in Hv by lia.
      destruct (Z.testbit c (16 - m)); cbn in *; lia.
    + unfold month_of_slot, regular_index.
      destruct (Z.eqb_spec (leap_field c) 0); cbn [orb];
        [ | destruct (Z.leb_spec m (leap_field c)) ].
      * replace (m - 1 + 1) with m by lia. reflexivity.
      * replace (m - 1 + 1) with m by lia.
        destruct (Z.leb_spec m (leap_field c)); [reflexivity | lia].
      * destruct (Z.leb_spec (m + 1) (leap_field c)); lia.
    + unfold leap_of_slot, regular_index.
      destruct (Z.eqb_spec (leap_field c) 0); cbn [orb negb andb];
        [reflexivity|].
      destruct (Z.leb_spec m (leap_field c));
        match goal with |- (?a =? ?b) = false => destruct (Z.eqb_spec a b) end;
        lia || reflexivity.
Qed.

(** A day of a slot of the decoded year is a date the validator
    accepts, and that date lies in the slot. *)
Lemma slot_validate (y c p x d : Z) :
  packed c -> 1900 <= y <= 2100 -> code_of y = Ok c ->
  0 <= p -> Py.index (decode c) p = Ok x -> 1 <= d <= x ->
  validate y (month_of_slot c (p + 1)) d (leap_of_slot c (p + 1)) = Ok true
  /\ slot_index c (month_of_slot c (p + 1)) (leap_of_slot c (p + 1)) = p.
Proof.
  intros [Hc12 HL12] Hy Hc Hp Hx Hd.
  pose proof (leap_field_range c) as HL.
  destruct (index_split _ _ _ Hp Hx) as (Hlen & _ & _).
  unfold Py.len in Hlen. rewrite decode_length in Hlen.
  unfold month_of_slot, leap_of_slot, slot_index.
  destruct (Z.eqb_spec (leap_field c) 0) as [E0 | E0]; cbn [orb negb andb].
  - (* no leap month *)
    replace (p + 1 - 1) with p by lia.
    assert (Hm : 1 <= p + 1 <= 12) by lia.
    split; [|reflexivity].
    pose proof (index_regular c (p + 1) Hm) as Hr.
    unfold regular_index in Hr. rewrite (proj2 (Z.eqb_eq _ _) E0) in Hr.
    cbn [orb] in Hr. replace (p + 1 - 1) with p in Hr by lia.
    rewrite Hx in Hr. apply Ok_inj in Hr; subst x.
    pose proof (month_len_range (Z.testbit c (16 - (p + 1)))).
    rewrite (validate_inside y (p + 1) d c false); [|unfold in_range; lia|assumption].
    f_equal. replace (12 - (p + 1) + 4) with (16 - (p + 1)) by lia.
    destruct (Z.testbit c (16 - (p + 1))); cbn in *; lia.
  - destruct (Z.leb_spec (p + 1) (leap_field c)) as [Hle | Hgt].
    + (* before the leap month *)
      assert (Hm : 1 <= p + 1 <= 12) by lia.
      destruct (Z.eqb_spec (p + 1) (leap_field c + 1)); [lia|].
      cbn [negb andb].
      split.
      2:{ destruct (Z.ltb_spec (p + 1) (leap_field c)),
            (Z.eqb_spec (p + 1) (leap_field c)); cbn; lia. }
      pose proof (index_regular c (p + 1) Hm) as Hr.
      unfold regular_index in Hr.
      destruct (Z.leb_spec (p + 1) (leap_field c)); [|lia].
      rewrite orb_true_r in Hr. replace (p + 1 - 1) with p in Hr by lia.
      rewrite Hx in Hr. apply Ok_inj in Hr; subst x.
      pose proof (month_len_range (Z.testbit c (16 - (p + 1)))).
      rewrite (validate_inside y (p + 1) d c false); [|unfold in_range; lia|assumption].
      f_equal. replace (12 - (p + 1) + 4) with (16 - (p + 1)) by lia.
      destruct (Z.testbit c (16 - (p + 1))); cbn in *; lia.
    + replace (p + 1 - 1) with p by lia.
      destruct (Z.eqb_spec (p + 1) (leap_field c + 1)) as [El | El];
        cbn [negb andb].
      * (* the leap month *)
        assert (p = leap_field c) by lia. subst p.
        rewrite Z.ltb_irrefl. split; [|reflexivity].
        rewrite index_leap in Hx by lia. apply Ok_inj in Hx; subst x.
        rewrite leap_long_truthy in Hd by assumption.
        pose proof (month_len_range (Z.testbit c 16)).
        rewrite (validate_inside y (leap_field c) d c true);
          [|unfold in_range; lia|assumption].
        f_equal. rewrite Z.eqb_refl, leap_long_is_one by assumption.
        destruct (Z.testbit c 16), (Z.eqb_spec d 30); cbn in *; lia.
      * (* after the leap month *)
        assert (Hm : 1 <= p <= 12) by lia.
        split.
        2:{ destruct (Z.ltb_spec p (leap_field c)),
              (Z.eqb_spec p (leap_field c)); cbn; lia. }
        pose proof (index_regular c p Hm) as Hr.
        unfold regular_index in Hr.
        destruct (Z.eqb_spec (leap_field c) 0); [lia|].
        destruct (Z.leb_spec p (leap_field c)); [lia|].
        cbn [orb] in Hr. rewrite Hx in Hr. apply Ok_inj in Hr; subst x.
        pose proof (month_len_range (Z.testbit c (16 - p))).
        rewrite (validate_inside y p d c false); [|unfold in_range; lia|assumption].
        f_equal. replace (12 - p + 4) with (16 - p) by lia.
        destruct (Z.testbit c (16 - p)); cbn in *; lia.
Qed.

Lemma days_passed_slot (y m d c : Z) (leap : bool) (ny : datetime) :
  __days_passed (mkZhDate y m d leap c ny)
  = Py.sum (Py.slice_to (decode c) (slot_index c m leap)) + d - 1.
Proof.
  unfold __days_passed, slot_index. cbn [year_code lunar_month lunar_day leap_month].
  fold (leap_field c).
  destruct ((leap_field c =? 0) || (m <? leap_field c)); cbn [orb];
    [reflexivity|].
  destruct (negb leap && (m =? leap_field c)); reflexivity.
Qed.

End Slots.

(** ** The converters *)

Section Converters.

Context {K : Constants}.

Import Datetime.

Lemma newyear_valid (y : Z) (ny : datetime) :
  newyear_of y = Ok ny -> valid ny = true /\ at_midnight ny.
Proof.
  unfold newyear_of. destruct (Py.index LUNARNEWYEAR (y - 1900)); [|discriminate].
  apply strptime_Ymd_valid.
Qed.

Lemma year_data (y : Z) :
  tables_ok -> 1900 <= y <= 2100 ->
  exists c ny, code_of y = Ok c /\ packed c /\ newyear_of y = Ok ny
               /\ year ny = y /\ valid ny = true /\ at_midnight ny.
Proof.
  intros T Hy.
  destruct (code_in_table y (proj1 (ok_size T)) Hy) as (c & Hc & Hin).
  destruct (ok_dated T y Hy) as (ny & Hn & Hyear).
  destruct (newyear_valid _ _ Hn).
  exists c, ny. split; [assumption|].
  split; [apply (proj1 (Forall_forall _ _) (ok_packed T) c Hin)|]. auto.
Qed.

Lemma days_passed_bounds (y m d c : Z) (leap : bool) (ny : datetime) :
  code_of y = Ok c -> validate y m d leap = Ok true ->
  0 <= __days_passed (mkZhDate y m d leap c ny) < Py.sum (decode c).
Proof.
  intros Hc Hv.
  destruct (validate_slot _ _ _ _ _ Hc Hv) as (R & Hp & (x & Hx & Hd) & _).
  rewrite days_passed_slot.
  pose proof (prefix_sum_bound _ _ _ (decode_nonneg c) Hp Hx).
  unfold in_range in R. lia.
Qed.

Lemma to_datetime_value (z : ZhDate) :
  valid (newyear z) = true -> at_midnight (newyear z) ->
  year (newyear z) <= 2100 -> 0 <= __days_passed z <= 400 ->
  to_datetime z = Ok (fromordinal (toordinal (newyear z) + __days_passed z)).
Proof.
  intros Hv Hm Hy Hd. unfold to_datetime.
  pose proof (toordinal_in_year _ Hv) as B.
  apply valid_unfold in Hv as V. destruct V as ((Y1 & _) & _).
  pose proof (days_before_year_nonneg _ Y1).
  pose proof (days_before_year_mono (year (newyear z) + 1) 2101 ltac:(lia)) as M.
  change (days_before_year 2101) with 767009 in M.
  destruct (timedelta_new (__days_passed z) 0 0) as [td|] eqn:E.
  2:{ exfalso. unfold timedelta_new in E. cbn in E. rewrite Z.add_0_r in E.
      destruct (Z.gtb_spec (Z.abs (__days_passed z)) 999999999); [lia|discriminate]. }
  cbn [bind]. rewrite (add_days _ _ _ Hv Hm E) by (unfold MAXORDINAL; lia).
  unfold fromordinal. destruct (ord2ymd _) as [[? ?] ?]. reflexivity.
Qed.

(** [from_datetime] once the lunar year is known. *)
Lemma from_datetime_step (g nY nl : datetime) (ly c : Z) :
  valid g = true ->
  newyear_of (year g) = Ok nY ->
  ly = year g - Py.int_of_bool (toordinal g <? toordinal nY) ->
  newyear_of ly = Ok nl -> code_of ly = Ok c ->
  from_datetime g =
    ('(slot, d) <- find_month (decode c) (toordinal g - toordinal nl) ;;
     __init__ ly (month_of_slot c slot) d (leap_of_slot c slot)).
Proof.
  intros Hg HnY Hly Hnl Hc.
  destruct (newyear_valid _ _ HnY) as (VY & MY).
  destruct (newyear_valid _ _ Hnl) as (Vl & Ml).
  unfold from_datetime. unfold newyear_of in HnY, Hnl.
  destruct (Py.index LUNARNEWYEAR (year g - 1900)) as [s|]; [|discriminate].
  cbn [bind] in *. rewrite HnY. cbn [bind].
  destruct (sub_before nY g VY Hg MY) as (gap & -> & Hgap). cbn [bind].
  rewrite Hgap, <- Hly.
  destruct (Py.index LUNARNEWYEAR (ly - 1900)) as [s'|]; [|discriminate].
  cbn [bind] in *. rewrite Hnl. cbn [bind].
  destruct (sub_days g nl Hg Vl Ml) as (since & -> & Hsince). cbn [bind].
  rewrite Hsince. unfold code_of in Hc. rewrite Hc. cbn [bind].
  reflexivity.
Qed.

(** The Gregorian year of a lunar date is its lunar year or a later
    one, and the next one when the table has a next New Year. *)
Lemma lunar_date_year (T : tables_ok) (y c o : Z) (ny : datetime) :
  1900 <= y <= 2100 -> code_of y = Ok c -> newyear_of y = Ok ny ->
  year ny = y ->
  toordinal ny <= o < toordinal ny + Py.sum (decode c) ->
  year (fromordinal o) = y
  \/ (y < year (fromordinal o)
      /\ (y < 2100 ->
          year (fromordinal o) = y + 1
          /\ forall b, newyear_of (y + 1) = Ok b -> o < toordinal b)).
Proof.
  intros Hy Hc Hn Hyear Ho.
  destruct (newyear_valid _ _ Hn) as (V & _).
  pose proof (toordinal_in_year _ V) as B. rewrite Hyear in B.
  pose proof (decode_sum_bound c) as S.
  pose proof (days_before_year_nonneg y ltac:(lia)).
  pose proof (days_before_year_mono (y + 1) 2101 ltac:(lia)) as Mo.
  change (days_before_year 2101) with 767009 in Mo.
  destruct (Z.le_gt_cases o (days_before_year (y + 1))) as [L | G].
  - left. apply year_fromordinal; lia.
  - right. split.
    + destruct (fromordinal_spec o ltac:(unfold MAXORDINAL; lia))
        as (Vo & _ & Oo).
      pose proof (toordinal_in_year _ Vo) as Bo. rewrite Oo in Bo.
      destruct (Z.lt_ge_cases y (year (fromordinal o))); [assumption|].
      pose proof (days_before_year_mono (year (fromordinal o) + 1) (y + 1)
                    ltac:(lia)). lia.
    + intros Hlt.
      destruct (year_data (y + 1) T ltac:(lia))
        as (_ & b & _ & _ & Hb & Yb & Vb & _).
      pose proof (toordinal_in_year _ Vb) as Bb. rewrite Yb in Bb.
      pose proof (ok_chained T y c ny b ltac:(lia) Hc Hn Hb) as Ch.
      split.
      * apply year_fromordinal; lia.
      * intros b' Hb'. assert (b' = b) by congruence. subst b'. lia.
Qed.

Theorem roundtrip_lunar (T : tables_ok) (y m d : Z) (leap : bool) (z : ZhDate) :
  __init__ y m d leap = Ok z ->
  exists dt, to_datetime z = Ok dt
             /\ (year dt <= 2100 -> from_datetime dt = Ok z).
Proof.
  intros Hi.
  destruct (init_inv _ _ _ _ _ Hi) as (c & ny & Hc & Hn & Hv & ->).
  destruct (validate_slot _ _ _ _ _ Hc Hv)
    as (R & Hp & (x & Hx & Hd) & Hm & Hl).
  destruct R as (Hy & Rm & Rd).
  destruct (year_data y T Hy) as (c' & ny' & Hc' & Pc & Hn' & Hyear & V & M).
  assert (c' = c) by congruence. assert (ny' = ny) by congruence.
  subst c' ny'. clear Hc' Hn'.
  pose proof (days_passed_bounds y m d c leap ny Hc Hv) as Bd.
  pose proof (decode_sum_bound c) as Bs.
  set (z := mkZhDate y m d leap c ny) in *.
  pose proof (toordinal_in_year _ V) as By. rewrite Hyear in By.
  pose proof (days_before_year_nonneg y ltac:(lia)) as N.
  pose proof (days_before_year_mono (y + 1) 2101 ltac:(lia)) as Mo.
  change (days_before_year 2101) with 767009 in Mo.
  set (o := toordinal ny + __days_passed z) in *.
  assert (Ht : to_datetime z = Ok (fromordinal o)).
  { apply to_datetime_value; cbn [newyear z]; try assumption; lia. }
  exists (fromordinal o). split; [assumption|]. intros HY.
  destruct (fromordinal_spec o ltac:(unfold MAXORDINAL; lia))
    as (Vo & Mid & Oo).
  assert (Step : forall nY,
             newyear_of (year (fromordinal o)) = Ok nY ->
             y = year (fromordinal o)
                 - Py.int_of_bool (toordinal (fromordinal o) <? toordinal nY) ->
             from_datetime (fromordinal o) = Ok z).
  { intros nY HnY Hly.
    rewrite (from_datetime_step _ nY ny y c Vo HnY Hly Hn Hc).
    rewrite Oo. replace (o - toordinal ny) with (__days_passed z) by (unfold o; lia).
    unfold z at 1. rewrite days_passed_slot.
    rewrite (find_month_at _ _ x) by
      (try assumption; try apply decode_nonneg; lia).
    cbn [bind]. rewrite Hm, Hl. assumption. }
  destruct (lunar_date_year T y c o ny Hy Hc Hn Hyear ltac:(unfold o; lia))
    as [E | (Hlater & Hnext)].
  - apply (Step ny); [rewrite E; assumption|].
    rewrite E, Oo. destruct (Z.ltb_spec o (toordinal ny)); [unfold o in *; lia|].
    cbn. lia.
  - assert (Hlt : y < 2100) by lia.
    destruct (Hnext Hlt) as (E & Hbefore).
    destruct (year_data (y + 1) T ltac:(lia)) as (_ & b & _ & _ & Hb & _).
    apply (Step b); [rewrite E; assumption|].
    rewrite E, Oo. specialize (Hbefore b Hb).
    destruct (Z.ltb_spec o (toordinal b)); [|lia]. cbn. lia.
Qed.

(** What [from_datetime] returns on every date of the table's range. *)
Lemma from_datetime_spec (T : tables_ok) (g n0 nY : datetime) :
  valid g = true -> 1900 <= year g <= 2100 ->
  newyear_of 1900 = Ok n0 -> toordinal n0 <= toordinal g ->
  newyear_of (year g) = Ok nY ->
  exists z,
    from_datetime g = Ok z
    /\ lunar_year z
       = year g - Py.int_of_bool (toordinal g <? toordinal nY)
    /\ code_of (lunar_year z) = Ok (year_code z)
    /\ newyear_of (lunar_year z) = Ok (newyear z)
    /\ validate (lunar_year z) (lunar_month z) (lunar_day z) (leap_month z)
       = Ok true
    /\ toordinal (newyear z) + __days_passed z = toordinal g
    /\ to_datetime z = Ok (midnight g).
Proof.
  intros Vg Hy Hn0 H0 HnY.
  destruct (year_data _ T Hy) as (cY & nY' & HcY & PY & HnY' & YY & VY & MY).
  assert (nY' = nY) by congruence. subst nY'. clear HnY'.
  pose proof (toordinal_in_year _ Vg) as Bg.
  pose proof (toordinal_in_year _ VY) as BY. rewrite YY in BY.
  set (ly := year g - Py.int_of_bool (toordinal g <? toordinal nY)).
  assert (Hly : 1900 <= ly <= 2100).
  { unfold ly. destruct (Z.ltb_spec (toordinal g) (toordinal nY)); cbn; [|lia].
    destruct (Z.eq_dec (year g) 1900) as [E | E]; [|lia].
    rewrite E in HnY. assert (n0 = nY) by congruence. subst. lia. }
  destruct (year_data ly T Hly) as (c & nl & Hc & Pc & Hnl & Yl & Vl & Ml).
  pose proof (toordinal_in_year _ Vl) as Bl. rewrite Yl in Bl.
  pose proof (decode_sum_bound c) as Bs.
  assert (Hdp : 0 <= toordinal g - toordinal nl < Py.sum (decode c)).
  { unfold ly in *.
    destruct (Z.ltb_spec (toordinal g) (toordinal nY)) as [L | G];
      cbn [Py.int_of_bool] in *.
    - replace (year g - 1 + 1) with (year g) in Bl by lia.
      pose proof (ok_chained T (year g - 1) c nl nY ltac:(lia) Hc Hnl) as Ch.
      replace (year g - 1 + 1) with (year g) in Ch by lia.
      specialize (Ch HnY). lia.
    - rewrite Z.sub_0_r in *. assert (nl = nY) by congruence. subst nl.
      split; [lia|].
      destruct (Z.eq_dec (year g) 2100) as [E | E].
      + rewrite E in *. pose proof (ok_last T c nY Hc Hnl) as La.
        change (ymd2ord 2101 1 1) with (days_before_year (2100 + 1) + 1) in La.
        lia.
      + destruct (year_data (year g + 1) T ltac:(lia))
          as (_ & b & _ & _ & Hb & Yb & Vb & _).
        pose proof (toordinal_in_year _ Vb) as Bb. rewrite Yb in Bb.
        rewrite (ok_chained T (year g) c nY b ltac:(lia) Hc Hnl Hb) in Bb.
        lia. }
  destruct (find_month_total (decode c) _ (decode_nonneg c) Hdp)
    as (p & x & d & Hf & Hp & Hx & Hd & Hsum).
  destruct (slot_validate ly c p x d Pc Hly Hc Hp Hx Hd) as (Hv & Hs).
  set (m := month_of_slot c (p + 1)) in *.
  set (leap := leap_of_slot c (p + 1)) in *.
  exists (mkZhDate ly m d leap c nl).
  assert (Hdays : __days_passed (mkZhDate ly m d leap c nl)
                  = toordinal g - toordinal nl).
  { rewrite days_passed_slot, Hs. lia. }
  split; [|split; [reflexivity|split; [assumption|split; [assumption|
    split; [assumption|split]]]]].
  - rewrite (from_datetime_step g nY nl ly c Vg HnY eq_refl Hnl Hc).
    rewrite Hf. cbn [bind]. apply init_valid; assumption.
  - cbn [newyear]. rewrite Hdays. lia.
  - rewrite to_datetime_value; cbn [newyear]; try assumption; try lia.
    rewrite Hdays.
    replace (toordinal nl + (toordinal g - toordinal nl)) with (toordinal g) by lia.
    rewrite fromordinal_toordinal by assumption. reflexivity.
Qed.

(** X10. Lunar to Gregorian and back, for every lunar date whose
    Gregorian date is not later than 2100. *)
Theorem roundtrip_lunar_until_2100
  (T : tables_ok) (y m d : Z) (leap : bool) (z : ZhDate) (dt : datetime) :
  __init__ y m d leap = Ok z -> to_datetime z = Ok dt -> year dt <= 2100 ->
  exists z', from_datetime dt = Ok z' /\ z' = z /\ __eq__ z' z = true.
Proof.
  intros Hi Ht Hy.
  destruct (roundtrip_lunar T y m d leap z Hi) as (dt' & Ht' & Hback).
  assert (dt' = dt) by congruence. subst dt'.
  exists z. split; [apply Hback, Hy|]. split; [reflexivity|].
  unfold __eq__. rewrite !Z.eqb_refl, Bool.eqb_reflx. reflexivity.
Qed.

(** X11. Gregorian to lunar and back, for every date from the New Year
    of 1900 to the end of 2100; the time of day is dropped. *)
Theorem roundtrip_gregorian_until_2100
  (T : tables_ok) (g n0 : datetime) :
  valid g = true -> 1900 <= year g <= 2100 ->
  newyear_of 1900 = Ok n0 -> toordinal n0 <= toordinal g ->
  exists z, from_datetime g = Ok z /\ to_datetime z = Ok (midnight g).
Proof.
  intros Vg Hy Hn0 H0.
  destruct (year_data _ T Hy) as (_ & nY & _ & _ & HnY & _).
  destruct (from_datetime_spec T g n0 nY Vg Hy Hn0 H0 HnY)
    as (z & Hf & _ & _ & _ & _ & _ & Ht).
  exists z. split; assumption.
Qed.

(** C1, at an input where it fails.  With a New Year table of 201
    entries, a lunar date whose Gregorian date falls in 2101 is not
    converted back: [from_datetime] looks up the New Year of 2101, which is
    past the end of the table, and raises [IndexError]. *)
Theorem roundtrip_lunar_fails_in_2101 (z : ZhDate) (dt : datetime) :
  length LUNARNEWYEAR = 201%nat ->
  to_datetime z = Ok dt -> year dt = 2101 ->
  (dt' <- to_datetime z ;; from_datetime dt') = Raise IndexError.
Proof.
  intros Hlen Ht Hy. rewrite Ht. cbn [bind].
  unfold from_datetime. rewrite Hy.
  rewrite (index_past_end _ 2101 Hlen) by lia. reflexivity.
Qed.

(** C2, at an input where it fails.  With a New Year table of 201
    entries, [from_datetime] raises [IndexError] on every date of the
    Gregorian year 2101, the days of January that still belong to lunar
    year 2100 among them. *)
Theorem from_datetime_fails_in_2101 (g : datetime) :
  length LUNARNEWYEAR = 201%nat -> year g = 2101 ->
  from_datetime g = Raise IndexError.
Proof.
  intros Hlen Hy. unfold from_datetime. rewrite Hy.
  rewrite (index_past_end _ 2101 Hlen) by lia. reflexivity.
Qed.

(** The last day of a lunar year is the last day of its last slot:
    month 12, in its leap form when the leap month is the twelfth. *)
Lemma last_day_of_year (y m d c : Z) (leap : bool) (ny : datetime) :
  packed c -> code_of y = Ok c -> validate y m d leap = Ok true ->
  __days_passed (mkZhDate y m d leap c ny) + 1 = Py.sum (decode c) ->
  m = 12 /\ leap = (leap_field c =? 12)
  /\ Py.index (decode c) (Py.len (decode c) - 1) = Ok d.
Proof.
  intros [_ HL] Hc Hv Hlast.
  destruct (validate_slot _ _ _ _ _ Hc Hv)
    as (R & Hp & (x & Hx & Hd) & Hm & Hl).
  rewrite days_passed_slot in Hlast.
  destruct (index_split _ _ _ Hp Hx) as (Hlen & Hsplit & Hpre).
  set (pre := Py.slice_to (decode c) (slot_index c m leap)) in *.
  set (post := skipn (S (Z.to_nat (slot_index c m leap))) (decode c)) in *.
  pose proof (decode_entries c) as He. rewrite Hsplit in He.
  apply Forall_app in He. destruct He as [_ He].
  apply Forall_inv_tail in He.
  assert (Hs : Py.sum (decode c) = Py.sum pre + x + Py.sum post).
  { rewrite Hsplit at 1. rewrite sum_app, sum_cons. lia. }
  assert (Hpost : post = []).
  { destruct post as [|k post']; [reflexivity | exfalso].
    pose proof (Forall_inv He) as Hk. cbv beta in Hk.
    apply Forall_inv_tail in He.
    assert (0 <= Py.sum post').
    { apply sum_nonneg. eapply Forall_impl; [|exact He]. cbn. lia. }
    rewrite sum_cons in Hs. lia. }
  rewrite Hpost, sum_nil in Hs.
  assert (d = x) by lia. subst x.
  assert (Hn : Py.len (decode c) = slot_index c m leap + 1).
  { rewrite Hsplit, Hpost. unfold Py.len. rewrite length_app. cbn [length].
    rewrite Hpre. lia. }
  rewrite Hn. replace (slot_index c m leap + 1 - 1) with (slot_index c m leap) by lia.
  split; [|split; [|assumption]].
  - rewrite <- Hm. unfold Py.len in Hn. rewrite decode_length in Hn.
    unfold month_of_slot. pose proof (leap_field_range c).
    destruct (Z.eqb_spec (leap_field c) 0); cbn [orb]; [lia|].
    destruct (Z.leb_spec (slot_index c m leap + 1) (leap_field c)); lia.
  - rewrite <- Hl. unfold Py.len in Hn. rewrite decode_length in Hn.
    unfold leap_of_slot. pose proof (leap_field_range c).
    destruct (Z.eqb_spec (leap_field c) 0) as [E | E]; cbn [negb andb].
    + rewrite E. reflexivity.
    + destruct (Z.eqb_spec (slot_index c m leap + 1) (leap_field c + 1)),
        (Z.eqb_spec (leap_field c) 12); lia || reflexivity.
Qed.

(** Two datetimes of one day have one year. *)
Lemma same_day_same_year (a b : datetime) :
  valid a = true -> valid b = true -> toordinal a = toordinal b ->
  year a = year b.
Proof.
  intros Va Vb E. apply valid_unfold in Va, Vb.
  destruct Va as (Da & _), Vb as (Db & _).
  apply (ymd2ord_inj _ _ _ _ _ _ Da Db E).
Qed.

(** New Years come in the order of their years. *)
Lemma newyear_1900_first (T : tables_ok) (y : Z) (n0 ny : datetime) :
  1900 <= y <= 2100 -> newyear_of 1900 = Ok n0 -> newyear_of y = Ok ny ->
  toordinal n0 <= toordinal ny.
Proof.
  intros Hy H0 Hn.
  destruct (year_data 1900 T ltac:(lia)) as (_ & a & _ & _ & Ha & Ya & Va & _).
  destruct (year_data y T Hy) as (_ & b & _ & _ & Hb & Yb & Vb & _).
  assert (a = n0) by congruence. assert (b = ny) by congruence. subst a b.
  destruct (Z.eq_dec y 1900) as [-> | N].
  - assert (n0 = ny) by congruence. subst. lia.
  - pose proof (toordinal_in_year _ Va) as Ba. rewrite Ya in Ba.
    pose proof (toordinal_in_year _ Vb) as Bb. rewrite Yb in Bb.
    pose proof (days_before_year_mono (1900 + 1) y ltac:(lia)). lia.
Qed.

Lemma slice_to_0 {A : Type} (l : list A) : Py.slice_to l 0 = [].
Proof.
  unfold Py.slice_to. cbn. pose proof (len_nonneg l).
  rewrite Z.min_l by lia. reflexivity.
Qed.

Lemma sum_ge_len (l : list Z) (b : Z) :
  Forall (fun k => b <= k) l -> b * Py.len l <= Py.sum l.
Proof.
  unfold Py.len. induction 1 as [|k l Hk _ IH]; [rewrite sum_nil; cbn; lia|].
  rewrite sum_cons. cbn [length]. lia.
Qed.

Lemma decode_sum_pos (c : Z) : 348 <= Py.sum (decode c).
Proof.
  assert (H : Forall (fun k => 29 <= k) (decode c))
    by (eapply Forall_impl; [|apply decode_entries]; cbn; lia).
  apply sum_ge_len in H. unfold Py.len in H. rewrite decode_length in H.
  destruct (leap_field c =? 0); lia.
Qed.

(** Every moment of a New Year's day is day 1 of month 1. *)
Lemma from_datetime_newyear (T : tables_ok) (y : Z) (ny g : datetime) :
  1900 <= y <= 2100 -> newyear_of y = Ok ny ->
  valid g = true -> toordinal g = toordinal ny ->
  exists c, code_of y = Ok c
            /\ from_datetime g = Ok (mkZhDate y 1 1 false c ny).
Proof.
  intros Hy Hn Vg Hg.
  destruct (year_data y T Hy) as (c & ny' & Hc & Pc & Hn' & Yn & Vn & Mn).
  assert (ny' = ny) by congruence. subst ny'. clear Hn'.
  assert (Yg : year g = y)
    by (rewrite <- Yn; apply same_day_same_year; assumption).
  exists c. split; [assumption|].
  rewrite <- Yg in Hn.
  assert (Hly : y = year g - Py.int_of_bool (toordinal g <? toordinal ny)).
  { rewrite Hg, Z.ltb_irrefl. cbn. lia. }
  rewrite Yg in Hn.
  assert (Hn2 : newyear_of (year g) = Ok ny) by (rewrite Yg; assumption).
  rewrite (from_datetime_step g ny ny y c Vg Hn2 Hly Hn Hc).
  pose proof (leap_field_range c) as HL.
  pose proof (index_regular c 1 ltac:(lia)) as Hx.
  assert (R0 : regular_index c 1 = 0).
  { unfold regular_index.
    destruct (Z.eqb_spec (leap_field c) 0), (Z.leb_spec 1 (leap_field c));
      cbn; lia. }
  rewrite R0 in Hx.
  pose proof (month_len_range (Z.testbit c (16 - 1))) as Hr.
  replace (toordinal g - toordinal ny)
    with (Py.sum (Py.slice_to (decode c) 0) + 1 - 1)
    by (rewrite slice_to_0, sum_nil; lia).
  rewrite (find_month_at _ 0 _ 1 (decode_nonneg c) ltac:(lia) Hx ltac:(lia)).
  cbn [bind Z.add].
  assert (M1 : month_of_slot c 1 = 1).
  { unfold month_of_slot.
    destruct (Z.eqb_spec (leap_field c) 0), (Z.leb_spec 1 (leap_field c));
      cbn; lia. }
  assert (L1 : leap_of_slot c 1 = false).
  { unfold leap_of_slot.
    destruct (Z.eqb_spec (leap_field c) 0),
      (Z.eqb_spec 1 (leap_field c + 1)); cbn; lia || reflexivity. }
  rewrite M1, L1. apply init_valid; try assumption.
  rewrite (validate_inside y 1 1 c false); [reflexivity| |assumption].
  unfold in_range. lia.
Qed.

(** X27. On the dates of Gregorian years 1900..2100 from the New Year of
    1900 on, [from_datetime] assigns the Gregorian year as lunar year,
    less one when the date is before that year's New Year (which is at
    midnight, so this is a comparison of days).  A New Year's day maps to
    day 1 of month 1, not leap, of its year; the day before a New Year
    maps to the last day of the year before: the last day of its last
    slot, month 12. *)
Theorem from_datetime_lunar_year (T : tables_ok) (n0 : datetime) :
  newyear_of 1900 = Ok n0 ->
  (forall g nY,
      valid g = true -> 1900 <= year g <= 2100 ->
      toordinal n0 <= toordinal g -> newyear_of (year g) = Ok nY ->
      exists z, from_datetime g = Ok z
                /\ lunar_year z
                   = if toordinal g <? toordinal nY then year g - 1
                     else year g)
  /\ (forall y ny g,
        1900 <= y <= 2100 -> newyear_of y = Ok ny ->
        valid g = true -> toordinal g = toordinal ny ->
        exists z, from_datetime g = Ok z
                  /\ lunar_year z = y /\ lunar_month z = 1
                  /\ lunar_day z = 1 /\ leap_month z = false)
  /\ (forall y ny g,
        1901 <= y <= 2100 -> newyear_of y = Ok ny ->
        valid g = true -> toordinal g + 1 = toordinal ny ->
        exists z c, from_datetime g = Ok z
                    /\ lunar_year z = y - 1 /\ code_of (y - 1) = Ok c
                    /\ lunar_month z = 12
                    /\ leap_month z = (leap_field c =? 12)
                    /\ Py.index (decode c) (Py.len (decode c) - 1)
                       = Ok (lunar_day z)
                    /\ __days_passed z + 1 = Py.sum (decode c)).
Proof.
  intros Hn0. split; [|split].
  - intros g nY Vg Hy H0 HnY.
    destruct (from_datetime_spec T g n0 nY Vg Hy Hn0 H0 HnY)
      as (z & Hf & Hl & _).
    exists z. split; [assumption|]. rewrite Hl.
    destruct (toordinal g <? toordinal nY); cbn; lia.
  - intros y ny g Hy Hn Vg Hg.
    destruct (from_datetime_newyear T y ny g Hy Hn Vg Hg) as (c & _ & Hf).
    eexists. split; [exact Hf|]. cbn. auto.
  - intros y ny g Hy Hn Vg Hg.
    destruct (year_data y T ltac:(lia))
      as (_ & ny' & _ & _ & Hn' & Yn & Vn & _).
    assert (ny' = ny) by congruence. subst ny'. clear Hn'.
    destruct (year_data (y - 1) T ltac:(lia))
      as (c & np & Hc & Pc & Hnp & Yp & Vp & _).
    pose proof (ok_chained T (y - 1) c np) as Ch.
    replace (y - 1 + 1) with y in Ch by lia.
    specialize (Ch ny ltac:(lia) Hc Hnp Hn).
    pose proof (decode_sum_pos c) as Sp.
    pose proof (toordinal_in_year _ Vg) as Bg.
    pose proof (toordinal_in_year _ Vn) as Bn. rewrite Yn in Bn.
    pose proof (toordinal_in_year _ Vp) as Bp. rewrite Yp in Bp.
    replace (y - 1 + 1) with y in Bp by lia.
    assert (Yg : year g = y \/ year g = y - 1).
    { destruct (Z.lt_trichotomy (year g) (y - 1)) as [L | [E | G]];
        [exfalso | right; assumption | ].
      - pose proof (days_before_year_mono (year g + 1) (y - 1) ltac:(lia)).
        lia.
      - destruct (Z.eq_dec (year g) y) as [E | N]; [left; assumption|].
        exfalso.
        pose proof (days_before_year_mono (y + 1) (year g) ltac:(lia)). lia. }
    assert (Hy' : 1900 <= year g <= 2100) by lia.
    pose proof (newyear_1900_first T (y - 1) n0 np ltac:(lia) Hn0 Hnp) as F.
    destruct (year_data _ T Hy') as (_ & nY & _ & _ & HnY & _).
    destruct (from_datetime_spec T g n0 nY Vg Hy' Hn0 ltac:(lia) HnY)
      as (z & Hf & Hl & Hcz & Hnz & Hv & Ho & _).
    assert (Ly : lunar_year z = y - 1).
    { rewrite Hl. destruct Yg as [E | E]; rewrite E in *.
      - assert (nY = ny) by congruence. subst nY.
        destruct (Z.ltb_spec (toordinal g) (toordinal ny)); cbn; lia.
      - assert (nY = np) by congruence. subst nY.
        destruct (Z.ltb_spec (toordinal g) (toordinal np)); cbn; lia. }
    rewrite Ly in *.
    assert (Ec : year_code z = c) by congruence.
    assert (En : newyear z = np) by congruence.
    destruct z as [zy zm zd zl zc zn]. cbn in Ly, Ec, En, Hv, Ho. subst zy zc zn.
    assert (Hlast : __days_passed (mkZhDate (y - 1) zm zd zl c np) + 1
                    = Py.sum (decode c)) by lia.
    destruct (last_day_of_year _ _ _ _ _ _ Pc Hc Hv Hlast) as (M12 & L12 & Hd).
    exists (mkZhDate (y - 1) zm zd zl c np), c. cbn.
    repeat (split; try assumption).
Qed.

End Converters.

Lemma roundtrip_lunar_until_2100_witness :
  exists z',
    @from_datetime sample_constants (Datetime.mkdatetime 2023 4 1 0 0 0 0)
    = Ok z'
    /\ z' = mkZhDate 2023 2 11 true 23378
              (Datetime.mkdatetime 2023 1 22 0 0 0 0)
    /\ __eq__ z' (mkZhDate 2023 2 11 true 23378
                    (Datetime.mkdatetime 2023 1 22 0 0 0 0)) = true.
Proof.
  apply (@roundtrip_lunar_until_2100 sample_constants sample_tables_ok
           2023 2 11 true); [reflexivity | reflexivity | cbn; lia].
Defined.

Lemma roundtrip_gregorian_until_2100_witness :
  exists z,
    @from_datetime sample_constants
      (Datetime.mkdatetime 2024 2 9 13 5 0 0) = Ok z
    /\ to_datetime z = Ok (Datetime.mkdatetime 2024 2 9 0 0 0 0).
Proof.
  apply (@roundtrip_gregorian_until_2100 sample_constants sample_tables_ok
           (Datetime.mkdatetime 2024 2 9 13 5 0 0)
           (Datetime.mkdatetime 1900 1 31 0 0 0 0));
    try reflexivity; [cbn; lia | vm_compute; discriminate].
Defined.

Lemma roundtrip_lunar_fails_in_2101_witness :
  exists z,
    @__init__ sample_constants 2100 12 29 false = Ok z
    /\ to_datetime z = Ok (Datetime.mkdatetime 2101 1 28 0 0 0 0)
    /\ (dt' <- to_datetime z ;; @from_datetime sample_constants dt')
       = Raise IndexError.
Proof.
  eexists. split; [vm_compute; reflexivity|]. split; [reflexivity|].
  apply (@roundtrip_lunar_fails_in_2101 sample_constants _
           (Datetime.mkdatetime 2101 1 28 0 0 0 0)); reflexivity.
Defined.

Lemma from_datetime_fails_in_2101_witness :
  exists c ny,
    @code_of sample_constants 2100 = Ok c
    /\ @newyear_of sample_constants 2100 = Ok ny
    /\ Datetime.toordinal ny
       <= Datetime.toordinal (Datetime.mkdatetime 2101 1 1 0 0 0 0)
       < Datetime.toordinal ny + Py.sum (decode c)
    /\ @from_datetime sample_constants (Datetime.mkdatetime 2101 1 1 0 0 0 0)
       = Raise IndexError.
Proof.
  eexists. eexists. split; [vm_compute; reflexivity|].
  split; [vm_compute; reflexivity|]. split; [vm_compute; split; [discriminate | reflexivity]|].
  apply (@from_datetime_fails_in_2101 sample_constants); reflexivity.
Defined.

Lemma from_datetime_lunar_year_witness :
  (exists z,
      @from_datetime sample_constants (Datetime.mkdatetime 2024 2 9 13 5 0 0)
      = Ok z /\ lunar_year z = 2023)
  /\ (exists z,
        @from_datetime sample_constants
          (Datetime.mkdatetime 2024 2 10 0 0 0 0) = Ok z
        /\ lunar_year z = 2024 /\ lunar_month z = 1
        /\ lunar_day z = 1 /\ leap_month z = false).
Proof.
  destruct (@from_datetime_lunar_year sample_constants sample_tables_ok
              (Datetime.mkdatetime 1900 1 31 0 0 0 0) eq_refl)
    as (Hyear & Hnew & _).
  split.
  - destruct (Hyear (Datetime.mkdatetime 2024 2 9 13 5 0 0)
                (Datetime.mkdatetime 2024 2 10 0 0 0 0))
      as (z & Hf & Hl); try reflexivity.
    + cbn. lia.
    + vm_compute. discriminate.
    + exists z. split; [exact Hf | exact Hl].
  - apply (Hnew 2024 (Datetime.mkdatetime 2024 2 10 0 0 0 0)); try reflexivity.
    lia.
Defined.

(** ** The formatter *)

Lemma append_assoc (a b c : string) :
  ((a ++ b) ++ c)%string = (a ++ (b ++ c))%string.
Proof. induction a as [|ch a IH]; cbn; [reflexivity | rewrite IH; reflexivity]. Qed.

Lemma years_ok : forallb year_digits_checkb years = true.
Proof. vm_compute. reflexivity. Qed.

Lemma year_digit_value (y i : Z) :
  1900 <= y <= 2100 -> 0 <= i <= 3 ->
  exists ch, Py.str_index (Py.str y) i = Ok ch
             /\ Py.int_of_char ch = Ok (y / 10 ^ (3 - i) mod 10).
Proof.
  intros Hy Hi.
  pose proof years_ok as H. rewrite forallb_forall in H.
  specialize (H y (in_range_list 1900 2101 y ltac:(lia))).
  unfold year_digits_checkb in H. rewrite forallb_forall in H.
  specialize (H i (in_range_list 0 4 i ltac:(lia))).
  unfold year_digit in H.
  destruct (Py.str_index (Py.str y) i) as [ch|]; [|discriminate].
  cbn [bind] in H. exists ch. split; [reflexivity|].
  destruct (Py.int_of_char ch) as [n|]; [|discriminate].
  unfold result_eqb in H. apply Z.eqb_eq in H. rewrite H. reflexivity.
Qed.

Lemma index_glyph (table : list string) (i : Z) :
  0 <= i < Py.len table -> Py.index table i = Ok (glyph table i).
Proof.
  intros Hi. unfold Py.index, glyph, Py.len in *.
  destruct (Z.ltb_spec i 0); [lia|]. destruct (Z.ltb_spec i 0); [lia|].
  destruct (nth_error table (Z.to_nat i)) eqn:E.
  - erewrite nth_error_nth by eassumption. reflexivity.
  - apply nth_error_None in E. lia.
Qed.

Section Formatter.

Context {K : Constants}.

Lemma zh_year_loop_spec (y : Z) :
  (11 <= length ZHNUMS)%nat -> 1900 <= y <= 2100 ->
  zh_year_loop y = Ok (spec_year_glyphs y).
Proof.
  intros Hz Hy. unfold zh_year_loop, spec_year_glyphs.
  change (Py.range 0 4) with [0; 1; 2; 3]. cbn [fold_left bind].
  destruct (year_digit_value y 0 Hy ltac:(lia)) as (c0 & E0 & F0).
  destruct (year_digit_value y 1 Hy ltac:(lia)) as (c1 & E1 & F1).
  destruct (year_digit_value y 2 Hy ltac:(lia)) as (c2 & E2 & F2).
  destruct (year_digit_value y 3 Hy ltac:(lia)) as (c3 & E3 & F3).
  assert (D : forall k, 0 <= k -> 0 <= y / 10 ^ k mod 10 < Py.len ZHNUMS).
  { intros k Hk. unfold Py.len.
    pose proof (Z.mod_pos_bound (y / 10 ^ k) 10 ltac:(lia)). lia. }
  rewrite E0. cbn [bind]. rewrite F0. cbn [bind].
  rewrite (index_glyph ZHNUMS _ (D (3 - 0) ltac:(lia))). cbn [bind].
  rewrite E1. cbn [bind]. rewrite F1. cbn [bind].
  rewrite (index_glyph ZHNUMS _ (D (3 - 1) ltac:(lia))). cbn [bind].
  rewrite E2. cbn [bind]. rewrite F2. cbn [bind].
  rewrite (index_glyph ZHNUMS _ (D (3 - 2) ltac:(lia))). cbn [bind].
  rewrite E3. cbn [bind]. rewrite F3. cbn [bind].
  rewrite (index_glyph ZHNUMS _ (D (3 - 3) ltac:(lia))). cbn [bind].
  f_equal. change (3 - 0) with 3. change (3 - 1) with 2.
  change (3 - 2) with 1. change (3 - 3) with 0.
  change (10 ^ 3) with 1000. change (10 ^ 2) with 100.
  change (10 ^ 1) with 10. change (10 ^ 0) with 1. rewrite Z.div_1_r.
  cbn [append]. rewrite !append_assoc. reflexivity.
Qed.

(** C9. For every constructed date the traditional rendering is the four
    year numerals, "年", "闰" when leap, the month name, "月", the day name,
    a space, the stem at index [(lunar_year - 1900 + 36) mod 10] followed
    by the branch at index [(lunar_year - 1900 + 36) mod 12], the zodiac
    animal at index [(lunar_year - 1900) mod 12], and "年". *)
Theorem chinese_shape (y m d : Z) (leap : bool) (z : ZhDate) :
  glyphs_ok -> __init__ y m d leap = Ok z ->
  chinese z = Ok (spec_chinese y m d leap).
Proof.
  intros (Gz & Gt & Gd & Gs) Hi.
  destruct (init_inv _ _ _ _ _ Hi) as (c & ny & Hc & Hn & Hv & ->).
  assert (R : in_range y m d).
  { destruct (in_range_test y m d) as [Tst _].
    destruct (_ && _) eqn:E in Tst; [auto|].
    unfold validate in Hv. rewrite E in Hv. discriminate. }
  destruct R as (Hy & Hm & Hd).
  unfold chinese, spec_chinese. cbn [lunar_year lunar_month lunar_day leap_month].
  rewrite (zh_year_loop_spec y Gz Hy). cbn [bind].
  assert (Z0 : forall k, 0 <= k <= 10 -> Py.index ZHNUMS k = Ok (glyph ZHNUMS k)).
  { intros k Hk. apply index_glyph. unfold Py.len. lia. }
  assert (Em : (if m =? 1 then Ok ((if leap then "闰" else "") ++ "正")%string
               else if m =? 12 then Ok ((if leap then "闰" else "") ++ "腊")%string
               else if m <=? 10 then
                 g <- Py.index ZHNUMS m ;; Ok ((if leap then "闰" else "") ++ g)%string
               else g <- Py.index ZHNUMS (m - 10) ;;
                    Ok ((if leap then "闰" else "") ++ "十" ++ g)%string)
              = Ok ((if leap then "闰" else "") ++ spec_month_name m)%string).
  { unfold spec_month_name.
    destruct (Z.eqb_spec m 1); [reflexivity|].
    destruct (Z.eqb_spec m 12); [reflexivity|].
    destruct (Z.leb_spec m 10).
    - rewrite Z0 by lia. destruct (Z.eqb_spec m 11); [lia | reflexivity].
    - assert (m = 11) by lia. subst m. cbn [Z.sub Z.eqb].
      rewrite Z0 by lia. reflexivity. }
  rewrite Em. cbn [bind].
  assert (Ed : (if d <=? 10 then g <- Py.index ZHNUMS d ;; Ok ("初" ++ g)%string
               else if d <? 20 then
                 g <- Py.index ZHNUMS (d - 10) ;; Ok ("十" ++ g)%string
               else if d =? 20 then Ok "二十"%string
               else if d <? 30 then
                 g <- Py.index ZHNUMS (d - 20) ;; Ok ("廿" ++ g)%string
               else Ok "三十"%string)
              = Ok (spec_day_name d)).
  { unfold spec_day_name.
    destruct (Z.leb_spec d 10); [rewrite Z0 by lia; reflexivity|].
    destruct (Z.ltb_spec d 20), (Z.leb_spec d 19); try lia;
      [rewrite Z0 by lia; reflexivity|].
    destruct (Z.eqb_spec d 20); [reflexivity|].
    destruct (Z.ltb_spec d 30), (Z.leb_spec d 29); try lia;
      [rewrite Z0 by lia; reflexivity | reflexivity]. }
  rewrite Ed. cbn [bind].
  unfold __tiandi.
  rewrite (index_glyph TIANGAN) by
    (unfold Py.len; rewrite Gt;
     pose proof (Z.mod_pos_bound (y - 1900 + 36) 10 ltac:(lia)); lia).
  cbn [bind].
  rewrite (index_glyph DIZHI) by
    (unfold Py.len; rewrite Gd;
     pose proof (Z.mod_pos_bound (y - 1900 + 36) 12 ltac:(lia)); lia).
  cbn [bind].
  rewrite (index_glyph SHENGXIAO) by
    (unfold Py.len; rewrite Gs;
     pose proof (Z.mod_pos_bound (y - 1900) 12 ltac:(lia)); lia).
  cbn [bind]. f_equal.
  unfold spec_stem_branch, spec_zodiac.
  rewrite !append_assoc. reflexivity.
Qed.

End Formatter.

Lemma chinese_shape_witness :
  exists z,
    @__init__ sample_constants 2023 2 1 false = Ok z
    /\ @chinese sample_constants z
       = Ok "二〇二三年二月初一 癸卯兔年"%string.
Proof.
  exists (mkZhDate 2023 2 1 false 23378
            (Datetime.mkdatetime 2023 1 22 0 0 0 0)).
  split; [reflexivity|].
  refine (eq_trans (@chinese_shape sample_constants 2023 2 1 false _
                      sample_glyphs_ok _) _); reflexivity.
Defined.

(** ** Further properties of the class *)

Import Datetime.

(** X1. For every integer code [decode] returns 12 entries when the
    leap field is 0 and 13 otherwise, each 29 or 30, so between 348 and
    390 days in all. *)
Theorem decode_any_code (code : Z) :
  length (decode code) = (if leap_field code =? 0 then 12%nat else 13%nat)
  /\ Forall (fun n => n = 29 \/ n = 30) (decode code)
  /\ 348 <= Py.sum (decode code) <= 390.
Proof.
  split; [apply decode_length|]. split; [apply decode_entries|].
  split; [apply decode_sum_pos | apply decode_sum_bound].
Qed.

(** X2. A leap field of 13, 14 or 15 is past the end of the twelve
    regular months: [insert] appends, and the leap entry comes last, at
    position 12. *)
Theorem decode_leap_field_past_12 (code : Z) :
  13 <= leap_field code ->
  decode code
  = spec_regular code ++ [month_len (Py.truthy (Z.shiftr code 16))].
Proof.
  intros HL. rewrite decode_unfold.
  destruct (Z.eqb_spec (leap_field code) 0); [lia|].
  unfold Py.insert, Py.len. rewrite spec_regular_length.
  destruct (Z.ltb_spec (leap_field code) 0); [lia|].
  rewrite Z.min_r by lia. change (Z.to_nat (Z.of_nat 12)) with 12%nat.
  reflexivity.
Qed.

Lemma truthy_high_bits (c : Z) :
  Py.truthy (Z.shiftr c 16) = negb ((0 <=? c) && (c <? 2 ^ 16)).
Proof.
  rewrite Z.shiftr_div_pow2 by lia. unfold Py.truthy.
  change (2 ^ 16) with 65536.
  destruct (Z.eqb_spec (c / 65536) 0) as [E | E];
    destruct (Z.leb_spec 0 c), (Z.ltb_spec c 65536); cbn; try reflexivity;
    exfalso; revert E; Z.div_mod_to_equations; lia.
Qed.

(** X3. The leap entry is 30 as soon as [code >> 16] is not zero: for a
    negative code and for any code from [2 ^ 16] on, bit 16 set or not. *)
Theorem decode_leap_length_any_high_bit (code : Z) :
  1 <= leap_field code <= 12 ->
  Py.index (decode code) (leap_field code)
  = Ok (if (0 <=? code) && (code <? 2 ^ 16) then 29 else 30).
Proof.
  intros HL. rewrite index_leap by assumption. rewrite truthy_high_bits.
  destruct ((0 <=? code) && (code <? 2 ^ 16)); reflexivity.
Qed.

Lemma midnight_facts (g : datetime) :
  valid g = true ->
  valid (midnight g) = true /\ at_midnight (midnight g)
  /\ toordinal (midnight g) = toordinal g /\ year (midnight g) = year g.
Proof.
  intros V. unfold valid, midnight, at_midnight, toordinal in *. cbn.
  apply andb_true_iff in V. destruct V as [V _]. rewrite V.
  repeat split; reflexivity.
Qed.

Lemma month_of_slot_1 (c : Z) : month_of_slot c 1 = 1.
Proof.
  unfold month_of_slot. pose proof (leap_field_range c).
  destruct (Z.eqb_spec (leap_field c) 0), (Z.leb_spec 1 (leap_field c));
    cbn; lia.
Qed.

Lemma leap_of_slot_1 (c : Z) : leap_of_slot c 1 = false.
Proof.
  unfold leap_of_slot. pose proof (leap_field_range c).
  destruct (Z.eqb_spec (leap_field c) 0),
    (Z.eqb_spec 1 (leap_field c + 1)); cbn; lia || reflexivity.
Qed.

Lemma index_first_month (c : Z) :
  Py.index (decode c) 0 = Ok (month_len (Z.testbit c 15)).
Proof.
  pose proof (index_regular c 1 ltac:(lia)) as H.
  assert (R0 : regular_index c 1 = 0).
  { unfold regular_index. pose proof (leap_field_range c).
    destruct (Z.eqb_spec (leap_field c) 0), (Z.leb_spec 1 (leap_field c));
      cbn; lia. }
  rewrite R0 in H. exact H.
Qed.

(** An offset before the first month's end, negative ones included, is
    placed in the first slot. *)
Lemma find_month_first (md : list Z) (x n : Z) :
  Py.index md 0 = Ok x -> n + 1 <= x ->
  find_month md n = Ok (1, n + 1).
Proof.
  intros Hx Hn. unfold find_month.
  destruct md as [|k l]; [discriminate|].
  assert (k = x) by (cbn in Hx; congruence). subst k.
  cbn [Py.accumulate Py.enumerate Py.enumerate_from find].
  destruct (Z.leb_spec (n + 1) x); [|lia].
  rewrite Hx. cbn [bind]. f_equal. f_equal; lia.
Qed.

Lemma index_ok_range {A : Type} (l : list A) (y : Z) (x : A) :
  length l = 201%nat -> Py.index l (y - 1900) = Ok x -> 1699 <= y <= 2100.
Proof.
  intros Hl H.
  destruct (Z.lt_ge_cases y 1699).
  - rewrite index_before_start in H by assumption. discriminate.
  - destruct (Z.le_gt_cases 2101 y); [|lia].
    rewrite index_past_end in H by assumption. discriminate.
Qed.

Lemma timedelta_days (n : Z) :
  timedelta_new n 0 0
  = if Z.abs n >? 999999999 then Raise OverflowError
    else Ok (mktimedelta n 0 0).
Proof.
  unfold timedelta_new. cbn. rewrite Z.add_0_r. reflexivity.
Qed.

(** Moving a midnight by whole days: the date of the moved ordinal, or
    [OverflowError] outside the calendar. *)
Lemma add_whole_days (dt : datetime) (n : Z) :
  valid dt = true -> at_midnight dt ->
  (td <- timedelta_new n 0 0 ;; add dt td)
  = if ordinal_in_range (toordinal dt + n)
    then Ok (fromordinal (toordinal dt + n))
    else Raise OverflowError.
Proof.
  intros V M. pose proof (toordinal_range dt V) as R.
  unfold MAXORDINAL in R. unfold ordinal_in_range.
  destruct (timedelta_new n 0 0) as [td|] eqn:E.
  - cbn [bind].
    destruct ((1 <=? toordinal dt + n) && (toordinal dt + n <=? MAXORDINAL))
      eqn:B.
    + apply (add_days dt n td V M E). unfold MAXORDINAL in *. lia.
    + rewrite timedelta_days in E.
      destruct (Z.gtb_spec (Z.abs n) 999999999); [discriminate|].
      apply Ok_inj in E. subst td.
      destruct M as (Mh & Mm & Ms & Mu).
      unfold add, timedelta_new, secs_of_day. rewrite Mh, Mm, Ms, Mu.
      cbn -[Z.add Z.abs Z.gtb ord2ymd Z.ltb Z.leb MAXORDINAL].
      rewrite !Z.add_0_r.
      destruct (Z.gtb_spec (Z.abs (toordinal dt)) 999999999); [lia|].
      cbn -[Z.add Z.abs Z.gtb ord2ymd Z.ltb Z.leb MAXORDINAL].
      rewrite !Z.add_0_r.
      destruct (Z.gtb_spec (Z.abs (toordinal dt + n)) 999999999);
        [reflexivity|].
      cbn -[Z.add Z.abs Z.gtb ord2ymd Z.ltb Z.leb MAXORDINAL].
      destruct (Z.ltb_spec 0 (toordinal dt + n)),
        (Z.leb_spec (toordinal dt + n) MAXORDINAL);
        cbn [andb]; try reflexivity.
      unfold MAXORDINAL in *. lia.
  - cbn [bind]. rewrite timedelta_days in E.
    destruct (Z.gtb_spec (Z.abs n) 999999999); [|discriminate].
    injection E as <-.
    destruct ((1 <=? toordinal dt + n) && (toordinal dt + n <=? MAXORDINAL))
      eqn:B; [|reflexivity].
    unfold MAXORDINAL in *. lia.
Qed.

Lemma sub_whole_days (dt : datetime) (n : Z) :
  valid dt = true -> at_midnight dt ->
  (td <- timedelta_new n 0 0 ;; sub_timedelta dt td)
  = if ordinal_in_range (toordinal dt - n)
    then Ok (fromordinal (toordinal dt - n))
    else Raise OverflowError.
Proof.
  intros V M. pose proof (toordinal_range dt V) as R.
  unfold MAXORDINAL in R.
  pose proof (add_whole_days dt (- n) V M) as A.
  replace (toordinal dt + - n) with (toordinal dt - n) in A by lia.
  rewrite <- A. rewrite !timedelta_days.
  replace (Z.abs (- n)) with (Z.abs n) by lia.
  destruct (Z.gtb_spec (Z.abs n) 999999999); [reflexivity|].
  cbn [bind]. unfold sub_timedelta, timedelta_neg. cbn [days seconds microseconds].
  change (- 0) with 0. rewrite timedelta_days.
  replace (Z.abs (- n)) with (Z.abs n) by lia.
  destruct (Z.gtb_spec (Z.abs n) 999999999); [lia|]. reflexivity.
Qed.

Lemma bind_Ok {A B : Type} (a : A) (f : A -> result B) :
  bind (Ok a) f = f a.
Proof. reflexivity. Qed.

Lemma bind_bind_cases {A B C : Type}
  (c : result A) (g : A -> result B) (f : B -> result C)
  (b : bool) (v : B) (e : exn) :
  bind c g = (if b then Ok v else Raise e) ->
  bind c (fun x => bind (g x) f) = if b then f v else Raise e.
Proof.
  destruct c as [a | e']; cbn [bind].
  - intros ->. destruct b; reflexivity.
  - destruct b; [discriminate|]. intros H. injection H as ->. reflexivity.
Qed.

Lemma ordinal_in_range_true (o : Z) :
  1 <= o <= MAXORDINAL -> ordinal_in_range o = true.
Proof. unfold ordinal_in_range. lia. Qed.

(** The whole days from [b] up to a midnight [a]: one more is missing
    when [b] is later than its own midnight. *)
Lemma sub_midnight_days (a b : datetime) :
  valid a = true -> valid b = true -> at_midnight a ->
  exists td, sub a b = Ok td
             /\ days td
                = toordinal a - toordinal b
                  - (if (secs_of_day b =? 0) && (microsecond b =? 0)
                     then 0 else 1).
Proof.
  intros Ha Hb (Ah & Am & As & Au).
  pose proof (toordinal_range a Ha). pose proof (toordinal_range b Hb).
  apply valid_unfold in Hb. destruct Hb as (_ & _ & Bs & Bu).
  unfold MAXORDINAL in *.
  unfold sub, timedelta_new, secs_of_day in *. rewrite Ah, Am, As, Au.
  set (s := second b + minute b * 60 + hour b * 3600) in *.
  set (u := microsecond b) in *.
  set (d := toordinal a - toordinal b) in *.
  match goal with
  | |- context [Z.abs ?x >? ?y] => destruct (Z.gtb_spec (Z.abs x) y) as [G|G]
  end.
  - exfalso. revert G. Z.div_mod_to_equations. lia.
  - eexists. split; [reflexivity|]. cbn [days].
    destruct (Z.eqb_spec s 0), (Z.eqb_spec u 0); cbn [andb];
      Z.div_mod_to_equations; lia.
Qed.

Lemma prefix_sum_step (md : list Z) (p q x : Z) :
  Forall (fun k => 0 <= k) md -> 0 <= p < q -> q <= Py.len md ->
  Py.index md p = Ok x ->
  Py.sum (Py.slice_to md p) + x <= Py.sum (Py.slice_to md q).
Proof.
  intros Hmd Hpq Hq Hx.
  destruct (index_split md p x ltac:(lia) Hx) as (Hlen & Hsplit & Hpre).
  set (pre := Py.slice_to md p) in *.
  set (post := skipn (S (Z.to_nat p)) md) in *.
  assert (Hs : Py.slice_to md q
               = pre ++ x :: firstn (Z.to_nat q - S (Z.to_nat p)) post).
  { unfold Py.slice_to. destruct (Z.ltb_spec q 0); [lia|].
    rewrite Z.min_l by lia. rewrite Hsplit at 1.
    rewrite firstn_app, Hpre.
    rewrite (firstn_all2 (n := Z.to_nat q) pre) by lia.
    f_equal.
    replace (Z.to_nat q - Z.to_nat p)%nat
      with (S (Z.to_nat q - S (Z.to_nat p))) by lia.
    reflexivity. }
  rewrite Hs, sum_app, sum_cons.
  assert (0 <= Py.sum (firstn (Z.to_nat q - S (Z.to_nat p)) post)).
  { apply sum_nonneg. rewrite Hsplit in Hmd.
    apply Forall_app in Hmd. destruct Hmd as [_ Hmd].
    apply Forall_inv_tail in Hmd.
    rewrite <- (firstn_skipn (Z.to_nat q - S (Z.to_nat p)) post) in Hmd.
    apply Forall_app in Hmd. apply Hmd. }
  lia.
Qed.

Lemma tiandi_mod (n : Z) : (n + 60) mod 10 = n mod 10 /\ (n + 60) mod 12 = n mod 12.
Proof.
  split.
  - replace (n + 60) with (n + 6 * 10) by lia. apply Z.mod_add. lia.
  - replace (n + 60) with (n + 5 * 12) by lia. apply Z.mod_add. lia.
Qed.

Section Further.

Context {K : Constants}.

(** X4. For a packed code the validator accepts a date exactly when it is
    a day of a slot of the decoded year: position [p] holds [x] days, the
    day is between 1 and [x], and month and leap flag are those of slot
    [p + 1]. *)
Theorem validate_iff_slot (y m d c : Z) (leap : bool) :
  packed c -> 1900 <= y <= 2100 -> code_of y = Ok c ->
  validate y m d leap = Ok true
  <-> exists p x, 0 <= p /\ Py.index (decode c) p = Ok x /\ 1 <= d <= x
                  /\ month_of_slot c (p + 1) = m
                  /\ leap_of_slot c (p + 1) = leap.
Proof.
  intros Pc Hy Hc. split.
  - intros Hv.
    destruct (validate_slot _ _ _ _ _ Hc Hv) as (R & Hp & (x & Hx & Hd) & Hm & Hl).
    exists (slot_index c m leap), x. unfold in_range in R.
    repeat split; try assumption; lia.
  - intros (p & x & Hp & Hx & Hd & <- & <-).
    apply (slot_validate y c p x d Pc Hy Hc Hp Hx Hd).
Qed.

Lemma days_passed_inj (y c m d m' d' : Z) (leap leap' : bool) (ny ny' : datetime) :
  code_of y = Ok c ->
  validate y m d leap = Ok true -> validate y m' d' leap' = Ok true ->
  __days_passed (mkZhDate y m d leap c ny)
  = __days_passed (mkZhDate y m' d' leap' c ny') ->
  m = m' /\ d = d' /\ leap = leap'.
Proof.
  intros Hc Hv Hv' E.
  destruct (validate_slot _ _ _ _ _ Hc Hv) as (R & Hp & (x & Hx & Hd) & Hm & Hl).
  destruct (validate_slot _ _ _ _ _ Hc Hv') as (R' & Hp' & (x' & Hx' & Hd') & Hm' & Hl').
  rewrite !days_passed_slot in E.
  pose proof (find_month_at _ _ _ d (decode_nonneg c) Hp Hx
                ltac:(unfold in_range in R; lia)) as F.
  pose proof (find_month_at _ _ _ d' (decode_nonneg c) Hp' Hx'
                ltac:(unfold in_range in R'; lia)) as F'.
  rewrite E, F' in F. apply Ok_inj in F.
  assert (P : slot_index c m' leap' = slot_index c m leap)
    by (injection F; lia).
  assert (D : d' = d) by (injection F; lia).
  rewrite P in Hm', Hl'. split; [congruence|]. split; [congruence|congruence].
Qed.

(** X5. [__days_passed] numbers the valid dates of a year: each gets an
    offset from 0 to the year's length less one, every such offset is the
    offset of a valid date, and of one only. *)
Theorem days_passed_enumerates_year (y c : Z) (ny : datetime) :
  packed c -> 1900 <= y <= 2100 -> code_of y = Ok c ->
  (forall m d leap, validate y m d leap = Ok true ->
     0 <= __days_passed (mkZhDate y m d leap c ny) < Py.sum (decode c))
  /\ (forall n, 0 <= n < Py.sum (decode c) ->
        exists m d leap, validate y m d leap = Ok true
                         /\ __days_passed (mkZhDate y m d leap c ny) = n)
  /\ (forall m d leap m' d' leap',
        validate y m d leap = Ok true -> validate y m' d' leap' = Ok true ->
        __days_passed (mkZhDate y m d leap c ny)
        = __days_passed (mkZhDate y m' d' leap' c ny) ->
        m = m' /\ d = d' /\ leap = leap').
Proof.
  intros Pc Hy Hc. split; [|split].
  - intros m d leap Hv. apply (days_passed_bounds y m d c leap ny Hc Hv).
  - intros n Hn.
    destruct (find_month_total (decode c) n (decode_nonneg c) Hn)
      as (p & x & d & _ & Hp & Hx & Hd & Hsum).
    destruct (slot_validate y c p x d Pc Hy Hc Hp Hx Hd) as (Hv & Hs).
    exists (month_of_slot c (p + 1)), d, (leap_of_slot c (p + 1)).
    split; [assumption|]. rewrite days_passed_slot, Hs. lia.
  - intros m d leap m' d' leap' Hv Hv' E.
    apply (days_passed_inj y c m d m' d' leap leap' ny ny Hc Hv Hv' E).
Qed.

Lemma constructed_facts (T : tables_ok) (z : ZhDate) :
  constructed z ->
  exists y m d leap c ny,
    z = mkZhDate y m d leap c ny /\ 1900 <= y <= 2100
    /\ code_of y = Ok c /\ packed c /\ newyear_of y = Ok ny
    /\ year ny = y /\ valid ny = true /\ at_midnight ny
    /\ validate y m d leap = Ok true.
Proof.
  intros (y & m & d & leap & Hi).
  destruct (init_inv _ _ _ _ _ Hi) as (c & ny & Hc & Hn & Hv & ->).
  destruct (validate_slot _ _ _ _ _ Hc Hv) as (R & _).
  destruct (year_data y T (proj1 R)) as (c' & ny' & Hc' & Pc & Hn' & Yn & Vn & Mn).
  assert (c' = c) by congruence. assert (ny' = ny) by congruence.
  subst c' ny'.
  exists y, m, d, leap, c, ny.
  split; [reflexivity|]. split; [apply R|]. split; [assumption|].
  split; [assumption|]. split; [assumption|]. split; [assumption|].
  split; [assumption|]. split; assumption.
Qed.

Lemma to_datetime_constructed (T : tables_ok) (z : ZhDate) :
  constructed z ->
  to_datetime z
  = Ok (fromordinal (toordinal (newyear z) + __days_passed z))
  /\ 0 <= __days_passed z < Py.sum (decode (year_code z))
  /\ 1 <= toordinal (newyear z) + __days_passed z <= 767400.
Proof.
  intros C.
  destruct (constructed_facts T z C)
    as (y & m & d & leap & c & ny & -> & Hy & Hc & Pc & Hn & Yn & Vn & Mn & Hv).
  pose proof (days_passed_bounds y m d c leap ny Hc Hv) as B.
  pose proof (decode_sum_bound c) as S.
  pose proof (toordinal_in_year _ Vn) as Bn. rewrite Yn in Bn.
  pose proof (days_before_year_nonneg y ltac:(lia)).
  pose proof (days_before_year_mono (y + 1) 2101 ltac:(lia)) as Mo.
  change (days_before_year 2101) with 767009 in Mo.
  cbn [newyear year_code]. split; [|split; [assumption | lia]].
  apply to_datetime_value; cbn [newyear]; try assumption; lia.
Qed.

Lemma newyear_mono (T : tables_ok) (a b : Z) (na nb : datetime) :
  1900 <= a -> a < b -> b <= 2100 ->
  newyear_of a = Ok na -> newyear_of b = Ok nb ->
  toordinal na < toordinal nb.
Proof.
  intros Ha Hab Hb Hna Hnb.
  destruct (year_data a T ltac:(lia)) as (_ & na' & _ & _ & Hna' & Ya & Va & _).
  destruct (year_data b T ltac:(lia)) as (_ & nb' & _ & _ & Hnb' & Yb & Vb & _).
  assert (na' = na) by congruence. assert (nb' = nb) by congruence.
  subst na' nb'.
  pose proof (toordinal_in_year _ Va) as Ba. rewrite Ya in Ba.
  pose proof (toordinal_in_year _ Vb) as Bb. rewrite Yb in Bb.
  pose proof (days_before_year_mono (a + 1) b ltac:(lia)). lia.
Qed.

Lemma ordinal_ok (o : Z) : 1 <= o <= 767400 -> 1 <= o <= MAXORDINAL.
Proof. unfold MAXORDINAL. lia. Qed.

(** X8. [to_datetime] never raises on a constructed date; the result is a
    valid datetime at 00:00:00, from the New Year on and before the New
    Year plus the year's length, in a Gregorian year not before the lunar
    year. *)
Theorem to_datetime_in_lunar_year (T : tables_ok) (z : ZhDate) :
  constructed z ->
  exists dt,
    to_datetime z = Ok dt /\ valid dt = true /\ at_midnight dt
    /\ toordinal (newyear z) <= toordinal dt
       < toordinal (newyear z) + Py.sum (decode (year_code z))
    /\ lunar_year z <= year dt.
Proof.
  intros C. destruct (to_datetime_constructed T z C) as (Ht & Hd & Ho).
  destruct (fromordinal_spec _ (ordinal_ok _ Ho)) as (V & M & O).
  eexists. split; [exact Ht|]. split; [assumption|]. split; [assumption|].
  rewrite O. split; [lia|].
  destruct (constructed_facts T z C)
    as (y & m & d & leap & c & ny & -> & Hy & Hc & Pc & Hn & Yn & Vn & Mn & Hv).
  cbn [newyear lunar_year] in *.
  pose proof (toordinal_in_year _ Vn) as Bn. rewrite Yn in Bn.
  pose proof (toordinal_in_year _ V) as Bd. rewrite O in Bd.
  set (Y := year (fromordinal _)) in *.
  destruct (Z.le_gt_cases y Y); [assumption|]. exfalso.
  pose proof (days_before_year_mono (Y + 1) y ltac:(lia)). lia.
Qed.

Lemma to_datetime_ordinal_inj (T : tables_ok) (z1 z2 : ZhDate) :
  constructed z1 -> constructed z2 ->
  toordinal (newyear z1) + __days_passed z1
  = toordinal (newyear z2) + __days_passed z2 ->
  z1 = z2.
Proof.
  intros C1 C2 E.
  destruct (to_datetime_constructed T z1 C1) as (Ht1 & Hd1 & Ho1).
  destruct (to_datetime_constructed T z2 C2) as (Ht2 & Hd2 & Ho2).
  destruct (constructed_facts T z1 C1)
    as (y & m & d & leap & c & ny & -> & Hy & Hc & Pc & Hn & Yn & Vn & Mn & Hv).
  destruct (constructed_facts T z2 C2)
    as (y' & m' & d' & leap' & c' & ny' & -> & Hy' & Hc' & Pc' & Hn' & Yn' & Vn' & Mn' & Hv').
  cbn [newyear year_code] in *.
  assert (Y : y = y').
  { destruct (Z.lt_trichotomy y y') as [L | [Q | G]]; [exfalso|assumption|exfalso].
    - destruct (year_data (y + 1) T ltac:(lia)) as (_ & b & _ & _ & Hb & _).
      pose proof (ok_chained T y c ny b ltac:(lia) Hc Hn Hb) as Ch.
      destruct (Z.eq_dec (y + 1) y') as [Q | N].
      + subst y'. assert (b = ny') by congruence. subst b. lia.
      + pose proof (newyear_mono T (y + 1) y' b ny' ltac:(lia) ltac:(lia)
                      ltac:(lia) Hb Hn'). lia.
    - destruct (year_data (y' + 1) T ltac:(lia)) as (_ & b & _ & _ & Hb & _).
      pose proof (ok_chained T y' c' ny' b ltac:(lia) Hc' Hn' Hb) as Ch.
      destruct (Z.eq_dec (y' + 1) y) as [Q | N].
      + subst y. assert (b = ny) by congruence. subst b. lia.
      + pose proof (newyear_mono T (y' + 1) y b ny ltac:(lia) ltac:(lia)
                      ltac:(lia) Hb Hn). lia. }
  rewrite <- Y in *. clear Y y'.
  assert (c' = c) by congruence. assert (ny' = ny) by congruence.
  subst c' ny'.
  destruct (days_passed_inj y c m d m' d' leap leap' ny ny Hc Hv Hv' ltac:(lia))
    as (-> & -> & ->).
  reflexivity.
Qed.

(** X9. Two constructed dates with the same Gregorian date are the same
    date. *)
Theorem to_datetime_injective (T : tables_ok) (z1 z2 : ZhDate) (dt : datetime) :
  constructed z1 -> constructed z2 ->
  to_datetime z1 = Ok dt -> to_datetime z2 = Ok dt -> z1 = z2.
Proof.
  intros C1 C2 H1 H2.
  destruct (to_datetime_constructed T z1 C1) as (Ht1 & Hd1 & Ho1).
  destruct (to_datetime_constructed T z2 C2) as (Ht2 & Hd2 & Ho2).
  destruct (fromordinal_spec _ (ordinal_ok _ Ho1)) as (_ & _ & O1).
  destruct (fromordinal_spec _ (ordinal_ok _ Ho2)) as (_ & _ & O2).
  apply (to_datetime_ordinal_inj T); try assumption.
  rewrite <- O1, <- O2. congruence.
Qed.

(** What a successful [from_datetime] went through. *)
Lemma from_datetime_inv (g : datetime) (z : ZhDate) :
  from_datetime g = Ok z ->
  exists nY gap m d leap,
    newyear_of (year g) = Ok nY /\ sub nY g = Ok gap
    /\ __init__ (year g - Py.int_of_bool (total_seconds_pos gap)) m d leap
       = Ok z.
Proof.
  unfold from_datetime, newyear_of. intros H.
  destruct (Py.index LUNARNEWYEAR (year g - 1900)) as [s|]; [|discriminate].
  cbn [bind] in *.
  destruct (strptime_Ymd s) as [nY|]; [|discriminate]. cbn [bind] in *.
  destruct (sub nY g) as [gap|] eqn:Egap; [|discriminate]. cbn [bind] in *.
  destruct (Py.index LUNARNEWYEAR _) as [s'|]; [|discriminate].
  cbn [bind] in *.
  destruct (strptime_Ymd s') as [nl|]; [|discriminate]. cbn [bind] in *.
  destruct (sub g nl) as [since|]; [|discriminate]. cbn [bind] in *.
  destruct (Py.index LUNARYEARCODE _) as [c|]; [|discriminate].
  cbn [bind] in *.
  destruct (find_month (decode c) (days since)) as [[slot d]|]; [|discriminate].
  cbn [bind] in *.
  exists nY, gap. eexists. eexists. eexists.
  split; [reflexivity|]. split; [exact Egap|]. exact H.
Qed.

Lemma from_datetime_constructed (g : datetime) (z : ZhDate) :
  from_datetime g = Ok z -> constructed z.
Proof.
  intros H. destruct (from_datetime_inv g z H) as (_ & gap & m & d & leap & _ & _ & Hi).
  eexists. eexists. eexists. eexists. exact Hi.
Qed.

Lemma newyear_index_range (y : Z) (ny : datetime) :
  table_size -> newyear_of y = Ok ny -> 1699 <= y <= 2100.
Proof.
  intros [_ Hl]. unfold newyear_of.
  destruct (Py.index LUNARNEWYEAR (y - 1900)) as [s|] eqn:E; [|discriminate].
  intros _. apply (index_ok_range _ _ _ Hl E).
Qed.

Lemma from_datetime_ok_range (T : tables_ok) (g n0 : datetime) (z : ZhDate) :
  newyear_of 1900 = Ok n0 -> valid g = true -> from_datetime g = Ok z ->
  1900 <= year g <= 2100 /\ toordinal n0 <= toordinal g.
Proof.
  intros Hn0 Vg H.
  destruct (from_datetime_inv g z H) as (nY & gap & m & d & leap & HnY & Hgap & Hi).
  destruct (init_inv _ _ _ _ _ Hi) as (c & ny & Hc & _ & Hv & _).
  destruct (validate_slot _ _ _ _ _ Hc Hv) as (((Hly & _) & _) & _).
  pose proof (newyear_index_range _ _ (ok_size T) HnY) as Hyg.
  destruct (newyear_valid _ _ HnY) as (VY & MY).
  destruct (sub_before nY g VY Vg MY) as (gap' & Hgap' & Hpos).
  assert (gap' = gap) by congruence. subst gap'.
  rewrite Hpos in Hly.
  destruct (Z.ltb_spec (toordinal g) (toordinal nY)) as [L | G];
    cbn [Py.int_of_bool] in Hly.
  - assert (Hy : 1900 <= year g <= 2100) by lia. split; [assumption|].
    destruct (Z.eq_dec (year g) 1900) as [E | N]; [lia|].
    destruct (year_data 1900 T ltac:(lia)) as (_ & a & _ & _ & Ha & Ya & Va & _).
    assert (a = n0) by congruence. subst a.
    pose proof (toordinal_in_year _ Va) as Ba. rewrite Ya in Ba.
    pose proof (toordinal_in_year _ Vg) as Bg.
    pose proof (days_before_year_mono (1900 + 1) (year g) ltac:(lia)). lia.
  - assert (Hy : 1900 <= year g <= 2100) by lia. split; [assumption|].
    pose proof (newyear_1900_first T (year g) n0 nY Hy Hn0 HnY). lia.
Qed.

(** X12. [from_datetime] returns a date exactly for the datetimes from the
    New Year of 1900 to the end of the Gregorian year 2100. *)
Theorem from_datetime_succeeds_iff (T : tables_ok) (g n0 : datetime) :
  newyear_of 1900 = Ok n0 -> valid g = true ->
  (exists z, from_datetime g = Ok z)
  <-> 1900 <= year g <= 2100 /\ toordinal n0 <= toordinal g.
Proof.
  intros Hn0 Vg. split.
  - intros (z & H). apply (from_datetime_ok_range T g n0 z Hn0 Vg H).
  - intros (Hy & H0).
    destruct (year_data _ T Hy) as (_ & nY & _ & _ & HnY & _).
    destruct (from_datetime_spec T g n0 nY Vg Hy Hn0 H0 HnY) as (z & Hf & _).
    exists z. exact Hf.
Qed.

(** X13. A datetime before the New Year of 1900, in a year from 1700 on,
    raises the constructor's [TypeError]: the lunar year falls below 1900,
    its negative index wraps to the entry 201 places later, the loop stops
    at the first slot with a day that is not positive, and the constructor
    rejects year [year - 1], month 1 and that day. *)
Theorem from_datetime_before_1900 (T : tables_ok) (g n0 nw : datetime) :
  newyear_of 1900 = Ok n0 -> valid g = true ->
  1700 <= year g <= 1900 -> toordinal g < toordinal n0 ->
  newyear_of (year g + 200) = Ok nw ->
  from_datetime g
  = Raise (TypeError (invalid_message (year g - 1) 1
                        (toordinal g - toordinal nw + 1) false)).
Proof.
  intros Hn0 Vg Hy Hlt Hnw.
  destruct (year_data 1900 T ltac:(lia)) as (_ & a & _ & _ & Ha & Ya & Va & _).
  assert (a = n0) by congruence. subst a.
  pose proof (toordinal_in_year _ Va) as B0. rewrite Ya in B0.
  pose proof (toordinal_in_year _ Vg) as Bg.
  (* the New Year looked up for the Gregorian year of [g] *)
  assert (HY : exists nY, newyear_of (year g) = Ok nY
                          /\ toordinal g < toordinal nY).
  { destruct (Z.eq_dec (year g) 1900) as [E | N].
    - exists n0. rewrite E. split; assumption.
    - destruct (year_data (year g + 201) T ltac:(lia))
        as (_ & b & _ & _ & Hb & Yb & Vb & _).
      exists b. split.
      + unfold newyear_of in *.
        rewrite (index_wraps LUNARNEWYEAR) by (apply (ok_size T) || lia).
        exact Hb.
      + pose proof (toordinal_in_year _ Vb) as Bb. rewrite Yb in Bb.
        pose proof (days_before_year_mono (year g + 1) (year g + 201)
                      ltac:(lia)). lia. }
  destruct HY as (nY & HnY & Hbefore).
  destruct (year_data (year g + 200) T ltac:(lia))
    as (c & nw' & Hc & Pc & Hnw' & Yw & Vw & Mw).
  assert (nw' = nw) by congruence. subst nw'. clear Hnw'.
  assert (Hcw : code_of (year g - 1) = Ok c).
  { unfold code_of in *.
    rewrite (index_wraps LUNARYEARCODE) by (apply (ok_size T) || lia).
    replace (year g - 1 + 201) with (year g + 200) by lia. exact Hc. }
  assert (Hnl : newyear_of (year g - 1) = Ok nw).
  { unfold newyear_of in *.
    rewrite (index_wraps LUNARNEWYEAR) by (apply (ok_size T) || lia).
    replace (year g - 1 + 201) with (year g + 200) by lia. exact Hnw. }
  assert (Hly : year g - 1
                = year g - Py.int_of_bool (toordinal g <? toordinal nY)).
  { destruct (Z.ltb_spec (toordinal g) (toordinal nY)); cbn; lia. }
  rewrite (from_datetime_step g nY nw (year g - 1) c Vg HnY Hly Hnl Hcw).
  pose proof (toordinal_in_year _ Vw) as Bw. rewrite Yw in Bw.
  pose proof (days_before_year_mono (year g + 1) (year g + 200) ltac:(lia)).
  pose proof (month_len_range (Z.testbit c 15)).
  rewrite (find_month_first _ _ _ (index_first_month c)) by lia.
  cbn [bind]. rewrite month_of_slot_1, leap_of_slot_1.
  apply (init_invalid _ _ _ c _ nw); try assumption.
  apply validate_outside. unfold in_range. lia.
Qed.

(** X14. For a year up to 1699 or from 2101 on [from_datetime] raises
    [IndexError]: the year's index is outside the table, or (1699) the
    index of the year before is. *)
Theorem from_datetime_index_error (T : tables_ok) (g : datetime) :
  valid g = true -> year g <= 1699 \/ 2101 <= year g ->
  from_datetime g = Raise IndexError.
Proof.
  intros Vg Hy. unfold from_datetime.
  destruct (Z.le_gt_cases 2101 (year g)) as [H | H].
  { rewrite (index_past_end _ _ (proj2 (ok_size T)) H). reflexivity. }
  destruct (Z.lt_ge_cases (year g) 1699) as [L | G].
  { rewrite (index_before_start _ _ (proj2 (ok_size T)) L). reflexivity. }
  assert (E : year g = 1699) by lia.
  destruct (year_data 1900 T ltac:(lia)) as (_ & n0 & _ & _ & Hn0 & Y0 & V0 & M0).
  assert (Hw : newyear_of (year g) = Ok n0).
  { unfold newyear_of in *. rewrite E.
    rewrite (index_wraps LUNARNEWYEAR) by (apply (ok_size T) || lia).
    exact Hn0. }
  unfold newyear_of in Hw.
  destruct (Py.index LUNARNEWYEAR (year g - 1900)) as [s|]; [|discriminate].
  cbn [bind] in *. rewrite Hw. cbn [bind].
  destruct (sub_before n0 g V0 Vg M0) as (gap & -> & Hpos). cbn [bind].
  rewrite Hpos.
  pose proof (toordinal_in_year _ V0) as B0. rewrite Y0 in B0.
  pose proof (toordinal_in_year _ Vg) as Bg.
  pose proof (days_before_year_mono (year g + 1) 1900 ltac:(lia)).
  destruct (Z.ltb_spec (toordinal g) (toordinal n0)); [|lia].
  cbn [Py.int_of_bool]. rewrite E.
  rewrite (index_before_start LUNARNEWYEAR (1699 - 1))
    by (apply (ok_size T) || lia).
  reflexivity.
Qed.

(** X15. The time of day of the argument plays no part in
    [from_datetime], whatever the tables. *)
Theorem from_datetime_ignores_time (g : datetime) :
  valid g = true -> from_datetime g = from_datetime (midnight g).
Proof.
  intros Vg. destruct (midnight_facts g Vg) as (Vm & Mm & Om & Ym).
  unfold from_datetime. rewrite Ym.
  destruct (Py.index LUNARNEWYEAR (year g - 1900)) as [s|]; [|reflexivity].
  cbn [bind].
  destruct (strptime_Ymd s) as [nY|] eqn:EY; [|reflexivity]. cbn [bind].
  destruct (strptime_Ymd_valid _ _ EY) as (VY & MY).
  destruct (sub_before nY g VY Vg MY) as (gap & -> & Hpos).
  destruct (sub_before nY (midnight g) VY Vm MY) as (gap' & -> & Hpos').
  cbn [bind]. rewrite Hpos, Hpos', Om.
  set (ly := year g - _).
  destruct (Py.index LUNARNEWYEAR (ly - 1900)) as [s'|]; [|reflexivity].
  cbn [bind].
  destruct (strptime_Ymd s') as [nl|] eqn:El; [|reflexivity]. cbn [bind].
  destruct (strptime_Ymd_valid _ _ El) as (Vl & Ml).
  destruct (sub_days g nl Vg Vl Ml) as (since & -> & Hs).
  destruct (sub_days (midnight g) nl Vm Vl Ml) as (since' & -> & Hs').
  cbn [bind]. rewrite Hs, Hs', Om. reflexivity.
Qed.

Lemma to_datetime_ordinal (T : tables_ok) (z : ZhDate) :
  constructed z ->
  to_datetime z = Ok (fromordinal (ordinal_of z))
  /\ valid (fromordinal (ordinal_of z)) = true
  /\ at_midnight (fromordinal (ordinal_of z))
  /\ toordinal (fromordinal (ordinal_of z)) = ordinal_of z
  /\ 1 <= ordinal_of z <= 767400.
Proof.
  intros C. destruct (to_datetime_constructed T z C) as (Ht & _ & Ho).
  destruct (fromordinal_spec _ (ordinal_ok _ Ho)) as (V & M & O).
  unfold ordinal_of. auto.
Qed.

Lemma add_int_spec (T : tables_ok) (z : ZhDate) (n : Z) :
  constructed z ->
  __add__ z (VInt n)
  = if ordinal_in_range (ordinal_of z + n)
    then from_datetime (fromordinal (ordinal_of z + n))
    else Raise OverflowError.
Proof.
  intros C. destruct (to_datetime_ordinal T z C) as (Ht & V & M & O & _).
  unfold __add__. rewrite Ht, bind_Ok.
  pose proof (add_whole_days _ n V M) as A. rewrite O in A.
  exact (bind_bind_cases _ _ (fun moved => from_datetime moved) _ _ _ A).
Qed.

Lemma sub_int_spec (T : tables_ok) (z : ZhDate) (n : Z) :
  constructed z ->
  __sub__ z (VInt n)
  = if ordinal_in_range (ordinal_of z - n)
    then z' <- from_datetime (fromordinal (ordinal_of z - n)) ;;
         Ok (VZhDate z')
    else Raise OverflowError.
Proof.
  intros C. destruct (to_datetime_ordinal T z C) as (Ht & V & M & O & _).
  unfold __sub__. rewrite Ht, bind_Ok.
  pose proof (sub_whole_days _ n V M) as A. rewrite O in A.
  exact (bind_bind_cases _ _
           (fun moved => z' <- from_datetime moved ;; Ok (VZhDate z'))
           _ _ _ A).
Qed.

(** A successful [from_datetime] of a day returns the lunar date of that
    day. *)
Lemma from_datetime_ordinal (T : tables_ok) (o : Z) (z : ZhDate) :
  1 <= o <= MAXORDINAL -> from_datetime (fromordinal o) = Ok z ->
  constructed z /\ ordinal_of z = o.
Proof.
  intros Ho H. split; [apply (from_datetime_constructed _ _ H)|].
  destruct (fromordinal_spec o Ho) as (V & M & O).
  destruct (year_data 1900 T ltac:(lia)) as (_ & n0 & _ & _ & Hn0 & _).
  destruct (from_datetime_ok_range T _ n0 z Hn0 V H) as (Hy & H0).
  destruct (year_data _ T Hy) as (_ & nY & _ & _ & HnY & _).
  destruct (from_datetime_spec T _ n0 nY V Hy Hn0 H0 HnY)
    as (z' & Hf & _ & _ & _ & _ & Hord & _).
  assert (z' = z) by congruence. subst z'.
  unfold ordinal_of. rewrite Hord. exact O.
Qed.

Lemma from_datetime_covered (T : tables_ok) (n0 : datetime) (o : Z) :
  newyear_of 1900 = Ok n0 ->
  toordinal n0 <= o <= days_before_year 2101 ->
  exists z, from_datetime (fromordinal o) = Ok z
            /\ constructed z /\ ordinal_of z = o.
Proof.
  intros Hn0 Ho.
  destruct (year_data 1900 T ltac:(lia)) as (_ & a & _ & _ & Ha & Ya & Va & _).
  assert (a = n0) by congruence. subst a.
  pose proof (toordinal_in_year _ Va) as B0. rewrite Ya in B0.
  change (days_before_year 1900) with 693595 in B0.
  change (days_before_year 2101) with 767009 in Ho.
  assert (R : 1 <= o <= MAXORDINAL) by (unfold MAXORDINAL; lia).
  destruct (fromordinal_spec o R) as (V & M & O).
  pose proof (toordinal_in_year _ V) as Bo. rewrite O in Bo.
  assert (Hy : 1900 <= year (fromordinal o) <= 2100).
  { split.
    - destruct (Z.le_gt_cases 1900 (year (fromordinal o))); [assumption|].
      pose proof (days_before_year_mono (year (fromordinal o) + 1) 1900
                    ltac:(lia)) as Mo.
      change (days_before_year 1900) with 693595 in Mo. lia.
    - destruct (Z.le_gt_cases (year (fromordinal o)) 2100); [assumption|].
      pose proof (days_before_year_mono 2101 (year (fromordinal o))
                    ltac:(lia)) as Mo.
      change (days_before_year 2101) with 767009 in Mo. lia. }
  destruct (year_data _ T Hy) as (_ & nY & _ & _ & HnY & _).
  destruct (from_datetime_spec T _ n0 nY V Hy Ha ltac:(lia) HnY)
    as (z & Hf & _ & _ & _ & _ & Hord & _).
  exists z. split; [assumption|].
  split; [apply (from_datetime_constructed _ _ Hf)|].
  unfold ordinal_of. rewrite Hord. exact O.
Qed.

(** X16. Adding [n] days moves the Gregorian date by [n] days, when the
    moved date lies between the New Year of 1900 and the end of 2100. *)
Theorem add_moves_gregorian_date
  (T : tables_ok) (n0 : datetime) (z : ZhDate) (n : Z) :
  newyear_of 1900 = Ok n0 -> constructed z ->
  toordinal n0 <= ordinal_of z + n <= days_before_year 2101 ->
  exists z', __add__ z (VInt n) = Ok z'
             /\ to_datetime z' = Ok (fromordinal (ordinal_of z + n)).
Proof.
  intros Hn0 C Ho.
  destruct (from_datetime_covered T n0 _ Hn0 Ho) as (z' & Hf & C' & O').
  exists z'. rewrite (add_int_spec T z n C).
  destruct (newyear_valid _ _ Hn0) as (V0 & _).
  pose proof (toordinal_range _ V0) as R0.
  change (days_before_year 2101) with 767009 in Ho.
  rewrite ordinal_in_range_true by (unfold MAXORDINAL in *; lia).
  split; [exact Hf|].
  destruct (to_datetime_ordinal T z' C') as (Ht & _). rewrite Ht, O'.
  reflexivity.
Qed.

(** X17. Subtracting the days just added gives the date back, when both
    Gregorian dates lie up to the end of 2100 and the moved one from the
    New Year of 1900 on. *)
Theorem add_then_sub
  (T : tables_ok) (n0 : datetime) (z : ZhDate) (n : Z) :
  newyear_of 1900 = Ok n0 -> constructed z ->
  ordinal_of z <= days_before_year 2101 ->
  toordinal n0 <= ordinal_of z + n <= days_before_year 2101 ->
  exists z', __add__ z (VInt n) = Ok z'
             /\ __sub__ z' (VInt n) = Ok (VZhDate z).
Proof.
  intros Hn0 C Hz Ho.
  destruct (from_datetime_covered T n0 _ Hn0 Ho) as (z' & Hf & C' & O').
  exists z'. rewrite (add_int_spec T z n C).
  destruct (newyear_valid _ _ Hn0) as (V0 & _).
  pose proof (toordinal_range _ V0) as R0.
  destruct (to_datetime_ordinal T z C) as (Ht & _ & _ & _ & Rz).
  change (days_before_year 2101) with 767009 in *.
  rewrite ordinal_in_range_true by (unfold MAXORDINAL in *; lia).
  split; [exact Hf|].
  rewrite (sub_int_spec T z' n C'), O'.
  replace (ordinal_of z + n - n) with (ordinal_of z) by lia.
  rewrite ordinal_in_range_true by (unfold MAXORDINAL in *; lia).
  (* the way back is the round trip of [z] *)
  destruct C as (y & m & d & leap & Hi).
  destruct (roundtrip_lunar T y m d leap z Hi) as (dt & Hdt & Hback).
  assert (dt = fromordinal (ordinal_of z)) by congruence. subst dt.
  rewrite Hback; [reflexivity|].
  pose proof (ordinal_ok _ Rz) as Rz'.
  destruct (fromordinal_spec _ Rz') as (V & _ & O).
  pose proof (toordinal_in_year _ V) as B. rewrite O in B.
  destruct (Z.le_gt_cases (year (fromordinal (ordinal_of z))) 2100);
    [assumption|].
  pose proof (days_before_year_mono 2101 (year (fromordinal (ordinal_of z)))
                ltac:(lia)) as Mo.
  change (days_before_year 2101) with 767009 in Mo. lia.
Qed.

(** X18. Adding [a] days and then [b] days is adding [a + b] days, errors
    included, whenever the first addition succeeds. *)
Theorem add_add (T : tables_ok) (z z1 : ZhDate) (a b : Z) :
  constructed z -> __add__ z (VInt a) = Ok z1 ->
  __add__ z1 (VInt b) = __add__ z (VInt (a + b)).
Proof.
  intros C H. rewrite (add_int_spec T z a C) in H.
  destruct (ordinal_in_range (ordinal_of z + a)) eqn:R; [|discriminate].
  assert (R' : 1 <= ordinal_of z + a <= MAXORDINAL)
    by (unfold ordinal_in_range in R; lia).
  destruct (from_datetime_ordinal T _ z1 R' H) as (C1 & O1).
  rewrite (add_int_spec T z1 b C1), (add_int_spec T z (a + b) C), O1.
  replace (ordinal_of z + (a + b)) with (ordinal_of z + a + b) by lia.
  reflexivity.
Qed.

(** X21. The difference of two constructed dates is the difference of
    their Gregorian days, and the opposite number the other way round. *)
Theorem sub_dates_antisymmetric (T : tables_ok) (z1 z2 : ZhDate) :
  constructed z1 -> constructed z2 ->
  __sub__ z1 (VZhDate z2) = Ok (VInt (ordinal_of z1 - ordinal_of z2))
  /\ __sub__ z2 (VZhDate z1) = Ok (VInt (- (ordinal_of z1 - ordinal_of z2))).
Proof.
  intros C1 C2.
  destruct (to_datetime_ordinal T z1 C1) as (H1 & V1 & M1 & O1 & _).
  destruct (to_datetime_ordinal T z2 C2) as (H2 & V2 & M2 & O2 & _).
  unfold __sub__. rewrite H1, H2, !bind_Ok.
  destruct (sub_days _ _ V1 V2 M2) as (td & -> & Hd).
  destruct (sub_days _ _ V2 V1 M1) as (td' & -> & Hd').
  rewrite !bind_Ok, Hd, Hd', O1, O2. split; [reflexivity|].
  f_equal. f_equal. lia.
Qed.

(** X19. The date [n] days later differs from the date by [n] days. *)
Theorem add_sub_difference
  (T : tables_ok) (n0 : datetime) (z : ZhDate) (n : Z) :
  newyear_of 1900 = Ok n0 -> constructed z ->
  toordinal n0 <= ordinal_of z + n <= days_before_year 2101 ->
  exists z', __add__ z (VInt n) = Ok z'
             /\ __sub__ z' (VZhDate z) = Ok (VInt n).
Proof.
  intros Hn0 C Ho.
  destruct (from_datetime_covered T n0 _ Hn0 Ho) as (z' & Hf & C' & O').
  exists z'. rewrite (add_int_spec T z n C).
  destruct (newyear_valid _ _ Hn0) as (V0 & _).
  pose proof (toordinal_range _ V0) as R0.
  change (days_before_year 2101) with 767009 in Ho.
  rewrite ordinal_in_range_true by (unfold MAXORDINAL in *; lia).
  split; [exact Hf|].
  destruct (to_datetime_ordinal T z C) as (H1 & V1 & M1 & O1 & _).
  destruct (to_datetime_ordinal T z' C') as (H2 & V2 & M2 & O2 & _).
  unfold __sub__. rewrite H1, H2, !bind_Ok.
  destruct (sub_days _ _ V2 V1 M1) as (td & -> & Hd).
  rewrite bind_Ok, Hd, O1, O2, O'. f_equal. f_equal. lia.
Qed.

(** X22. Subtracting a datetime gives the whole days from it up to the
    midnight of the date: the difference of the days, less one when the
    datetime is past its own midnight. *)
Theorem sub_datetime_floors (T : tables_ok) (z : ZhDate) (g : datetime) :
  constructed z -> valid g = true ->
  __sub__ z (VDatetime g)
  = Ok (VInt (ordinal_of z - toordinal g
              - (if (secs_of_day g =? 0) && (microsecond g =? 0)
                 then 0 else 1))).
Proof.
  intros C Vg.
  destruct (to_datetime_ordinal T z C) as (H1 & V1 & M1 & O1 & _).
  unfold __sub__. rewrite H1, bind_Ok.
  destruct (sub_midnight_days _ g V1 Vg M1) as (td & -> & Hd).
  rewrite bind_Ok, Hd, O1. reflexivity.
Qed.

(** X20. An addition whose Gregorian result falls in 2101 raises
    [IndexError], also when that day still belongs to lunar year 2100. *)
Theorem add_into_2101 (T : tables_ok) (z : ZhDate) (n : Z) :
  constructed z ->
  days_before_year 2101 < ordinal_of z + n <= days_before_year 2102 ->
  __add__ z (VInt n) = Raise IndexError.
Proof.
  intros C Ho. rewrite (add_int_spec T z n C).
  change (days_before_year 2101) with 767009 in Ho.
  change (days_before_year 2102) with 767374 in Ho.
  rewrite ordinal_in_range_true by (unfold MAXORDINAL; lia).
  assert (Y : year (fromordinal (ordinal_of z + n)) = 2101).
  { apply year_fromordinal; [lia|].
    change (days_before_year 2101) with 767009.
    change (days_before_year (2101 + 1)) with 767374. lia. }
  unfold from_datetime. rewrite Y.
  rewrite (index_past_end _ 2101 (proj2 (ok_size T))) by lia. reflexivity.
Qed.

(** X25. The stem-branch name has period 60. *)
Theorem tiandi_cycle_60 (n : Z) : __tiandi (n + 60) = __tiandi n.
Proof.
  unfold __tiandi. destruct (tiandi_mod n) as [-> ->]. reflexivity.
Qed.

(** X26. For the year [y] the formatter takes the stem at index
    [(y - 1900 + 6) mod 10] and the branch at index [(y - 1900) mod 12],
    the index of the year's animal. *)
Theorem tiandi_of_year (y : Z) :
  __tiandi (y - 1900 + 36)
  = (t <- Py.index TIANGAN ((y - 1900 + 6) mod 10) ;;
     d <- Py.index DIZHI ((y - 1900) mod 12) ;;
     Ok (t ++ d)%string).
Proof.
  unfold __tiandi.
  replace ((y - 1900 + 36) mod 10) with ((y - 1900 + 6) mod 10)
    by (replace (y - 1900 + 36) with (y - 1900 + 6 + 3 * 10) by lia;
        symmetry; apply Z.mod_add; lia).
  replace ((y - 1900 + 36) mod 12) with ((y - 1900) mod 12)
    by (replace (y - 1900 + 36) with (y - 1900 + 3 * 12) by lia;
        symmetry; apply Z.mod_add; lia).
  reflexivity.
Qed.

(** X7. [month_days] on the three kinds of year: the decoded code of a
    year of the table; for 1699..1899 the months of the year 201 years
    later, since the negative index wraps; [IndexError] elsewhere. *)
Theorem month_days_edges :
  table_size ->
  (forall y, 1900 <= y <= 2100 ->
     exists c, code_of y = Ok c /\ month_days y = Ok (decode c))
  /\ (forall y, 1699 <= y <= 1899 -> month_days y = month_days (y + 201))
  /\ (forall y, y < 1699 \/ 2101 <= y -> month_days y = Raise IndexError).
Proof.
  intros [Hc _]. split; [|split].
  - intros y Hy. destruct (code_in_table y Hc Hy) as (c & Ec & _).
    exists c. split; [assumption|]. unfold month_days.
    unfold code_of in Ec. rewrite Ec. reflexivity.
  - intros y Hy. unfold month_days.
    rewrite (index_wraps LUNARYEARCODE) by assumption. reflexivity.
  - intros y [L | G]; unfold month_days.
    + rewrite index_before_start by assumption. reflexivity.
    + rewrite index_past_end by assumption. reflexivity.
Qed.

Lemma validate_returns (y m d : Z) (leap : bool) :
  length LUNARYEARCODE = 201%nat ->
  exists b, validate y m d leap = Ok b.
Proof.
  intros Hlen. unfold validate.
  destruct (negb _) eqn:E; [eexists; reflexivity|].
  apply negb_false_iff in E. apply in_range_test in E.
  destruct (code_in_table y Hlen (proj1 E)) as (c & Hc & _).
  unfold code_of in Hc. rewrite Hc. cbn [bind].
  repeat match goal with
         | |- context [if ?b then _ else _] => destruct b
         end; eexists; reflexivity.
Qed.

(** X6. What the constructor does for every year: [IndexError] below
    1699 and from 2101 on, where an index is outside the tables; from
    1699 to 2100 the validation [TypeError] when [validate] returns false
    and the object, with the year's code and New Year, when it returns
    true. *)
Theorem init_outcomes (y m d : Z) (leap : bool) :
  table_size -> newyears_dated ->
  ((y < 1699 \/ 2101 <= y) -> __init__ y m d leap = Raise IndexError)
  /\ (1699 <= y <= 2100 ->
      (validate y m d leap = Ok false
       /\ __init__ y m d leap
          = Raise (TypeError (invalid_message y m d leap)))
      \/ (validate y m d leap = Ok true
          /\ exists c ny, code_of y = Ok c /\ newyear_of y = Ok ny
             /\ __init__ y m d leap = Ok (mkZhDate y m d leap c ny))).
Proof.
  intros Hs Hd. split.
  - intros [L | G].
    + unfold __init__. rewrite (index_before_start _ y (proj1 Hs) L).
      reflexivity.
    + apply init_past_table; [apply Hs | assumption].
  - intros Hy.
    destruct (lookups_in_table y Hs Hd Hy) as (c & ny & Hc & Hn).
    destruct (validate_returns y m d leap (proj1 Hs)) as ([|] & Hv).
    + right. split; [assumption|]. exists c, ny.
      split; [assumption|]. split; [assumption|].
      apply init_valid; assumption.
    + left. split; [assumption|]. eapply init_invalid; eassumption.
Qed.

(** X24. On constructed dates [__eq__], which compares the four fields,
    holds exactly of equal objects: code and New Year follow from the
    year. *)
Theorem eq_constructed (z1 z2 : ZhDate) :
  constructed z1 -> constructed z2 ->
  __eq__ z1 z2 = true <-> z1 = z2.
Proof.
  intros (y & m & d & leap & H1) (y' & m' & d' & leap' & H2).
  destruct (init_inv _ _ _ _ _ H1) as (c & ny & Hc & Hn & _ & ->).
  destruct (init_inv _ _ _ _ _ H2) as (c' & ny' & Hc' & Hn' & _ & ->).
  unfold __eq__. cbn [lunar_year lunar_month lunar_day leap_month]. split.
  - intros E. apply andb_true_iff in E. destruct E as [E El].
    apply andb_true_iff in E. destruct E as [E Ed].
    apply andb_true_iff in E. destruct E as [Ey Em].
    apply Z.eqb_eq in Ey, Em, Ed. apply Bool.eqb_prop in El. subst y' m' d' leap'.
    assert (c' = c) by congruence. assert (ny' = ny) by congruence.
    subst. reflexivity.
  - intros E. injection E as -> -> -> -> _ _.
    rewrite !Z.eqb_refl, Bool.eqb_reflx. reflexivity.
Qed.

Lemma ordinal_year_lt (T : tables_ok) (z1 z2 : ZhDate) :
  constructed z1 -> constructed z2 ->
  lunar_year z1 < lunar_year z2 -> ordinal_of z1 < ordinal_of z2.
Proof.
  intros C1 C2 L.
  destruct (to_datetime_constructed T z1 C1) as (_ & Hd1 & _).
  destruct (to_datetime_constructed T z2 C2) as (_ & Hd2 & _).
  destruct (constructed_facts T z1 C1)
    as (y & m & d & leap & c & ny & -> & Hy & Hc & Pc & Hn & Yn & Vn & Mn & Hv).
  destruct (constructed_facts T z2 C2)
    as (y' & m' & d' & leap' & c' & ny' & -> & Hy' & Hc' & Pc' & Hn' & Yn' & Vn' & Mn' & Hv').
  unfold ordinal_of. cbn [newyear year_code lunar_year] in *.
  destruct (year_data (y + 1) T ltac:(lia)) as (_ & b & _ & _ & Hb & _).
  pose proof (ok_chained T y c ny b ltac:(lia) Hc Hn Hb) as Ch.
  destruct (Z.eq_dec (y + 1) y') as [Q | N].
  - rewrite Q in Hb. assert (b = ny') by congruence. subst b. lia.
  - pose proof (newyear_mono T (y + 1) y' b ny' ltac:(lia) ltac:(lia)
                  ltac:(lia) Hb Hn'). lia.
Qed.

Lemma ordinal_lunar_before (T : tables_ok) (z1 z2 : ZhDate) :
  constructed z1 -> constructed z2 ->
  lunar_before z1 z2 -> ordinal_of z1 < ordinal_of z2.
Proof.
  intros C1 C2 [L | (E & L)]; [apply (ordinal_year_lt T); assumption|].
  destruct (constructed_facts T z1 C1)
    as (y & m & d & leap & c & ny & -> & Hy & Hc & Pc & Hn & Yn & Vn & Mn & Hv).
  destruct (constructed_facts T z2 C2)
    as (y' & m' & d' & leap' & c' & ny' & -> & Hy' & Hc' & Pc' & Hn' & Yn' & Vn' & Mn' & Hv').
  unfold slot_of in L.
  cbn [newyear year_code lunar_year lunar_month lunar_day leap_month] in *.
  rewrite <- E in *. clear E y'.
  assert (c' = c) by congruence. assert (ny' = ny) by congruence.
  subst c' ny'.
  destruct (validate_slot _ _ _ _ _ Hc Hv) as (R & Hp & (x & Hx & Hd) & _).
  destruct (validate_slot _ _ _ _ _ Hc Hv') as (R' & Hp' & (x' & Hx' & Hd') & _).
  unfold ordinal_of. cbn [newyear]. rewrite !days_passed_slot.
  unfold in_range in R, R'.
  destruct L as [L | (Es & L)].
  - destruct (index_split _ _ _ Hp' Hx') as (Hlen' & _ & _).
    pose proof (prefix_sum_step (decode c) _ _ x (decode_nonneg c)
                  (conj Hp L) ltac:(lia) Hx). lia.
  - rewrite Es. lia.
Qed.

(** X23. The difference of two constructed dates is positive exactly when
    the first is the later one in the order of year, slot and day. *)
Theorem sub_sign_is_lunar_order (T : tables_ok) (z1 z2 : ZhDate) :
  constructed z1 -> constructed z2 ->
  exists k, __sub__ z1 (VZhDate z2) = Ok (VInt k)
            /\ (0 < k <-> lunar_before z2 z1).
Proof.
  intros C1 C2.
  destruct (to_datetime_ordinal T z1 C1) as (H1 & V1 & M1 & O1 & _).
  destruct (to_datetime_ordinal T z2 C2) as (H2 & V2 & M2 & O2 & _).
  exists (ordinal_of z1 - ordinal_of z2). split.
  - unfold __sub__. rewrite H1, H2, !bind_Ok.
    destruct (sub_days _ _ V1 V2 M2) as (td & -> & Hd).
    rewrite bind_Ok, Hd, O1, O2. reflexivity.
  - split.
    + intros Hk.
      assert (D : lunar_before z2 z1 \/ lunar_before z1 z2
                  \/ (lunar_year z1 = lunar_year z2
                      /\ slot_of z1 = slot_of z2
                      /\ lunar_day z1 = lunar_day z2))
        by (unfold lunar_before; lia).
      destruct D as [D | [D | (Ey & Es & Ed)]]; [assumption| |]; exfalso.
      * pose proof (ordinal_lunar_before T z1 z2 C1 C2 D). lia.
      * destruct (constructed_facts T z1 C1)
          as (y & m & d & leap & c & ny & -> & Hy & Hc & Pc & Hn & _).
        destruct (constructed_facts T z2 C2)
          as (y' & m' & d' & leap' & c' & ny' & -> & Hy' & Hc' & Pc' & Hn' & _).
        unfold slot_of, ordinal_of in *.
        cbn [newyear year_code lunar_year lunar_month lunar_day leap_month] in *.
        rewrite !days_passed_slot in Hk.
        rewrite <- Ey in *. assert (c' = c) by congruence.
        assert (ny' = ny) by congruence. subst c' ny'.
        rewrite Es, Ed in Hk. lia.
    + intros L. pose proof (ordinal_lunar_before T z2 z1 C2 C1 L). lia.
Qed.

(** C8, at the inputs where it fails.  The last days of lunar year 2100
    fall in January 2101: for a date the constructor accepts whose
    Gregorian date [dt] lies in 2101, the lunar year is 2100, that is
    [dt.year - 1], the year [from_datetime] is to assign to [dt].  The
    code first looks up the New Year of [dt.year],
    entry 201 of a table of 201 entries, and raises [IndexError]: it
    assigns no lunar year at all. *)
Theorem from_datetime_loses_end_of_2100
  (T : tables_ok) (z : ZhDate) (dt : datetime) :
  constructed z -> to_datetime z = Ok dt -> year dt = 2101 ->
  valid dt = true
  /\ lunar_year z = year dt - 1
  /\ from_datetime dt = Raise IndexError
  /\ ~ (exists z', from_datetime dt = Ok z' /\ lunar_year z' = year dt - 1).
Proof.
  intros C Ht Hy.
  destruct (to_datetime_ordinal T z C) as (Eo & Vo & _ & _ & _).
  rewrite Eo in Ht. apply Ok_inj in Ht.
  destruct (to_datetime_constructed T z C) as (_ & Hp & _).
  destruct (constructed_facts T z C)
    as (y & m & d & leap & c & ny & -> & Ry & Hc & _ & Hn & Yn & _).
  cbn [lunar_year year_code newyear] in *.
  assert (F : from_datetime dt = Raise IndexError).
  { unfold from_datetime. rewrite Hy.
    rewrite (index_past_end _ 2101 (proj2 (ok_size T))) by lia.
    reflexivity. }
  split; [rewrite <- Ht; exact Vo|]. split; [|split].
  - destruct (lunar_date_year T y c
                (ordinal_of (mkZhDate y m d leap c ny)) ny Ry Hc Hn Yn)
      as [E | (L & N)].
    + unfold ordinal_of. cbn [newyear]. lia.
    + rewrite Ht in E. lia.
    + rewrite Ht in *.
      destruct (Z.eq_dec y 2100) as [-> | Ne]; [lia|].
      destruct (N ltac:(lia)) as (E & _). lia.
  - exact F.
  - intros (z' & Hz & _). rewrite F in Hz. discriminate Hz.
Qed.

End Further.

(** ** The further properties on the concrete tables *)

Lemma sample_constructed_leap :
  @constructed sample_constants
    (mkZhDate 2023 2 11 true 23378 (mkdatetime 2023 1 22 0 0 0 0)).
Proof. exists 2023, 2, 11, true. reflexivity. Qed.

Lemma sample_constructed_newyear :
  @constructed sample_constants
    (mkZhDate 2024 1 1 false 19296 (mkdatetime 2024 2 10 0 0 0 0)).
Proof. exists 2024, 1, 1, false. reflexivity. Qed.

Lemma sample_newyear_1900 :
  @newyear_of sample_constants 1900 = Ok (mkdatetime 1900 1 31 0 0 0 0).
Proof. reflexivity. Qed.

Lemma decode_leap_field_past_12_witness :
  decode 13 = spec_regular 13 ++ [month_len (Py.truthy (Z.shiftr 13 16))].
Proof.
  apply (decode_leap_field_past_12 13). vm_compute. discriminate.
Defined.

Lemma decode_leap_length_any_high_bit_witness :
  Py.index (decode 19416) (leap_field 19416)
  = Ok (if (0 <=? 19416) && (19416 <? 2 ^ 16) then 29 else 30).
Proof.
  apply (decode_leap_length_any_high_bit 19416).
  vm_compute. split; discriminate.
Defined.

Lemma validate_iff_slot_witness :
  @validate sample_constants 2023 2 30 false = Ok true
  <-> exists p x, 0 <= p /\ Py.index (decode 23378) p = Ok x /\ 1 <= 30 <= x
                  /\ month_of_slot 23378 (p + 1) = 2
                  /\ leap_of_slot 23378 (p + 1) = false.
Proof.
  apply (@validate_iff_slot sample_constants 2023 2 30 23378 false).
  - unfold packed. split; [lia | vm_compute; discriminate].
  - lia.
  - reflexivity.
Defined.

Lemma days_passed_enumerates_year_witness :
  exists m d leap,
    @validate sample_constants 2023 m d leap = Ok true
    /\ __days_passed
         (mkZhDate 2023 m d leap 23378 (mkdatetime 2023 1 22 0 0 0 0)) = 50.
Proof.
  apply (@days_passed_enumerates_year sample_constants 2023 23378
           (mkdatetime 2023 1 22 0 0 0 0)).
  - unfold packed. split; [lia | vm_compute; discriminate].
  - lia.
  - reflexivity.
  - vm_compute. split; [discriminate | reflexivity].
Defined.

Lemma init_outcomes_witness :
  @__init__ sample_constants 1698 1 1 false = Raise IndexError.
Proof.
  apply (@init_outcomes sample_constants 1698 1 1 false
           (ok_size sample_tables_ok) (ok_dated sample_tables_ok)).
  left. lia.
Defined.

Lemma month_days_edges_witness :
  @month_days sample_constants 1899 = @month_days sample_constants (1899 + 201).
Proof.
  apply (@month_days_edges sample_constants (ok_size sample_tables_ok)). lia.
Defined.

Lemma to_datetime_in_lunar_year_witness :
  exists dt,
    to_datetime
      (mkZhDate 2023 2 11 true 23378 (mkdatetime 2023 1 22 0 0 0 0)) = Ok dt
    /\ valid dt = true /\ at_midnight dt
    /\ toordinal (mkdatetime 2023 1 22 0 0 0 0) <= toordinal dt
       < toordinal (mkdatetime 2023 1 22 0 0 0 0) + Py.sum (decode 23378)
    /\ 2023 <= year dt.
Proof.
  exact (@to_datetime_in_lunar_year sample_constants sample_tables_ok _
           sample_constructed_leap).
Defined.

Lemma to_datetime_injective_witness :
  mkZhDate 2024 1 1 false 19296 (mkdatetime 2024 2 10 0 0 0 0)
  = mkZhDate 2024 1 1 false 19296 (mkdatetime 2024 2 10 0 0 0 0).
Proof.
  apply (@to_datetime_injective sample_constants sample_tables_ok _ _
           (mkdatetime 2024 2 10 0 0 0 0) sample_constructed_newyear
           sample_constructed_newyear);
    reflexivity.
Defined.

Lemma from_datetime_succeeds_iff_witness :
  (exists z, @from_datetime sample_constants (mkdatetime 1900 1 30 23 59 59 0)
             = Ok z)
  <-> 1900 <= 1900 <= 2100
      /\ toordinal (mkdatetime 1900 1 31 0 0 0 0)
         <= toordinal (mkdatetime 1900 1 30 23 59 59 0).
Proof.
  apply (@from_datetime_succeeds_iff sample_constants sample_tables_ok
           (mkdatetime 1900 1 30 23 59 59 0) (mkdatetime 1900 1 31 0 0 0 0)
           sample_newyear_1900).
  reflexivity.
Defined.

Lemma from_datetime_before_1900_witness :
  @from_datetime sample_constants (mkdatetime 1900 1 9 13 5 0 0)
  = Raise (TypeError (@invalid_message 1899 1 (-73079) false)).
Proof.
  apply (@from_datetime_before_1900 sample_constants sample_tables_ok
           (mkdatetime 1900 1 9 13 5 0 0) (mkdatetime 1900 1 31 0 0 0 0)
           (mkdatetime 2100 2 9 0 0 0 0) sample_newyear_1900);
    try reflexivity.
  cbn. lia.
Defined.

Lemma from_datetime_index_error_witness :
  @from_datetime sample_constants (mkdatetime 1699 6 1 0 0 0 0)
  = Raise IndexError.
Proof.
  apply (@from_datetime_index_error sample_constants sample_tables_ok);
    [reflexivity | left; cbn; lia].
Defined.

Lemma from_datetime_ignores_time_witness :
  @from_datetime sample_constants (mkdatetime 2024 2 9 13 5 0 0)
  = @from_datetime sample_constants (mkdatetime 2024 2 9 0 0 0 0).
Proof.
  apply (@from_datetime_ignores_time sample_constants
           (mkdatetime 2024 2 9 13 5 0 0)).
  reflexivity.
Defined.

Lemma sample_constructed_late :
  @constructed sample_constants
    (mkZhDate 2100 11 1 false 54560 (mkdatetime 2100 2 9 0 0 0 0)).
Proof. exists 2100, 11, 1, false. reflexivity. Qed.

Lemma add_moves_gregorian_date_witness :
  exists z',
    @__add__ sample_constants
      (mkZhDate 2023 2 11 true 23378 (mkdatetime 2023 1 22 0 0 0 0))
      (VInt 30) = Ok z'
    /\ to_datetime z' = Ok (fromordinal (738611 + 30)).
Proof.
  apply (@add_moves_gregorian_date sample_constants sample_tables_ok
           (mkdatetime 1900 1 31 0 0 0 0) _ 30 sample_newyear_1900
           sample_constructed_leap).
  vm_compute. split; discriminate.
Defined.

Lemma add_then_sub_witness :
  exists z',
    @__add__ sample_constants
      (mkZhDate 2023 2 11 true 23378 (mkdatetime 2023 1 22 0 0 0 0))
      (VInt (-30)) = Ok z'
    /\ @__sub__ sample_constants z' (VInt (-30))
       = Ok (VZhDate (mkZhDate 2023 2 11 true 23378
                        (mkdatetime 2023 1 22 0 0 0 0))).
Proof.
  apply (@add_then_sub sample_constants sample_tables_ok
           (mkdatetime 1900 1 31 0 0 0 0) _ (-30) sample_newyear_1900
           sample_constructed_leap).
  - vm_compute. discriminate.
  - vm_compute. split; discriminate.
Defined.

Lemma add_add_witness :
  @__add__ sample_constants
    (mkZhDate 2023 2 21 true 23378 (mkdatetime 2023 1 22 0 0 0 0)) (VInt 400)
  = @__add__ sample_constants
      (mkZhDate 2023 2 11 true 23378 (mkdatetime 2023 1 22 0 0 0 0))
      (VInt (10 + 400)).
Proof.
  apply (@add_add sample_constants sample_tables_ok _ _ 10 400
           sample_constructed_leap).
  vm_compute. reflexivity.
Defined.

Lemma add_sub_difference_witness :
  exists z',
    @__add__ sample_constants
      (mkZhDate 2023 2 11 true 23378 (mkdatetime 2023 1 22 0 0 0 0))
      (VInt 1000) = Ok z'
    /\ @__sub__ sample_constants z'
         (VZhDate (mkZhDate 2023 2 11 true 23378
                     (mkdatetime 2023 1 22 0 0 0 0)))
       = Ok (VInt 1000).
Proof.
  apply (@add_sub_difference sample_constants sample_tables_ok
           (mkdatetime 1900 1 31 0 0 0 0) _ 1000 sample_newyear_1900
           sample_constructed_leap).
  vm_compute. split; discriminate.
Defined.

Lemma add_into_2101_witness :
  @__add__ sample_constants
    (mkZhDate 2100 11 1 false 54560 (mkdatetime 2100 2 9 0 0 0 0)) (VInt 40)
  = Raise IndexError.
Proof.
  apply (@add_into_2101 sample_constants sample_tables_ok _ 40
           sample_constructed_late).
  vm_compute. split; [reflexivity | discriminate].
Defined.

Lemma sub_dates_antisymmetric_witness :
  @__sub__ sample_constants
    (mkZhDate 2024 1 1 false 19296 (mkdatetime 2024 2 10 0 0 0 0))
    (VZhDate (mkZhDate 2023 2 11 true 23378 (mkdatetime 2023 1 22 0 0 0 0)))
  = Ok (VInt 315)
  /\ @__sub__ sample_constants
       (mkZhDate 2023 2 11 true 23378 (mkdatetime 2023 1 22 0 0 0 0))
       (VZhDate (mkZhDate 2024 1 1 false 19296
                   (mkdatetime 2024 2 10 0 0 0 0)))
     = Ok (VInt (-315)).
Proof.
  exact (@sub_dates_antisymmetric sample_constants sample_tables_ok _ _
           sample_constructed_newyear sample_constructed_leap).
Defined.

Lemma sub_datetime_floors_witness :
  @__sub__ sample_constants
    (mkZhDate 2024 1 1 false 19296 (mkdatetime 2024 2 10 0 0 0 0))
    (VDatetime (mkdatetime 2024 2 9 13 5 0 0))
  = Ok (VInt 0).
Proof.
  apply (@sub_datetime_floors sample_constants sample_tables_ok _
           (mkdatetime 2024 2 9 13 5 0 0) sample_constructed_newyear).
  reflexivity.
Defined.

Lemma sub_sign_is_lunar_order_witness :
  exists k,
    @__sub__ sample_constants
      (mkZhDate 2024 1 1 false 19296 (mkdatetime 2024 2 10 0 0 0 0))
      (VZhDate (mkZhDate 2023 2 11 true 23378
                  (mkdatetime 2023 1 22 0 0 0 0)))
    = Ok (VInt k)
    /\ (0 < k
        <-> lunar_before
              (mkZhDate 2023 2 11 true 23378 (mkdatetime 2023 1 22 0 0 0 0))
              (mkZhDate 2024 1 1 false 19296
                 (mkdatetime 2024 2 10 0 0 0 0))).
Proof.
  exact (@sub_sign_is_lunar_order sample_constants sample_tables_ok _ _
           sample_constructed_newyear sample_constructed_leap).
Defined.

Lemma eq_constructed_witness :
  __eq__ (mkZhDate 2024 1 1 false 19296 (mkdatetime 2024 2 10 0 0 0 0))
         (mkZhDate 2023 2 11 true 23378 (mkdatetime 2023 1 22 0 0 0 0))
  = true
  <-> mkZhDate 2024 1 1 false 19296 (mkdatetime 2024 2 10 0 0 0 0)
      = mkZhDate 2023 2 11 true 23378 (mkdatetime 2023 1 22 0 0 0 0).
Proof.
  exact (@eq_constructed sample_constants _ _
           sample_constructed_newyear sample_constructed_leap).
Defined.

Lemma sample_constructed_last :
  @constructed sample_constants
    (mkZhDate 2100 12 29 false 54560 (mkdatetime 2100 2 9 0 0 0 0)).
Proof. exists 2100, 12, 29, false. reflexivity. Qed.

Lemma from_datetime_loses_end_of_2100_witness :
  valid (mkdatetime 2101 1 28 0 0 0 0) = true
  /\ lunar_year
       (mkZhDate 2100 12 29 false 54560 (mkdatetime 2100 2 9 0 0 0 0))
     = year (mkdatetime 2101 1 28 0 0 0 0) - 1
  /\ @from_datetime sample_constants (mkdatetime 2101 1 28 0 0 0 0)
     = Raise IndexError
  /\ ~ (exists z',
          @from_datetime sample_constants (mkdatetime 2101 1 28 0 0 0 0)
          = Ok z'
          /\ lunar_year z' = year (mkdatetime 2101 1 28 0 0 0 0) - 1).
Proof.
  apply (@from_datetime_loses_end_of_2100 sample_constants sample_tables_ok
           (mkZhDate 2100 12 29 false 54560 (mkdatetime 2100 2 9 0 0 0 0))
           (mkdatetime 2101 1 28 0 0 0 0) sample_constructed_last);
    reflexivity.
Defined.
